(** * Convergence orchestration of the GDP middleware helper provider

    A shallow embedding of the cluster-mutating resources of the provider
    (Aurora reboot, Neptune reboot, Aurora modify, Neptune modify) and the
    properties of their control flow: which mutation calls are issued, in
    which order, which waits follow them and what is handed back to the
    framework.

    The Go methods talk to AWS through an SDK client and to Terraform
    through a response object.  Here a method is a computation in a small
    state-and-error monad: the state is the chronological trace of the
    calls made so far, the replies come from an environment that may
    depend on that trace, [AddError ...; return] is the monad's failure,
    and a nil dereference is a panic. *)

From Stdlib Require Import String Ascii List ZArith Bool Arith Lia.
Import ListNotations.
Open Scope string_scope.
Open Scope Z_scope.
Open Scope list_scope.

(** ** Go values *)

(** A Go [error] is kept as its message, the text [%s] prints. *)
Definition error := string.

(** [aws.String], [aws.Bool] and [aws.ToString]: SDK fields are pointers,
    modelled as options with [None] for nil. *)
Definition aws_String (s : string) : option string := Some s.
Definition aws_Bool (b : bool) : option bool := Some b.
Definition aws_ToString (p : option string) : string :=
  match p with Some s => s | None => "" end.

(** [time.Duration] counts nanoseconds. *)
Definition Duration := Z.
Definition Second : Duration := 1000000000.
Definition Minute : Duration := 60 * Second.

(** The wall-clock fields of a [time.Time]; [zoneOffset] is in seconds east
    of UTC. *)
Record Time := {
  year : Z; month : Z; day : Z;
  hour : Z; minute : Z; second : Z;
  zoneOffset : Z
}.

Definition digit (n : Z) : ascii := ascii_of_nat (48 + Z.to_nat (n mod 10)).
Definition pad2 (n : Z) : string := String (digit (n / 10)) (String (digit n) "").
Definition pad4 (n : Z) : string :=
  String (digit (n / 1000)) (String (digit (n / 100)) (pad2 n)).

Definition formatZone (off : Z) : string :=
  if off =? 0 then "Z"
  else
    let m := Z.abs off / 60 in
    let sign := if off <? 0 then "-" else "+" in
    (sign ++ pad2 (m / 60)%Z ++ ":" ++ pad2 (m mod 60)%Z)%string.

(** [t.Format(time.RFC3339)], the layout ["2006-01-02T15:04:05Z07:00"] of
    Go's standard library. *)
Definition Format_RFC3339 (t : Time) : string :=
  (pad4 (year t) ++ "-" ++ pad2 (month t) ++ "-" ++ pad2 (day t) ++ "T"
   ++ pad2 (hour t) ++ ":" ++ pad2 (minute t) ++ ":" ++ pad2 (second t)
   ++ formatZone (zoneOffset t))%string.

(** ** Terraform framework values

    A [types.String] or [types.Bool] is null, unknown or known. *)
Inductive tfvalue (A : Type) : Type :=
| Null
| Unknown
| Known (v : A).
Arguments Null {A}.
Arguments Unknown {A}.
Arguments Known {A} v.

Definition IsNull {A} (v : tfvalue A) : bool :=
  match v with Null => true | _ => false end.
Definition ValueString (v : tfvalue string) : string :=
  match v with Known s => s | _ => "" end.
Definition ValueBool (v : tfvalue bool) : bool :=
  match v with Known b => b | _ => false end.
Definition StringValue (s : string) : tfvalue string := Known s.

(** One error diagnostic: summary and detail of [Diagnostics.AddError]. *)
Record Diagnostic := { Summary : string; Detail : string }.

(** ** SDK data *)

Record DBClusterMember := {
  DBInstanceIdentifier : option string;
  IsClusterWriter : option bool
}.

Record DBCluster := {
  DBClusterMembers : list DBClusterMember;
  Status : option string
}.

Record DescribeDBClustersOutput := { DBClusters : list DBCluster }.

(** ** Calls and the environment

    Every interaction with the outside is one [Call]; the arguments are the
    fields the method sets in the SDK input struct. *)
Inductive Call :=
| LoadDefaultConfig (region : string)
| DescribeDBClusters (DBClusterIdentifier : option string)
| FailoverDBCluster (DBClusterIdentifier TargetDBInstanceIdentifier : option string)
| RebootDBInstance (DBInstanceIdentifier : option string) (ForceFailover : option bool)
| ModifyDBCluster (DBClusterIdentifier DBClusterParameterGroupName : option string)
                  (EnableLogTypes : option (list string))
                  (ApplyImmediately : option bool)
| WaitDBClusterAvailable (DBClusterIdentifier : option string) (maxWaitDur : Duration)
| WaitDBInstanceAvailable (DBInstanceIdentifier : option string) (maxWaitDur : Duration)
| Sleep (d : Duration)
| Now.

Definition Trace := list Call.

(** The replies of AWS and of the clock.  Each takes the trace of the calls
    made before, so a reply may change from one call to the next.  [inl] and
    [Some] carry a non-nil [err]. *)
Record AWS := {
  reply_LoadDefaultConfig : Trace -> string -> option error;
  reply_DescribeDBClusters : Trace -> option string -> error + DescribeDBClustersOutput;
  reply_FailoverDBCluster : Trace -> option string -> option string -> option error;
  reply_RebootDBInstance : Trace -> option string -> option bool -> option error;
  reply_ModifyDBCluster :
    Trace -> option string -> option string -> option (list string) -> option bool ->
    option error;
  reply_WaitDBClusterAvailable : Trace -> option string -> Duration -> option error;
  reply_WaitDBInstanceAvailable : Trace -> option string -> Duration -> option error;
  reply_Now : Trace -> Time
}.

(** ** The monad of a resource method *)

Inductive Result (A : Type) : Type :=
| Ok (a : A)
| Failed (d : Diagnostic)
| Panicked.
Arguments Ok {A} a.
Arguments Failed {A} d.
Arguments Panicked {A}.

Definition M (A : Type) : Type := Trace -> Result A * Trace.

Definition ret {A} (a : A) : M A := fun tr => (Ok a, tr).

Definition bind {A B} (m : M A) (k : A -> M B) : M B :=
  fun tr =>
    match m tr with
    | (Ok a, tr') => k a tr'
    | (Failed d, tr') => (Failed d, tr')
    | (Panicked, tr') => (Panicked, tr')
    end.

Notation "x <- m ;; k" := (bind m (fun x => k))
  (at level 61, m at next level, right associativity).
Notation "m ;;; k" := (bind m (fun _ => k))
  (at level 61, right associativity).

(** [resp.Diagnostics.AddError(summary, detail); return] *)
Definition AddError {A} (summary detail : string) : M A :=
  fun tr => (Failed {| Summary := summary; Detail := detail |}, tr).

(** [*p] *)
Definition deref {A} (p : option A) : M A :=
  fun tr => match p with Some a => (Ok a, tr) | None => (Panicked, tr) end.

(** [for _, x := range l { body }]; a [return] in the body is its failure. *)
Fixpoint forRange {A} (l : list A) (body : A -> M unit) : M unit :=
  match l with
  | [] => ret tt
  | x :: rest => body x ;;; forRange rest body
  end.

(** What the framework gets back: the diagnostics, and the model passed to
    [resp.State.Set] when the method reached it. *)
Record Response (Model : Type) := {
  Diagnostics : list Diagnostic;
  StateSet : option Model
}.
Arguments Diagnostics {Model} r.
Arguments StateSet {Model} r.

Inductive Outcome (Model : Type) : Type :=
| Returned (resp : Response Model)
| Crashed.
Arguments Returned {Model} resp.
Arguments Crashed {Model}.

(** A method body computes the model it stores with [resp.State.Set]: when
    it ends normally the response holds that model and no diagnostic, when
    it ends at an [AddError] the response holds that diagnostic and nothing
    is stored, and a panic leaves no response. *)
Definition respond {Model} (r : Result Model * Trace) : Outcome Model * Trace :=
  match r with
  | (Ok data, tr) => (Returned {| Diagnostics := []; StateSet := Some data |}, tr)
  | (Failed d, tr) => (Returned {| Diagnostics := [d]; StateSet := None |}, tr)
  | (Panicked, tr) => (Crashed, tr)
  end.

(** A method is run from the empty trace. *)
Definition run {Model} (m : M Model) : Outcome Model * Trace := respond (m []).

Definition HasError {Model} (resp : Response Model) : bool :=
  match Diagnostics resp with [] => false | _ => true end.

Section Client.

Variable aws : AWS.

Definition call_LoadDefaultConfig (region : string) : M (option error) :=
  fun tr => (Ok (reply_LoadDefaultConfig aws tr region), tr ++ [LoadDefaultConfig region]).

Definition call_DescribeDBClusters (id : option string)
  : M (error + DescribeDBClustersOutput) :=
  fun tr => (Ok (reply_DescribeDBClusters aws tr id), tr ++ [DescribeDBClusters id]).

Definition call_FailoverDBCluster (id target : option string) : M (option error) :=
  fun tr => (Ok (reply_FailoverDBCluster aws tr id target),
             tr ++ [FailoverDBCluster id target]).

Definition call_RebootDBInstance (inst : option string) (ff : option bool)
  : M (option error) :=
  fun tr => (Ok (reply_RebootDBInstance aws tr inst ff), tr ++ [RebootDBInstance inst ff]).

Definition call_ModifyDBCluster (id pg : option string) (logs : option (list string))
    (now : option bool) : M (option error) :=
  fun tr => (Ok (reply_ModifyDBCluster aws tr id pg logs now),
             tr ++ [ModifyDBCluster id pg logs now]).

(** [rds.NewDBClusterAvailableWaiter(client).Wait(ctx, input, d)] *)
Definition call_WaitDBClusterAvailable (id : option string) (d : Duration)
  : M (option error) :=
  fun tr => (Ok (reply_WaitDBClusterAvailable aws tr id d),
             tr ++ [WaitDBClusterAvailable id d]).

(** [neptune.NewDBInstanceAvailableWaiter(client).Wait(ctx, input, d)] *)
Definition call_WaitDBInstanceAvailable (inst : option string) (d : Duration)
  : M (option error) :=
  fun tr => (Ok (reply_WaitDBInstanceAvailable aws tr inst d),
             tr ++ [WaitDBInstanceAvailable inst d]).

(** [time.Sleep(d)] *)
Definition call_Sleep (d : Duration) : M unit :=
  fun tr => (Ok tt, tr ++ [Sleep d]).

(** [time.Now()] *)
Definition call_Now : M Time :=
  fun tr => (Ok (reply_Now aws tr), tr ++ [Now]).

(** The prelude of every method: with a region in the model a client is
    built for it, otherwise the resource's own client [r.client] is used.
    The methods embedded here are those of a configured resource, whose
    [Configure] has stored a client in [r.client]; [aws] is what that
    client, and a client built for a region, reach.  A resource whose
    [Configure] returned early has a nil [r.client]; its methods are not
    modelled. *)
Definition selectClient (region : tfvalue string) : M unit :=
  if negb (IsNull region) then
    err <- call_LoadDefaultConfig (ValueString region) ;;
    match err with
    | Some e =>
        AddError "Unable to load AWS SDK config"
          ("Unable to load AWS SDK config with region " ++ ValueString region
           ++ ": " ++ e)%string
    | None => ret tt
    end
  else ret tt.

End Client.

(** ** Aurora reboot resource ([aurora_reboot_resource.go]) *)
Module AuroraReboot.

Record Model := {
  ClusterIdentifier : tfvalue string;
  Region : tfvalue string;
  ForceFailover : tfvalue bool;
  LastRebootTime : tfvalue string;
  ID : tfvalue string
}.

Section Methods.

Variable aws : AWS.

(** The scan for a reader, with its [break]:
<<
  for _, member := range cluster.DBClusterMembers {
      if !*member.IsClusterWriter { hasReaderInstance = true; readerInstanceID = ...; break }
  }
>>
    It yields [(hasReaderInstance, readerInstanceID)]. *)
Fixpoint findReader (members : list DBClusterMember) : M (bool * option string) :=
  match members with
  | [] => ret (false, None)
  | member :: rest =>
      isWriter <- deref (IsClusterWriter member) ;;
      if negb isWriter then ret (true, DBInstanceIdentifier member)
      else findReader rest
  end.

(** [DescribeDBClusters] and the two checks after it (Create and Update
    alike). *)
Definition describeCluster (data : Model) : M DBCluster :=
  r <- call_DescribeDBClusters aws (aws_String (ValueString (ClusterIdentifier data))) ;;
  match r with
  | inl err =>
      AddError "Error describing Aurora cluster"
        ("Could not describe Aurora cluster: " ++ err)%string
  | inr describeResult =>
      match DBClusters describeResult with
      | [] =>
          AddError "Aurora cluster not found"
            ("No Aurora cluster found with identifier: "
             ++ ValueString (ClusterIdentifier data))%string
      | cluster :: _ => ret cluster
      end
  end.

(** The body of the fan-out loop for one member. *)
Definition rebootMember (data : Model) (instanceCount : nat) (member : DBClusterMember)
  : M unit :=
  let forceFailover :=
    if (2 <=? instanceCount)%nat && negb (IsNull (ForceFailover data))
    then aws_Bool (ValueBool (ForceFailover data))
    else None in
  name <- deref (DBInstanceIdentifier member) ;;
  err <- call_RebootDBInstance aws (DBInstanceIdentifier member) forceFailover ;;
  match err with
  | Some e =>
      AddError "Error rebooting Aurora instance"
        ("Could not reboot Aurora instance " ++ name ++ ": " ++ e)%string
  | None => ret tt
  end.

(** The choice between failover and per-instance reboots, and the calls. *)
Definition rebootCluster (data : Model) (cluster : DBCluster) : M unit :=
  let instanceCount := length (DBClusterMembers cluster) in
  found <- findReader (DBClusterMembers cluster) ;;
  let '(hasReaderInstance, readerInstanceID) := found in
  if (2 <=? instanceCount)%nat && hasReaderInstance
     && negb (IsNull (ForceFailover data)) && ValueBool (ForceFailover data)
  then
    _ <- deref readerInstanceID ;;
    err <- call_FailoverDBCluster aws
             (aws_String (ValueString (ClusterIdentifier data))) readerInstanceID ;;
    match err with
    | Some e =>
        AddError "Error failing over Aurora cluster"
          ("Could not failover Aurora cluster: " ++ e)%string
    | None => ret tt
    end
  else
    forRange (DBClusterMembers cluster) (rebootMember data instanceCount).

(** The wait on the cluster after the calls. *)
Definition waitCluster (data : Model) : M unit :=
  err <- call_WaitDBClusterAvailable aws
           (aws_String (ValueString (ClusterIdentifier data))) (30 * Minute) ;;
  match err with
  | Some e =>
      AddError "Error waiting for Aurora cluster to become available"
        ("Could not confirm Aurora cluster availability: " ++ e)%string
  | None => ret tt
  end.

Definition Create (data : Model) : M Model :=
  selectClient aws (Region data) ;;;
  cluster <- describeCluster data ;;
  rebootCluster data cluster ;;;
  waitCluster data ;;;
  now <- call_Now aws ;;
  let currentTime := Format_RFC3339 now in
  ret {| ClusterIdentifier := ClusterIdentifier data;
         Region := Region data;
         ForceFailover := ForceFailover data;
         LastRebootTime := StringValue currentTime;
         ID := StringValue (ValueString (ClusterIdentifier data)) |}.

Definition Update (data : Model) : M Model :=
  selectClient aws (Region data) ;;;
  cluster <- describeCluster data ;;
  rebootCluster data cluster ;;;
  waitCluster data ;;;
  now <- call_Now aws ;;
  let currentTime := Format_RFC3339 now in
  ret {| ClusterIdentifier := ClusterIdentifier data;
         Region := Region data;
         ForceFailover := ForceFailover data;
         LastRebootTime := StringValue currentTime;
         ID := ID data |}.

(** Read only checks that the describe call does not error. *)
Definition Read (data : Model) : M Model :=
  selectClient aws (Region data) ;;;
  r <- call_DescribeDBClusters aws (aws_String (ValueString (ClusterIdentifier data))) ;;
  match r with
  | inl err =>
      AddError "Error reading Aurora cluster"
        ("Could not read Aurora cluster: " ++ err)%string
  | inr _ => ret data
  end.

End Methods.

End AuroraReboot.

(** ** Neptune reboot resource ([neptune_reboot_resource.go]) *)
Module NeptuneReboot.

Record Model := {
  ClusterIdentifier : tfvalue string;
  Region : tfvalue string;
  LastRebootTime : tfvalue string;
  ID : tfvalue string
}.

Section Methods.

Variable aws : AWS.

Definition describeCluster (data : Model) : M DBCluster :=
  r <- call_DescribeDBClusters aws (aws_String (ValueString (ClusterIdentifier data))) ;;
  match r with
  | inl err =>
      AddError "Error describing Neptune cluster"
        ("Could not describe Neptune cluster: " ++ err)%string
  | inr clusterOutput =>
      match DBClusters clusterOutput with
      | [] =>
          AddError "Neptune cluster not found"
            ("Neptune cluster " ++ ValueString (ClusterIdentifier data) ++ " not found")%string
      | cluster :: _ => ret cluster
      end
  end.

(** The body of the first loop: reboot one instance. *)
Definition rebootMember (member : DBClusterMember) : M unit :=
  let instanceId := aws_ToString (DBInstanceIdentifier member) in
  err <- call_RebootDBInstance aws (aws_String instanceId) None ;;
  match err with
  | Some e =>
      AddError "Error rebooting Neptune instance"
        ("Could not reboot Neptune instance " ++ instanceId ++ ": " ++ e)%string
  | None => ret tt
  end.

(** The body of the second loop: wait for one instance. *)
Definition waitMember (member : DBClusterMember) : M unit :=
  let instanceId := aws_ToString (DBInstanceIdentifier member) in
  err <- call_WaitDBInstanceAvailable aws (aws_String instanceId) (30 * Minute) ;;
  match err with
  | Some e =>
      AddError "Error waiting for Neptune instance to become available"
        ("Could not confirm Neptune instance " ++ instanceId ++ " availability: " ++ e)%string
  | None => ret tt
  end.

Definition Create (data : Model) : M Model :=
  selectClient aws (Region data) ;;;
  cluster <- describeCluster data ;;
  let instances := DBClusterMembers cluster in
  (if (length instances =? 0)%nat then
     AddError "No instances in cluster"
       ("Neptune cluster " ++ ValueString (ClusterIdentifier data)
        ++ " has no instances to reboot")%string
   else ret tt) ;;;
  forRange instances rebootMember ;;;
  forRange instances waitMember ;;;
  now <- call_Now aws ;;
  let currentTime := Format_RFC3339 now in
  ret {| ClusterIdentifier := ClusterIdentifier data;
         Region := Region data;
         LastRebootTime := StringValue currentTime;
         ID := StringValue (ValueString (ClusterIdentifier data)) |}.

Definition Update (data : Model) : M Model :=
  selectClient aws (Region data) ;;;
  cluster <- describeCluster data ;;
  let instances := DBClusterMembers cluster in
  forRange instances rebootMember ;;;
  forRange instances waitMember ;;;
  now <- call_Now aws ;;
  let currentTime := Format_RFC3339 now in
  ret {| ClusterIdentifier := ClusterIdentifier data;
         Region := Region data;
         LastRebootTime := StringValue currentTime;
         ID := ID data |}.

Definition Read (data : Model) : M Model :=
  selectClient aws (Region data) ;;;
  r <- call_DescribeDBClusters aws (aws_String (ValueString (ClusterIdentifier data))) ;;
  match r with
  | inl err =>
      AddError "Error reading Neptune cluster"
        ("Could not read Neptune cluster: " ++ err)%string
  | inr _ => ret data
  end.

End Methods.

End NeptuneReboot.

(** ** Modify resources *)

(** [list.ElementsAs(ctx, &logsExports, false)] into a [[]string]: the
    framework refuses an unknown list and null or unknown elements, and
    reports it with a diagnostic of its own. *)
Definition conversionDiagnostic : Diagnostic :=
  {| Summary := "Value Conversion Error"; Detail := "" |}.

Fixpoint knownElements (l : list (tfvalue string)) : option (list string) :=
  match l with
  | [] => Some []
  | Known s :: rest =>
      match knownElements rest with
      | Some ss => Some (s :: ss)
      | None => None
      end
  | _ :: _ => None
  end.

Definition ElementsAs (l : tfvalue (list (tfvalue string))) : M (list string) :=
  fun tr =>
    match l with
    | Known elems =>
        match knownElements elems with
        | Some ss => (Ok ss, tr)
        | None => (Failed conversionDiagnostic, tr)
        end
    | _ => (Failed conversionDiagnostic, tr)
    end.

(** *** Aurora modify resource *)
Module AuroraModify.

Record Model := {
  ClusterIdentifier : tfvalue string;
  Region : tfvalue string;
  ParameterGroupName : tfvalue string;
  CloudWatchLogsExports : tfvalue (list (tfvalue string));
  ApplyImmediately : tfvalue bool;
  LastModifiedTime : tfvalue string;
  ID : tfvalue string
}.

Section Methods.

Variable aws : AWS.

(** Build the [ModifyDBClusterInput] and issue the call. *)
Definition modifyCluster (data : Model) : M unit :=
  let parameterGroup :=
    if negb (IsNull (ParameterGroupName data))
    then aws_String (ValueString (ParameterGroupName data)) else None in
  logs <- (if negb (IsNull (CloudWatchLogsExports data))
           then logsExports <- ElementsAs (CloudWatchLogsExports data) ;;
                ret (Some logsExports)
           else ret None) ;;
  let applyImmediately :=
    if negb (IsNull (ApplyImmediately data))
    then aws_Bool (ValueBool (ApplyImmediately data)) else None in
  err <- call_ModifyDBCluster aws (aws_String (ValueString (ClusterIdentifier data)))
           parameterGroup logs applyImmediately ;;
  match err with
  | Some e =>
      AddError "Error modifying Aurora cluster"
        ("Could not modify Aurora cluster: " ++ e)%string
  | None => ret tt
  end.

Definition waitCluster (data : Model) : M unit :=
  err <- call_WaitDBClusterAvailable aws
           (aws_String (ValueString (ClusterIdentifier data))) (30 * Minute) ;;
  match err with
  | Some e =>
      AddError "Error waiting for Aurora cluster to become available"
        ("Could not confirm Aurora cluster availability: " ++ e)%string
  | None => ret tt
  end.

Definition Create (data : Model) : M Model :=
  selectClient aws (Region data) ;;;
  modifyCluster data ;;;
  waitCluster data ;;;
  now <- call_Now aws ;;
  let currentTime := Format_RFC3339 now in
  ret {| ClusterIdentifier := ClusterIdentifier data;
         Region := Region data;
         ParameterGroupName := ParameterGroupName data;
         CloudWatchLogsExports := CloudWatchLogsExports data;
         ApplyImmediately := ApplyImmediately data;
         LastModifiedTime := StringValue currentTime;
         ID := StringValue (ValueString (ClusterIdentifier data)) |}.

Definition Update (data : Model) : M Model :=
  selectClient aws (Region data) ;;;
  modifyCluster data ;;;
  waitCluster data ;;;
  now <- call_Now aws ;;
  let currentTime := Format_RFC3339 now in
  ret {| ClusterIdentifier := ClusterIdentifier data;
         Region := Region data;
         ParameterGroupName := ParameterGroupName data;
         CloudWatchLogsExports := CloudWatchLogsExports data;
         ApplyImmediately := ApplyImmediately data;
         LastModifiedTime := StringValue currentTime;
         ID := ID data |}.

(** Read only checks that the describe call does not error. *)
Definition Read (data : Model) : M Model :=
  selectClient aws (Region data) ;;;
  r <- call_DescribeDBClusters aws (aws_String (ValueString (ClusterIdentifier data))) ;;
  match r with
  | inl err =>
      AddError "Error reading Aurora cluster"
        ("Could not read Aurora cluster: " ++ err)%string
  | inr _ => ret data
  end.

End Methods.

End AuroraModify.

(** *** Neptune modify resource *)
Module NeptuneModify.

Record Model := {
  ClusterIdentifier : tfvalue string;
  Region : tfvalue string;
  ClusterParameterGroupName : tfvalue string;
  CloudWatchLogsExports : tfvalue (list (tfvalue string));
  ApplyImmediately : tfvalue bool;
  LastModifiedTime : tfvalue string;
  ID : tfvalue string
}.

(** [maxAttempts := 60 // 30 minutes with 30 second intervals] *)
Definition maxAttempts : Z := 60.

Definition timeoutDiagnostic : Diagnostic :=
  {| Summary := "Timeout waiting for Neptune cluster";
     Detail := "Neptune cluster did not become available within 30 minutes" |}.

Section Methods.

Variable aws : AWS.

Definition modifyCluster (data : Model) : M unit :=
  let parameterGroup :=
    if negb (IsNull (ClusterParameterGroupName data))
    then aws_String (ValueString (ClusterParameterGroupName data)) else None in
  logs <- (if negb (IsNull (CloudWatchLogsExports data))
           then logsExports <- ElementsAs (CloudWatchLogsExports data) ;;
                ret (Some logsExports)
           else ret None) ;;
  let applyImmediately :=
    if negb (IsNull (ApplyImmediately data))
    then aws_Bool (ValueBool (ApplyImmediately data)) else None in
  err <- call_ModifyDBCluster aws (aws_String (ValueString (ClusterIdentifier data)))
           parameterGroup logs applyImmediately ;;
  match err with
  | Some e =>
      AddError "Error modifying Neptune cluster"
        ("Could not modify Neptune cluster: " ++ e)%string
  | None => ret tt
  end.

(** [len(result.DBClusters) > 0 && *result.DBClusters[0].Status == "available"] *)
Definition isAvailable (result : DescribeDBClustersOutput) : M bool :=
  match DBClusters result with
  | [] => ret false
  | cluster :: _ =>
      status <- deref (Status cluster) ;;
      ret (String.eqb status "available")
  end.

(** The polling loop
<<
  for i := 0; i < maxAttempts; i++ {
      result, err := client.DescribeDBClusters(ctx, describeInput)
      if err != nil { AddError; return }
      if len(result.DBClusters) > 0 && *result.DBClusters[0].Status == "available" { break }
      if i == maxAttempts-1 { AddError; return }
      time.Sleep(30 * time.Second)
  }
>>
    by recursion on the number [maxAttempts - i] of iterations left; with
    none left the condition [i < maxAttempts] fails and the loop is over. *)
Fixpoint pollLoop (data : Model) (remaining : nat) (i : Z) : M unit :=
  match remaining with
  | O => ret tt
  | S remaining' =>
      r <- call_DescribeDBClusters aws
             (aws_String (ValueString (ClusterIdentifier data))) ;;
      match r with
      | inl err =>
          AddError "Error describing Neptune cluster"
            ("Could not describe Neptune cluster: " ++ err)%string
      | inr result =>
          available <- isAvailable result ;;
          if available then ret tt
          else if i =? maxAttempts - 1 then
            AddError (Summary timeoutDiagnostic) (Detail timeoutDiagnostic)
          else
            call_Sleep (30 * Second) ;;;
            pollLoop data remaining' (i + 1)
      end
  end.

Definition pollUntilAvailable (data : Model) : M unit :=
  pollLoop data (Z.to_nat maxAttempts) 0.

Definition Create (data : Model) : M Model :=
  selectClient aws (Region data) ;;;
  modifyCluster data ;;;
  pollUntilAvailable data ;;;
  now <- call_Now aws ;;
  let currentTime := Format_RFC3339 now in
  ret {| ClusterIdentifier := ClusterIdentifier data;
         Region := Region data;
         ClusterParameterGroupName := ClusterParameterGroupName data;
         CloudWatchLogsExports := CloudWatchLogsExports data;
         ApplyImmediately := ApplyImmediately data;
         LastModifiedTime := StringValue currentTime;
         ID := StringValue (ValueString (ClusterIdentifier data)) |}.

Definition Update (data : Model) : M Model :=
  selectClient aws (Region data) ;;;
  modifyCluster data ;;;
  pollUntilAvailable data ;;;
  now <- call_Now aws ;;
  let currentTime := Format_RFC3339 now in
  ret {| ClusterIdentifier := ClusterIdentifier data;
         Region := Region data;
         ClusterParameterGroupName := ClusterParameterGroupName data;
         CloudWatchLogsExports := CloudWatchLogsExports data;
         ApplyImmediately := ApplyImmediately data;
         LastModifiedTime := StringValue currentTime;
         ID := ID data |}.

(** Read only checks that the describe call does not error. *)
Definition Read (data : Model) : M Model :=
  selectClient aws (Region data) ;;;
  r <- call_DescribeDBClusters aws (aws_String (ValueString (ClusterIdentifier data))) ;;
  match r with
  | inl err =>
      AddError "Error reading Neptune cluster"
        ("Could not read Neptune cluster: " ++ err)%string
  | inr _ => ret data
  end.

End Methods.

End NeptuneModify.

(** ** RDS reboot resource: Create and Update

    The resource reboots one instance; there is no cluster to describe. *)
Module RDSReboot.

Record Model := {
  DBInstanceIdentifier : tfvalue string;
  Region : tfvalue string;
  ForceFailover : tfvalue bool;
  LastRebootTime : tfvalue string;
  ID : tfvalue string
}.

Section Methods.

Variable aws : AWS.

(** Build the [RebootDBInstanceInput] and issue the call. *)
Definition rebootInstance (data : Model) : M unit :=
  let forceFailover :=
    if negb (IsNull (ForceFailover data))
    then aws_Bool (ValueBool (ForceFailover data)) else None in
  err <- call_RebootDBInstance aws
           (aws_String (ValueString (DBInstanceIdentifier data))) forceFailover ;;
  match err with
  | Some e =>
      AddError "Error rebooting RDS instance"
        ("Could not reboot RDS instance: " ++ e)%string
  | None => ret tt
  end.

Definition waitInstance (data : Model) : M unit :=
  err <- call_WaitDBInstanceAvailable aws
           (aws_String (ValueString (DBInstanceIdentifier data))) (30 * Minute) ;;
  match err with
  | Some e =>
      AddError "Error waiting for RDS instance to become available"
        ("Could not confirm RDS instance availability: " ++ e)%string
  | None => ret tt
  end.

Definition Create (data : Model) : M Model :=
  selectClient aws (Region data) ;;;
  rebootInstance data ;;;
  waitInstance data ;;;
  now <- call_Now aws ;;
  let currentTime := Format_RFC3339 now in
  ret {| DBInstanceIdentifier := DBInstanceIdentifier data;
         Region := Region data;
         ForceFailover := ForceFailover data;
         LastRebootTime := StringValue currentTime;
         ID := StringValue (ValueString (DBInstanceIdentifier data)) |}.

Definition Update (data : Model) : M Model :=
  selectClient aws (Region data) ;;;
  rebootInstance data ;;;
  waitInstance data ;;;
  now <- call_Now aws ;;
  let currentTime := Format_RFC3339 now in
  ret {| DBInstanceIdentifier := DBInstanceIdentifier data;
         Region := Region data;
         ForceFailover := ForceFailover data;
         LastRebootTime := StringValue currentTime;
         ID := ID data |}.

End Methods.

End RDSReboot.

(** ** Observing a trace *)

Definition isMutation (c : Call) : bool :=
  match c with
  | FailoverDBCluster _ _ | RebootDBInstance _ _ | ModifyDBCluster _ _ _ _ => true
  | _ => false
  end.

Definition isWait (c : Call) : bool :=
  match c with
  | WaitDBClusterAvailable _ _ | WaitDBInstanceAvailable _ _ => true
  | _ => false
  end.

Definition isDescribe (c : Call) : bool :=
  match c with DescribeDBClusters _ => true | _ => false end.

Definition isSleep (c : Call) : bool :=
  match c with Sleep _ => true | _ => false end.

Definition mutations (tr : Trace) : list Call := filter isMutation tr.
Definition waits (tr : Trace) : list Call := filter isWait tr.
Definition describes (tr : Trace) : list Call := filter isDescribe tr.
Definition sleeps (tr : Trace) : list Call := filter isSleep tr.

(** The instances a trace reboots, and the resources it waits on. *)
Definition touched (tr : Trace) : list (option string) :=
  flat_map (fun c => match c with RebootDBInstance inst _ => [inst] | _ => [] end) tr.

Definition watched (tr : Trace) : list (option string) :=
  flat_map (fun c =>
              match c with
              | WaitDBClusterAvailable id _ => [id]
              | WaitDBInstanceAvailable inst _ => [inst]
              | _ => []
              end) tr.

(** The error, if any, with which the environment answers call [c] after
    the calls in [tr]. *)
Definition errorOf (aws : AWS) (tr : Trace) (c : Call) : option error :=
  match c with
  | LoadDefaultConfig region => reply_LoadDefaultConfig aws tr region
  | DescribeDBClusters id =>
      match reply_DescribeDBClusters aws tr id with
      | inl e => Some e
      | inr _ => None
      end
  | FailoverDBCluster id target => reply_FailoverDBCluster aws tr id target
  | RebootDBInstance inst ff => reply_RebootDBInstance aws tr inst ff
  | ModifyDBCluster id pg logs now => reply_ModifyDBCluster aws tr id pg logs now
  | WaitDBClusterAvailable id d => reply_WaitDBClusterAvailable aws tr id d
  | WaitDBInstanceAvailable inst d => reply_WaitDBInstanceAvailable aws tr inst d
  | Sleep _ => None
  | Now => None
  end.

(** The calls [cs], issued one after the other from trace [tr], were all
    answered without an error. *)
Fixpoint ackedFrom (aws : AWS) (tr : Trace) (cs : list Call) : bool :=
  match cs with
  | [] => true
  | c :: cs' =>
      match errorOf aws tr c with
      | None => ackedFrom aws (tr ++ [c]) cs'
      | Some _ => false
      end
  end.

(** Every call of the trace was answered without an error. *)
Definition allAcked (aws : AWS) (tr : Trace) : bool := ackedFrom aws [] tr.

(** SDK members as AWS fills them in: both pointers set. *)
Definition populated (m : DBClusterMember) : Prop :=
  IsClusterWriter m <> None /\ DBInstanceIdentifier m <> None.

Definition isReader (m : DBClusterMember) : bool :=
  match IsClusterWriter m with
  | Some w => negb w
  | None => false
  end.

(** The per-instance calls of the fan-outs and of the Neptune waits. *)
Definition auroraRebootCall (hint : option bool) (m : DBClusterMember) : Call :=
  RebootDBInstance (DBInstanceIdentifier m) hint.

Definition neptuneRebootCall (m : DBClusterMember) : Call :=
  RebootDBInstance (Some (aws_ToString (DBInstanceIdentifier m))) None.

Definition neptuneWaitCall (m : DBClusterMember) : Call :=
  WaitDBInstanceAvailable (Some (aws_ToString (DBInstanceIdentifier m))) (30 * Minute).

(** The hint the Aurora fan-out puts on its reboot calls. *)
Definition forwardedHint (forceFailover : tfvalue bool) (instanceCount : nat)
  : option bool :=
  match forceFailover with
  | Null => None
  | _ => if (2 <=? instanceCount)%nat then Some (ValueBool forceFailover) else None
  end.

(** The diagnostics of the per-instance calls. *)
Definition auroraRebootError (m : DBClusterMember) (e : error) : Diagnostic :=
  {| Summary := "Error rebooting Aurora instance";
     Detail := "Could not reboot Aurora instance "
               ++ aws_ToString (DBInstanceIdentifier m) ++ ": " ++ e |}%string.

Definition neptuneRebootError (m : DBClusterMember) (e : error) : Diagnostic :=
  {| Summary := "Error rebooting Neptune instance";
     Detail := "Could not reboot Neptune instance "
               ++ aws_ToString (DBInstanceIdentifier m) ++ ": " ++ e |}%string.

Definition neptuneWaitError (m : DBClusterMember) (e : error) : Diagnostic :=
  {| Summary := "Error waiting for Neptune instance to become available";
     Detail := "Could not confirm Neptune instance "
               ++ aws_ToString (DBInstanceIdentifier m) ++ " availability: " ++ e |}%string.

(** ** Vocabulary of the properties *)

(** The caller explicitly set [force_failover] to true. *)
Definition wantsFailover (forceFailover : tfvalue bool) : bool :=
  match forceFailover with
  | Known true => true
  | _ => false
  end.

(** At least two members, a reader among them, and failover asked for. *)
Definition failoverChosen (members : list DBClusterMember)
    (forceFailover : tfvalue bool) : bool :=
  (2 <=? length members)%nat && existsb isReader members && wantsFailover forceFailover.

(** The method got its client, leaving trace [h0], and its describe call for
    cluster [id] is then answered with [clusters]. *)
Definition describedAs (aws : AWS) (region : tfvalue string) (id : string)
    (h0 : Trace) (clusters : list DBCluster) : Prop :=
  selectClient aws region [] = (Ok tt, h0) /\
  reply_DescribeDBClusters aws h0 (Some id) = inr {| DBClusters := clusters |}.

(** What one attempt of the polling loop sees in the reply to its describe
    call. *)
Inductive Observation :=
| SawError (e : error)
| SawNilStatus
| SawAvailable
| SawNotAvailable.

Definition observe (r : error + DescribeDBClustersOutput) : Observation :=
  match r with
  | inl e => SawError e
  | inr result =>
      match DBClusters result with
      | [] => SawNotAvailable
      | cluster :: _ =>
          match Status cluster with
          | None => SawNilStatus
          | Some s => if String.eqb s "available" then SawAvailable else SawNotAvailable
          end
      end
  end.

(** The calls of [k] attempts that did not end the polling loop. *)
Fixpoint pollAttempts (id : option string) (k : nat) : Trace :=
  match k with
  | O => []
  | S k' => DescribeDBClusters id :: Sleep (30 * Second) :: pollAttempts id k'
  end.

(** What attempt number [k] (from 0) sees when the loop started at [tr]. *)
Definition observedAt (aws : AWS) (id : option string) (tr : Trace) (k : nat)
  : Observation :=
  observe (reply_DescribeDBClusters aws (tr ++ pollAttempts id k) id).

(** A computation that only extends the trace and that, when it ends
    normally, has had every one of its calls acknowledged. *)
Definition acks {A} (aws : AWS) (m : M A) : Prop :=
  forall tr r tr', m tr = (r, tr') ->
    exists cs, tr' = tr ++ cs /\
               (forall a, r = Ok a -> ackedFrom aws tr cs = true).

(** The readings of the clock in a trace. *)
Definition isNow (c : Call) : bool :=
  match c with Now => true | _ => false end.

Definition clockReads (tr : Trace) : list Call := filter isNow tr.

(** The outcome of a mutating method.  With an error diagnostic nothing is
    stored and the clock was never read; a panic comes before any reading
    of the clock too.  With no diagnostic, the clock is read once, by the
    last call of the trace; the trace [tr'] before that call has every call
    acknowledged and satisfies [waited], which says for each resource what
    was waited for; and the stored model carries the formatted time. *)
Definition outcomeInvariant {Model} (aws : AWS) (stamp : Model -> tfvalue string)
    (waited : Trace -> Prop) (o : Outcome Model * Trace) : Prop :=
  match fst o with
  | Crashed => clockReads (snd o) = []
  | Returned resp =>
      if HasError resp then StateSet resp = None /\ clockReads (snd o) = []
      else
        exists data tr',
          StateSet resp = Some data /\
          snd o = tr' ++ [Now] /\
          clockReads tr' = [] /\
          allAcked aws tr' = true /\
          waited tr' /\
          stamp data = Known (Format_RFC3339 (reply_Now aws tr')) /\
          Format_RFC3339 (reply_Now aws tr') <> ""
  end.

Definition mapResult {A B} (f : A -> B) (r : Result A * Trace) : Result B * Trace :=
  match r with
  | (Ok a, tr) => (Ok (f a), tr)
  | (Failed d, tr) => (Failed d, tr)
  | (Panicked, tr) => (Panicked, tr)
  end.

(** The diagnostics of the cluster-level steps. *)
Definition auroraNotFound (id : string) : Diagnostic :=
  {| Summary := "Aurora cluster not found";
     Detail := "No Aurora cluster found with identifier: " ++ id |}%string.

Definition neptuneNotFound (id : string) : Diagnostic :=
  {| Summary := "Neptune cluster not found";
     Detail := "Neptune cluster " ++ id ++ " not found" |}%string.

Definition neptuneNoInstances (id : string) : Diagnostic :=
  {| Summary := "No instances in cluster";
     Detail := "Neptune cluster " ++ id ++ " has no instances to reboot" |}%string.

Definition auroraFailoverError (e : error) : Diagnostic :=
  {| Summary := "Error failing over Aurora cluster";
     Detail := "Could not failover Aurora cluster: " ++ e |}%string.

Definition auroraWaitError (e : error) : Diagnostic :=
  {| Summary := "Error waiting for Aurora cluster to become available";
     Detail := "Could not confirm Aurora cluster availability: " ++ e |}%string.

Definition auroraReadError (e : error) : Diagnostic :=
  {| Summary := "Error reading Aurora cluster";
     Detail := "Could not read Aurora cluster: " ++ e |}%string.

Definition neptuneReadError (e : error) : Diagnostic :=
  {| Summary := "Error reading Neptune cluster";
     Detail := "Could not read Neptune cluster: " ++ e |}%string.

(** The mutation calls of an Aurora reboot on [members]: one failover to
    the first reader, or one reboot per member. *)
Definition auroraMutationCalls (id : string) (forceFailover : tfvalue bool)
    (members : list DBClusterMember) : list Call :=
  if failoverChosen members forceFailover then
    match find isReader members with
    | Some reader => [FailoverDBCluster (Some id) (DBInstanceIdentifier reader)]
    | None => []
    end
  else map (auroraRebootCall (forwardedHint forceFailover (length members))) members.

Definition succeeded {Model} (o : Outcome Model) : bool :=
  match o with
  | Returned resp => negb (HasError resp)
  | Crashed => false
  end.

Definition failedWith {Model} (d : Diagnostic) (o : Outcome Model) : Prop :=
  o = Returned {| Diagnostics := [d]; StateSet := None |}.

(** The calls among [cs] that are issued when they are made one after the
    other from trace [tr] and the first error ends the sequence. *)
Fixpoint issuedOf (aws : AWS) (tr : Trace) (cs : list Call) : list Call :=
  match cs with
  | [] => []
  | c :: cs' =>
      c :: match errorOf aws tr c with
           | None => issuedOf aws (tr ++ [c]) cs'
           | Some _ => []
           end
  end.

(** Update stores the planned [id] where Create stores the cluster
    identifier; the models they store differ in nothing else. *)
Definition auroraRebootKeepID (data stored : AuroraReboot.Model) : AuroraReboot.Model :=
  {| AuroraReboot.ClusterIdentifier := AuroraReboot.ClusterIdentifier stored;
     AuroraReboot.Region := AuroraReboot.Region stored;
     AuroraReboot.ForceFailover := AuroraReboot.ForceFailover stored;
     AuroraReboot.LastRebootTime := AuroraReboot.LastRebootTime stored;
     AuroraReboot.ID := AuroraReboot.ID data |}.

Definition neptuneRebootKeepID (data stored : NeptuneReboot.Model)
  : NeptuneReboot.Model :=
  {| NeptuneReboot.ClusterIdentifier := NeptuneReboot.ClusterIdentifier stored;
     NeptuneReboot.Region := NeptuneReboot.Region stored;
     NeptuneReboot.LastRebootTime := NeptuneReboot.LastRebootTime stored;
     NeptuneReboot.ID := NeptuneReboot.ID data |}.

Definition auroraModifyKeepID (data stored : AuroraModify.Model) : AuroraModify.Model :=
  {| AuroraModify.ClusterIdentifier := AuroraModify.ClusterIdentifier stored;
     AuroraModify.Region := AuroraModify.Region stored;
     AuroraModify.ParameterGroupName := AuroraModify.ParameterGroupName stored;
     AuroraModify.CloudWatchLogsExports := AuroraModify.CloudWatchLogsExports stored;
     AuroraModify.ApplyImmediately := AuroraModify.ApplyImmediately stored;
     AuroraModify.LastModifiedTime := AuroraModify.LastModifiedTime stored;
     AuroraModify.ID := AuroraModify.ID data |}.

Definition neptuneModifyKeepID (data stored : NeptuneModify.Model)
  : NeptuneModify.Model :=
  {| NeptuneModify.ClusterIdentifier := NeptuneModify.ClusterIdentifier stored;
     NeptuneModify.Region := NeptuneModify.Region stored;
     NeptuneModify.ClusterParameterGroupName :=
       NeptuneModify.ClusterParameterGroupName stored;
     NeptuneModify.CloudWatchLogsExports := NeptuneModify.CloudWatchLogsExports stored;
     NeptuneModify.ApplyImmediately := NeptuneModify.ApplyImmediately stored;
     NeptuneModify.LastModifiedTime := NeptuneModify.LastModifiedTime stored;
     NeptuneModify.ID := NeptuneModify.ID data |}.

Definition mapOutcome {A B} (f : A -> B) (o : Outcome A) : Outcome B :=
  match o with
  | Returned resp =>
      Returned {| Diagnostics := Diagnostics resp;
                  StateSet := option_map f (StateSet resp) |}
  | Crashed => Crashed
  end.

(** The model Aurora reboot Create stores when it read the time [now]. *)
Definition auroraRebooted (data : AuroraReboot.Model) (now : Time) : AuroraReboot.Model :=
  {| AuroraReboot.ClusterIdentifier := AuroraReboot.ClusterIdentifier data;
     AuroraReboot.Region := AuroraReboot.Region data;
     AuroraReboot.ForceFailover := AuroraReboot.ForceFailover data;
     AuroraReboot.LastRebootTime := Known (Format_RFC3339 now);
     AuroraReboot.ID := Known (ValueString (AuroraReboot.ClusterIdentifier data)) |}.

Definition neptuneRebooted (data : NeptuneReboot.Model) (now : Time)
  : NeptuneReboot.Model :=
  {| NeptuneReboot.ClusterIdentifier := NeptuneReboot.ClusterIdentifier data;
     NeptuneReboot.Region := NeptuneReboot.Region data;
     NeptuneReboot.LastRebootTime := Known (Format_RFC3339 now);
     NeptuneReboot.ID := Known (ValueString (NeptuneReboot.ClusterIdentifier data)) |}.

(** The cluster-level wait of the Aurora methods. *)
Definition auroraWaitCall (id : string) : Call :=
  WaitDBClusterAvailable (Some id) (30 * Minute).

(** The part Neptune reboot Create and Update share once the member list
    is known: the reboot loop, the wait loop and the time stamp, with [mk]
    building the stored model. *)
Definition neptuneRebootSteps (aws : AWS) (mk : Time -> NeptuneReboot.Model)
    (instances : list DBClusterMember) : M NeptuneReboot.Model :=
  forRange instances (NeptuneReboot.rebootMember aws) ;;;
  forRange instances (NeptuneReboot.waitMember aws) ;;;
  now <- call_Now aws ;;
  ret (mk now).

(** The name under which Neptune reboot addresses a member. *)
Definition instanceName (m : DBClusterMember) : option string :=
  Some (aws_ToString (DBInstanceIdentifier m)).

(** Neptune modify got its client and its modify call was acknowledged,
    leaving trace [tr]: the polling loop starts from there. *)
Definition modified (aws : AWS) (data : NeptuneModify.Model) (tr : Trace) : Prop :=
  (selectClient aws (NeptuneModify.Region data) ;;; NeptuneModify.modifyCluster aws data) []
  = (Ok tt, tr).

Definition neptuneDescribeError (e : error) : Diagnostic :=
  {| Summary := "Error describing Neptune cluster";
     Detail := "Could not describe Neptune cluster: " ++ e |}%string.

(** The model Neptune modify Create stores when it read the time [now]. *)
Definition neptuneModified (data : NeptuneModify.Model) (now : Time)
  : NeptuneModify.Model :=
  {| NeptuneModify.ClusterIdentifier := NeptuneModify.ClusterIdentifier data;
     NeptuneModify.Region := NeptuneModify.Region data;
     NeptuneModify.ClusterParameterGroupName :=
       NeptuneModify.ClusterParameterGroupName data;
     NeptuneModify.CloudWatchLogsExports := NeptuneModify.CloudWatchLogsExports data;
     NeptuneModify.ApplyImmediately := NeptuneModify.ApplyImmediately data;
     NeptuneModify.LastModifiedTime := Known (Format_RFC3339 now);
     NeptuneModify.ID := Known (ValueString (NeptuneModify.ClusterIdentifier data)) |}.

(** A method body that, when it ends normally, has had all its calls
    acknowledged, has read the time with its last call, and returns a
    model stamped with that time. *)
Definition stamps {Model} (aws : AWS) (stamp : Model -> tfvalue string) (m : M Model)
  : Prop :=
  forall tr data tr', m tr = (Ok data, tr') ->
    exists cs, tr' = (tr ++ cs) ++ [Now] /\
               ackedFrom aws tr cs = true /\
               stamp data = Known (Format_RFC3339 (reply_Now aws (tr ++ cs))).

(** ** Vocabulary of the further properties *)

(** Every call the computation makes satisfies [P]. *)
Definition emits {A} (P : Call -> bool) (m : M A) : Prop :=
  forall tr r tr', m tr = (r, tr') ->
    exists cs, tr' = tr ++ cs /\ forallb P cs = true.

Definition configError (region : string) (e : error) : Diagnostic :=
  {| Summary := "Unable to load AWS SDK config";
     Detail := "Unable to load AWS SDK config with region " ++ region ++ ": " ++ e |}%string.

Definition auroraDescribeError (e : error) : Diagnostic :=
  {| Summary := "Error describing Aurora cluster";
     Detail := "Could not describe Aurora cluster: " ++ e |}%string.

Definition auroraModifyError (e : error) : Diagnostic :=
  {| Summary := "Error modifying Aurora cluster";
     Detail := "Could not modify Aurora cluster: " ++ e |}%string.

Definition neptuneModifyError (e : error) : Diagnostic :=
  {| Summary := "Error modifying Neptune cluster";
     Detail := "Could not modify Neptune cluster: " ++ e |}%string.

Definition rdsRebootError (e : error) : Diagnostic :=
  {| Summary := "Error rebooting RDS instance";
     Detail := "Could not reboot RDS instance: " ++ e |}%string.

Definition rdsWaitError (e : error) : Diagnostic :=
  {| Summary := "Error waiting for RDS instance to become available";
     Detail := "Could not confirm RDS instance availability: " ++ e |}%string.

Definition isLoadConfig (c : Call) : bool :=
  match c with LoadDefaultConfig _ => true | _ => false end.

(** Waits of 30 minutes and sleeps of 30 seconds, the only ones the
    methods ask for. *)
Definition budgeted (c : Call) : bool :=
  match c with
  | WaitDBClusterAvailable _ d | WaitDBInstanceAvailable _ d => d =? 30 * Minute
  | Sleep d => d =? 30 * Second
  | _ => true
  end.

(** The calls a Neptune reboot may make on cluster [id]. *)
Definition neptuneRebootKind (id : string) (c : Call) : bool :=
  match c with
  | LoadDefaultConfig _ => true
  | DescribeDBClusters (Some i) => String.eqb i id
  | RebootDBInstance (Some _) None => true
  | WaitDBInstanceAvailable (Some _) _ => true
  | Now => true
  | _ => false
  end.

(** The calls an Aurora reboot may make on cluster [id]. *)
Definition auroraRebootKind (id : string) (c : Call) : bool :=
  match c with
  | LoadDefaultConfig _ => true
  | DescribeDBClusters (Some i) => String.eqb i id
  | FailoverDBCluster (Some i) (Some _) => String.eqb i id
  | RebootDBInstance (Some _) _ => true
  | WaitDBClusterAvailable (Some i) _ => String.eqb i id
  | Now => true
  | _ => false
  end.

(** The calls a modify method may make on cluster [id]. *)
Definition modifyKind (id : string) (c : Call) : bool :=
  match c with
  | LoadDefaultConfig _ => true
  | ModifyDBCluster (Some i) _ _ _ => String.eqb i id
  | DescribeDBClusters (Some i) => String.eqb i id
  | WaitDBClusterAvailable (Some i) _ => String.eqb i id
  | Sleep _ => true
  | Now => true
  | _ => false
  end.

(** The fields the modify methods put in the [ModifyDBClusterInput]: an
    optional attribute is sent exactly when it is not null. *)
Definition sentString (v : tfvalue string) : option string :=
  match v with
  | Null => None
  | _ => Some (ValueString v)
  end.

Definition sentBool (v : tfvalue bool) : option bool :=
  match v with
  | Null => None
  | _ => Some (ValueBool v)
  end.

(** The log types sent: none for a null list, the strings of a list of
    known strings, and no request at all when the list does not convert. *)
Definition sentLogs (v : tfvalue (list (tfvalue string))) : option (option (list string)) :=
  match v with
  | Null => Some None
  | Unknown => None
  | Known elems =>
      match knownElements elems with
      | Some ss => Some (Some ss)
      | None => None
      end
  end.

(** The modify call a plan asks for, when its list of log types converts. *)
Definition modifyRequest (id group : tfvalue string)
    (logs : tfvalue (list (tfvalue string))) (now : tfvalue bool) : option Call :=
  match sentLogs logs with
  | Some l => Some (ModifyDBCluster (Some (ValueString id)) (sentString group) l (sentBool now))
  | None => None
  end.

(** The model RDS reboot Create stores when it read the time [now]. *)
Definition rdsRebooted (data : RDSReboot.Model) (now : Time) : RDSReboot.Model :=
  {| RDSReboot.DBInstanceIdentifier := RDSReboot.DBInstanceIdentifier data;
     RDSReboot.Region := RDSReboot.Region data;
     RDSReboot.ForceFailover := RDSReboot.ForceFailover data;
     RDSReboot.LastRebootTime := Known (Format_RFC3339 now);
     RDSReboot.ID := Known (ValueString (RDSReboot.DBInstanceIdentifier data)) |}.

Definition rdsRebootKeepID (data stored : RDSReboot.Model) : RDSReboot.Model :=
  {| RDSReboot.DBInstanceIdentifier := RDSReboot.DBInstanceIdentifier stored;
     RDSReboot.Region := RDSReboot.Region stored;
     RDSReboot.ForceFailover := RDSReboot.ForceFailover stored;
     RDSReboot.LastRebootTime := RDSReboot.LastRebootTime stored;
     RDSReboot.ID := RDSReboot.ID data |}.

(** The model Aurora modify Create stores when it read the time [now]. *)
Definition auroraModified (data : AuroraModify.Model) (now : Time) : AuroraModify.Model :=
  {| AuroraModify.ClusterIdentifier := AuroraModify.ClusterIdentifier data;
     AuroraModify.Region := AuroraModify.Region data;
     AuroraModify.ParameterGroupName := AuroraModify.ParameterGroupName data;
     AuroraModify.CloudWatchLogsExports := AuroraModify.CloudWatchLogsExports data;
     AuroraModify.ApplyImmediately := AuroraModify.ApplyImmediately data;
     AuroraModify.LastModifiedTime := Known (Format_RFC3339 now);
     AuroraModify.ID := Known (ValueString (AuroraModify.ClusterIdentifier data)) |}.

(** A run that loads the configuration for [region] first, exactly when
    the region is not null, never loads it again, and ends there with the
    diagnostic of the error when the loading errors. *)
Definition configuredRun {Model} (aws : AWS) (region : tfvalue string)
    (o : Outcome Model * Trace) : Prop :=
  (exists rest,
     snd o = (if IsNull region then [] else [LoadDefaultConfig (ValueString region)])
             ++ rest /\
     forallb (fun c => negb (isLoadConfig c)) rest = true)
  /\
  (forall e,
     IsNull region = false ->
     reply_LoadDefaultConfig aws [] (ValueString region) = Some e ->
     o = (Returned {| Diagnostics := [configError (ValueString region) e];
                      StateSet := None |},
          [LoadDefaultConfig (ValueString region)])).

(** The computation reads the clock once, with its last call, when it ends
    normally, and not at all when it fails or panics. *)
Definition timed {A} (m : M A) : Prop :=
  forall tr r tr', m tr = (r, tr') ->
    exists cs, tr' = tr ++ cs /\
               clockReads cs = match r with Ok _ => [Now] | _ => [] end.

(** ** What a successful method has waited for *)

(** Aurora reboot: the cluster was described, then only mutation calls were
    made, then the one wait on the cluster. *)
Definition auroraRebootWaited (aws : AWS) (data : AuroraReboot.Model) (tr : Trace) : Prop :=
  let id := ValueString (AuroraReboot.ClusterIdentifier data) in
  exists h0 cluster others calls,
    describedAs aws (AuroraReboot.Region data) id h0 (cluster :: others) /\
    forallb isMutation calls = true /\
    tr = (h0 ++ [DescribeDBClusters (Some id)]) ++ calls ++ [auroraWaitCall id].

(** Neptune reboot: the cluster was described, every member was rebooted,
    then every member was waited for, in the order of the member list. *)
Definition neptuneRebootWaited (aws : AWS) (data : NeptuneReboot.Model) (tr : Trace)
  : Prop :=
  let id := ValueString (NeptuneReboot.ClusterIdentifier data) in
  exists h0 cluster others,
    describedAs aws (NeptuneReboot.Region data) id h0 (cluster :: others) /\
    tr = (h0 ++ [DescribeDBClusters (Some id)])
         ++ map neptuneRebootCall (DBClusterMembers cluster)
         ++ map neptuneWaitCall (DBClusterMembers cluster).

(** Aurora modify: the modify call, then the one wait on the cluster. *)
Definition auroraModifyWaited (aws : AWS) (data : AuroraModify.Model) (tr : Trace) : Prop :=
  exists h0 c,
    selectClient aws (AuroraModify.Region data) [] = (Ok tt, h0) /\
    modifyRequest (AuroraModify.ClusterIdentifier data) (AuroraModify.ParameterGroupName data)
      (AuroraModify.CloudWatchLogsExports data) (AuroraModify.ApplyImmediately data)
    = Some c /\
    tr = h0 ++ [c; WaitDBClusterAvailable
                     (Some (ValueString (AuroraModify.ClusterIdentifier data)))
                     (30 * Minute)].

(** Neptune modify: after the modify call the polling went through [n]
    attempts that saw the cluster not yet available, each followed by a
    sleep, and ended at the describe call that saw it available. *)
Definition neptuneModifyWaited (aws : AWS) (data : NeptuneModify.Model) (tr : Trace)
  : Prop :=
  let id := Some (ValueString (NeptuneModify.ClusterIdentifier data)) in
  exists tr0 n,
    modified aws data tr0 /\
    (n < 60)%nat /\
    (forall k, (k < n)%nat -> observedAt aws id tr0 k = SawNotAvailable) /\
    observedAt aws id tr0 n = SawAvailable /\
    tr = tr0 ++ pollAttempts id n ++ [DescribeDBClusters id].

(** ** Scenarios

    Concrete environments and models on which the methods can be run. *)

Definition someTime : Time :=
  {| year := 2025; month := 3; day := 14;
     hour := 9; minute := 26; second := 53; zoneOffset := 0 |}.

(** AWS answering every call without an error and describing [clusters]. *)
Definition calmAWS (clusters : list DBCluster) : AWS :=
  {| reply_LoadDefaultConfig := fun _ _ => None;
     reply_DescribeDBClusters := fun _ _ => inr {| DBClusters := clusters |};
     reply_FailoverDBCluster := fun _ _ _ => None;
     reply_RebootDBInstance := fun _ _ _ => None;
     reply_ModifyDBCluster := fun _ _ _ _ _ => None;
     reply_WaitDBClusterAvailable := fun _ _ _ => None;
     reply_WaitDBInstanceAvailable := fun _ _ _ => None;
     reply_Now := fun _ => someTime |}.

Definition names (inst : option string) (name : string) : bool :=
  match inst with
  | Some s => String.eqb s name
  | None => false
  end.

(** The same, except that rebooting instance [name] errors with [e]. *)
Definition withRebootError (name : string) (e : error) (aws : AWS) : AWS :=
  {| reply_LoadDefaultConfig := reply_LoadDefaultConfig aws;
     reply_DescribeDBClusters := reply_DescribeDBClusters aws;
     reply_FailoverDBCluster := reply_FailoverDBCluster aws;
     reply_RebootDBInstance := fun tr inst ff =>
       if names inst name then Some e else reply_RebootDBInstance aws tr inst ff;
     reply_ModifyDBCluster := reply_ModifyDBCluster aws;
     reply_WaitDBClusterAvailable := reply_WaitDBClusterAvailable aws;
     reply_WaitDBInstanceAvailable := reply_WaitDBInstanceAvailable aws;
     reply_Now := reply_Now aws |}.

(** The same, except that waiting for instance [name] errors with [e]. *)
Definition withWaitError (name : string) (e : error) (aws : AWS) : AWS :=
  {| reply_LoadDefaultConfig := reply_LoadDefaultConfig aws;
     reply_DescribeDBClusters := reply_DescribeDBClusters aws;
     reply_FailoverDBCluster := reply_FailoverDBCluster aws;
     reply_RebootDBInstance := reply_RebootDBInstance aws;
     reply_ModifyDBCluster := reply_ModifyDBCluster aws;
     reply_WaitDBClusterAvailable := reply_WaitDBClusterAvailable aws;
     reply_WaitDBInstanceAvailable := fun tr inst d =>
       if names inst name then Some e else reply_WaitDBInstanceAvailable aws tr inst d;
     reply_Now := reply_Now aws |}.

(** The same, except that every describe call errors with [e]. *)
Definition withDescribeError (e : error) (aws : AWS) : AWS :=
  {| reply_LoadDefaultConfig := reply_LoadDefaultConfig aws;
     reply_DescribeDBClusters := fun _ _ => inl e;
     reply_FailoverDBCluster := reply_FailoverDBCluster aws;
     reply_RebootDBInstance := reply_RebootDBInstance aws;
     reply_ModifyDBCluster := reply_ModifyDBCluster aws;
     reply_WaitDBClusterAvailable := reply_WaitDBClusterAvailable aws;
     reply_WaitDBInstanceAvailable := reply_WaitDBInstanceAvailable aws;
     reply_Now := reply_Now aws |}.

(** A cluster without members whose status turns from ["modifying"] to
    ["available"] once [n] describe calls have been made. *)
Definition settlingAWS (n : nat) : AWS :=
  {| reply_LoadDefaultConfig := fun _ _ => None;
     reply_DescribeDBClusters := fun tr _ =>
       inr {| DBClusters :=
                [ {| DBClusterMembers := [];
                     Status := Some (if (n <=? length (describes tr))%nat
                                     then "available" else "modifying") |} ] |};
     reply_FailoverDBCluster := fun _ _ _ => None;
     reply_RebootDBInstance := fun _ _ _ => None;
     reply_ModifyDBCluster := fun _ _ _ _ _ => None;
     reply_WaitDBClusterAvailable := fun _ _ _ => None;
     reply_WaitDBInstanceAvailable := fun _ _ _ => None;
     reply_Now := fun _ => someTime |}.

Definition member (name : string) (writer : bool) : DBClusterMember :=
  {| DBInstanceIdentifier := Some name; IsClusterWriter := Some writer |}.

(** The two-member cluster ["db-1"] and a one-member and a memberless one. *)
Definition db1 : DBCluster :=
  {| DBClusterMembers := [member "db-1-a" true; member "db-1-b" false];
     Status := Some "available" |}.

Definition db2 : DBCluster :=
  {| DBClusterMembers := [member "db-2-a" true]; Status := Some "available" |}.

Definition db0 : DBCluster :=
  {| DBClusterMembers := []; Status := Some "available" |}.

Definition auroraPlan (id : string) (forceFailover : tfvalue bool)
  : AuroraReboot.Model :=
  {| AuroraReboot.ClusterIdentifier := Known id;
     AuroraReboot.Region := Null;
     AuroraReboot.ForceFailover := forceFailover;
     AuroraReboot.LastRebootTime := Unknown;
     AuroraReboot.ID := Unknown |}.

Definition neptunePlan (id : string) : NeptuneReboot.Model :=
  {| NeptuneReboot.ClusterIdentifier := Known id;
     NeptuneReboot.Region := Null;
     NeptuneReboot.LastRebootTime := Unknown;
     NeptuneReboot.ID := Unknown |}.

Definition neptuneModifyPlan (id : string) : NeptuneModify.Model :=
  {| NeptuneModify.ClusterIdentifier := Known id;
     NeptuneModify.Region := Null;
     NeptuneModify.ClusterParameterGroupName := Known "audit-on";
     NeptuneModify.CloudWatchLogsExports := Null;
     NeptuneModify.ApplyImmediately := Known true;
     NeptuneModify.LastModifiedTime := Unknown;
     NeptuneModify.ID := Unknown |}.

Definition auroraModifyPlan (id : string) : AuroraModify.Model :=
  {| AuroraModify.ClusterIdentifier := Known id;
     AuroraModify.Region := Null;
     AuroraModify.ParameterGroupName := Known "pg-1";
     AuroraModify.CloudWatchLogsExports := Known [Known "postgresql"];
     AuroraModify.ApplyImmediately := Null;
     AuroraModify.LastModifiedTime := Unknown;
     AuroraModify.ID := Unknown |}.

(** The same as [aws], except that loading the configuration errors. *)
Definition withConfigError (e : error) (aws : AWS) : AWS :=
  {| reply_LoadDefaultConfig := fun _ _ => Some e;
     reply_DescribeDBClusters := reply_DescribeDBClusters aws;
     reply_FailoverDBCluster := reply_FailoverDBCluster aws;
     reply_RebootDBInstance := reply_RebootDBInstance aws;
     reply_ModifyDBCluster := reply_ModifyDBCluster aws;
     reply_WaitDBClusterAvailable := reply_WaitDBClusterAvailable aws;
     reply_WaitDBInstanceAvailable := reply_WaitDBInstanceAvailable aws;
     reply_Now := reply_Now aws |}.

(** The same, except that the failover call errors. *)
Definition withFailoverError (e : error) (aws : AWS) : AWS :=
  {| reply_LoadDefaultConfig := reply_LoadDefaultConfig aws;
     reply_DescribeDBClusters := reply_DescribeDBClusters aws;
     reply_FailoverDBCluster := fun _ _ _ => Some e;
     reply_RebootDBInstance := reply_RebootDBInstance aws;
     reply_ModifyDBCluster := reply_ModifyDBCluster aws;
     reply_WaitDBClusterAvailable := reply_WaitDBClusterAvailable aws;
     reply_WaitDBInstanceAvailable := reply_WaitDBInstanceAvailable aws;
     reply_Now := reply_Now aws |}.

(** The same, except that the modify call errors. *)
Definition withModifyError (e : error) (aws : AWS) : AWS :=
  {| reply_LoadDefaultConfig := reply_LoadDefaultConfig aws;
     reply_DescribeDBClusters := reply_DescribeDBClusters aws;
     reply_FailoverDBCluster := reply_FailoverDBCluster aws;
     reply_RebootDBInstance := reply_RebootDBInstance aws;
     reply_ModifyDBCluster := fun _ _ _ _ _ => Some e;
     reply_WaitDBClusterAvailable := reply_WaitDBClusterAvailable aws;
     reply_WaitDBInstanceAvailable := reply_WaitDBInstanceAvailable aws;
     reply_Now := reply_Now aws |}.

(** The same, except that the wait on the cluster errors. *)
Definition withClusterWaitError (e : error) (aws : AWS) : AWS :=
  {| reply_LoadDefaultConfig := reply_LoadDefaultConfig aws;
     reply_DescribeDBClusters := reply_DescribeDBClusters aws;
     reply_FailoverDBCluster := reply_FailoverDBCluster aws;
     reply_RebootDBInstance := reply_RebootDBInstance aws;
     reply_ModifyDBCluster := reply_ModifyDBCluster aws;
     reply_WaitDBClusterAvailable := fun _ _ _ => Some e;
     reply_WaitDBInstanceAvailable := reply_WaitDBInstanceAvailable aws;
     reply_Now := reply_Now aws |}.

(** The same, except that the describe call errors once [n] describe calls
    have been made. *)
Definition withDescribeErrorAfter (n : nat) (e : error) (aws : AWS) : AWS :=
  {| reply_LoadDefaultConfig := reply_LoadDefaultConfig aws;
     reply_DescribeDBClusters := fun tr id =>
       if (n <=? length (describes tr))%nat then inl e
       else reply_DescribeDBClusters aws tr id;
     reply_FailoverDBCluster := reply_FailoverDBCluster aws;
     reply_RebootDBInstance := reply_RebootDBInstance aws;
     reply_ModifyDBCluster := reply_ModifyDBCluster aws;
     reply_WaitDBClusterAvailable := reply_WaitDBClusterAvailable aws;
     reply_WaitDBInstanceAvailable := reply_WaitDBInstanceAvailable aws;
     reply_Now := reply_Now aws |}.

(** An Aurora reboot plan with a region. *)
Definition auroraPlanIn (region id : string) : AuroraReboot.Model :=
  {| AuroraReboot.ClusterIdentifier := Known id;
     AuroraReboot.Region := Known region;
     AuroraReboot.ForceFailover := Null;
     AuroraReboot.LastRebootTime := Unknown;
     AuroraReboot.ID := Unknown |}.

(** A prior state of the Neptune modify resource. *)
Definition neptuneModifyState (id : string) : NeptuneModify.Model :=
  {| NeptuneModify.ClusterIdentifier := Known id;
     NeptuneModify.Region := Null;
     NeptuneModify.ClusterParameterGroupName := Known "audit-on";
     NeptuneModify.CloudWatchLogsExports := Null;
     NeptuneModify.ApplyImmediately := Known true;
     NeptuneModify.LastModifiedTime := Known "2025-03-01T00:00:00Z";
     NeptuneModify.ID := Known id |}.

(** An Aurora modify plan whose list of log types holds a null element. *)
Definition auroraModifyPlanWithNullLog (id : string) : AuroraModify.Model :=
  {| AuroraModify.ClusterIdentifier := Known id;
     AuroraModify.Region := Null;
     AuroraModify.ParameterGroupName := Known "pg-1";
     AuroraModify.CloudWatchLogsExports := Known [Known "postgresql"; Null];
     AuroraModify.ApplyImmediately := Null;
     AuroraModify.LastModifiedTime := Unknown;
     AuroraModify.ID := Unknown |}.

(** A cluster whose second member came without an instance identifier. *)
Definition db3 : DBCluster :=
  {| DBClusterMembers :=
       [member "db-3-a" true;
        {| DBInstanceIdentifier := None; IsClusterWriter := Some true |};
        member "db-3-c" true];
     Status := Some "available" |}.

Definition rdsPlan (id : string) (forceFailover : tfvalue bool) : RDSReboot.Model :=
  {| RDSReboot.DBInstanceIdentifier := Known id;
     RDSReboot.Region := Null;
     RDSReboot.ForceFailover := forceFailover;
     RDSReboot.LastRebootTime := Unknown;
     RDSReboot.ID := Unknown |}.

(** * Reasoning about method bodies *)

#[local] Arguments Minute : simpl never.
#[local] Arguments Second : simpl never.
#[local] Arguments Z.mul : simpl never.

(** ** The monad *)

Lemma bind_Ok {A B} (m : M A) (k : A -> M B) tr a tr' :
  m tr = (Ok a, tr') -> bind m k tr = k a tr'.
Proof. intros H. unfold bind. rewrite H. reflexivity. Qed.

Lemma bind_Failed {A B} (m : M A) (k : A -> M B) tr d tr' :
  m tr = (Failed d, tr') -> bind m k tr = (Failed d, tr').
Proof. intros H. unfold bind. rewrite H. reflexivity. Qed.

Lemma bind_Panicked {A B} (m : M A) (k : A -> M B) tr tr' :
  m tr = (Panicked, tr') -> bind m k tr = (Panicked, tr').
Proof. intros H. unfold bind. rewrite H. reflexivity. Qed.

(** ** Acknowledged calls *)

Lemma ackedFrom_app aws cs1 : forall tr cs2,
  ackedFrom aws tr (cs1 ++ cs2) = ackedFrom aws tr cs1 && ackedFrom aws (tr ++ cs1) cs2.
Proof.
  induction cs1 as [ | c cs1 IH]; intros tr cs2; simpl.
  - rewrite app_nil_r. reflexivity.
  - destruct (errorOf aws tr c); [reflexivity | ].
    rewrite IH, <- app_assoc. reflexivity.
Qed.

Lemma ackedFrom_one aws tr c :
  ackedFrom aws tr [c] = true <-> errorOf aws tr c = None.
Proof.
  simpl. destruct (errorOf aws tr c); split; intros H; congruence.
Qed.

(** ** Loops whose body is one acknowledged call *)

Section RangeOfCalls.

Context {A : Type}.
Variable aws : AWS.
Variable body : A -> M unit.
Variable good : A -> Prop.
Variable callOf : A -> Call.
Variable diag : A -> error -> Diagnostic.

Hypothesis body_spec :
  forall x tr, good x ->
    body x tr =
      (match errorOf aws tr (callOf x) with
       | Some e => Failed (diag x e)
       | None => Ok tt
       end,
       tr ++ [callOf x]).

(** The loop runs to its end when every call is acknowledged. *)
Lemma forRange_acked l : forall tr,
  Forall good l ->
  ackedFrom aws tr (map callOf l) = true ->
  forRange l body tr = (Ok tt, tr ++ map callOf l).
Proof.
  induction l as [ | x l IH]; intros tr Hgood Hack; simpl in *.
  - unfold ret. rewrite app_nil_r. reflexivity.
  - inversion Hgood as [ | ? ? Hx Hl]; subst.
    destruct (errorOf aws tr (callOf x)) eqn:Hrx; [discriminate | ].
    erewrite bind_Ok by (rewrite body_spec, Hrx by assumption; reflexivity).
    rewrite IH by assumption. rewrite <- app_assoc. reflexivity.
Qed.

(** The first call answered with an error ends the loop there. *)
Lemma forRange_first_error p x q e : forall tr,
  Forall good (p ++ [x]) ->
  ackedFrom aws tr (map callOf p) = true ->
  errorOf aws (tr ++ map callOf p) (callOf x) = Some e ->
  forRange (p ++ x :: q) body tr = (Failed (diag x e), tr ++ map callOf (p ++ [x])).
Proof.
  induction p as [ | y p IH]; intros tr Hgood Hack Hx; simpl in *.
  - inversion Hgood as [ | ? ? Hgx _]; subst.
    rewrite app_nil_r in Hx.
    erewrite bind_Failed by (rewrite body_spec, Hx by assumption; reflexivity).
    reflexivity.
  - inversion Hgood as [ | ? ? Hgy Hgp]; subst.
    destruct (errorOf aws tr (callOf y)) eqn:Hry; [discriminate | ].
    erewrite bind_Ok by (rewrite body_spec, Hry by assumption; reflexivity).
    rewrite IH; try assumption.
    + rewrite <- app_assoc. reflexivity.
    + rewrite <- app_assoc. exact Hx.
Qed.

(** One of the two always happens. *)
Lemma forRange_cases l : forall tr,
  Forall good l ->
  (ackedFrom aws tr (map callOf l) = true /\
   forRange l body tr = (Ok tt, tr ++ map callOf l))
  \/
  (exists p x q e,
      l = p ++ x :: q /\
      ackedFrom aws tr (map callOf p) = true /\
      errorOf aws (tr ++ map callOf p) (callOf x) = Some e /\
      forRange l body tr = (Failed (diag x e), tr ++ map callOf (p ++ [x]))).
Proof.
  induction l as [ | x l IH]; intros tr Hgood.
  - left. split; [reflexivity | ].
    simpl. unfold ret. rewrite app_nil_r. reflexivity.
  - inversion Hgood as [ | ? ? Hx Hl]; subst.
    destruct (errorOf aws tr (callOf x)) as [e | ] eqn:Hrx.
    + right. exists [], x, l, e. simpl. rewrite app_nil_r.
      repeat split; try assumption.
      erewrite bind_Failed by (rewrite body_spec, Hrx by assumption; reflexivity).
      reflexivity.
    + destruct (IH (tr ++ [callOf x]) Hl)
        as [[Hack Hrun] | (p & y & q & e & -> & Hack & Hy & Hrun)].
      * left. simpl. rewrite Hrx. split; [exact Hack | ].
        erewrite bind_Ok by (rewrite body_spec, Hrx by assumption; reflexivity).
        rewrite Hrun, <- app_assoc. reflexivity.
      * right. exists (x :: p), y, q, e. simpl. rewrite Hrx.
        rewrite <- app_assoc in Hy. simpl in Hy.
        repeat split; try assumption.
        erewrite bind_Ok by (rewrite body_spec, Hrx by assumption; reflexivity).
        rewrite Hrun, <- app_assoc. reflexivity.
Qed.

End RangeOfCalls.

(** ** Client selection *)

Lemma selectClient_trace aws region r h0 :
  selectClient aws region [] = (r, h0) ->
  h0 = [] \/ h0 = [LoadDefaultConfig (ValueString region)].
Proof.
  unfold selectClient, bind, call_LoadDefaultConfig, AddError, ret.
  destruct (negb (IsNull region)); simpl.
  - destruct (reply_LoadDefaultConfig aws [] (ValueString region));
      intros H; injection H as _ <-; right; reflexivity.
  - intros H; injection H as _ <-. left; reflexivity.
Qed.

Lemma selectClient_not_observed aws region r h0 :
  selectClient aws region [] = (r, h0) ->
  mutations h0 = [] /\ waits h0 = [] /\ describes h0 = [] /\ sleeps h0 = [] /\
  touched h0 = [] /\ watched h0 = [].
Proof.
  intros H. apply selectClient_trace in H as [-> | ->]; repeat split; reflexivity.
Qed.

Lemma selectClient_acked aws region h0 :
  selectClient aws region [] = (Ok tt, h0) -> allAcked aws h0 = true.
Proof.
  unfold selectClient, bind, call_LoadDefaultConfig, AddError, ret, allAcked.
  destruct (negb (IsNull region)); simpl.
  - destruct (reply_LoadDefaultConfig aws [] (ValueString region)) eqn:E;
      intros H; [discriminate | ].
    injection H as <-. simpl. rewrite E. reflexivity.
  - intros H; injection H as <-. reflexivity.
Qed.

(** ** Aurora reboot: the pieces *)

Lemma wantsFailover_code (ff : tfvalue bool) :
  negb (IsNull ff) && ValueBool ff = wantsFailover ff.
Proof. destruct ff as [ | | [ | ]]; reflexivity. Qed.

Lemma forwardedHint_code (ff : tfvalue bool) (n : nat) :
  (if (2 <=? n)%nat && negb (IsNull ff) then aws_Bool (ValueBool ff) else None)
  = forwardedHint ff n.
Proof.
  unfold forwardedHint.
  destruct ff as [ | | b], (2 <=? n)%nat; reflexivity.
Qed.

Lemma existsb_find_isReader members :
  existsb isReader members =
    match find isReader members with Some _ => true | None => false end.
Proof.
  induction members as [ | m members IH]; simpl; [reflexivity | ].
  destruct (isReader m); simpl; [reflexivity | exact IH].
Qed.

Lemma populated_Forall_writer members :
  Forall populated members -> Forall (fun m => IsClusterWriter m <> None) members.
Proof. apply Forall_impl. intros m [H _]. exact H. Qed.

Lemma populated_Forall_name members :
  Forall populated members -> Forall (fun m => DBInstanceIdentifier m <> None) members.
Proof. apply Forall_impl. intros m [_ H]. exact H. Qed.

Lemma find_isReader_populated members reader :
  Forall populated members ->
  find isReader members = Some reader ->
  DBInstanceIdentifier reader <> None.
Proof.
  intros Hpop Hfind. apply find_some in Hfind as [Hin _].
  rewrite Forall_forall in Hpop. apply (Hpop reader Hin).
Qed.

(** The scan returns the first reader in list order. *)
Lemma findReader_spec members : forall tr,
  Forall (fun m => IsClusterWriter m <> None) members ->
  AuroraReboot.findReader members tr =
    (Ok (match find isReader members with
         | Some reader => (true, DBInstanceIdentifier reader)
         | None => (false, None)
         end), tr).
Proof.
  induction members as [ | m members IH]; intros tr Hw; simpl.
  - reflexivity.
  - inversion Hw as [ | ? ? Hm Hrest]; subst.
    unfold isReader, bind, deref.
    destruct (IsClusterWriter m) as [w | ]; [ | contradiction].
    destruct w; simpl.
    + apply IH. exact Hrest.
    + reflexivity.
Qed.

Lemma aurora_rebootMember_spec aws data n m tr :
  DBInstanceIdentifier m <> None ->
  AuroraReboot.rebootMember aws data n m tr =
    (match errorOf aws tr
             (auroraRebootCall (forwardedHint (AuroraReboot.ForceFailover data) n) m) with
     | Some e => Failed (auroraRebootError m e)
     | None => Ok tt
     end,
     tr ++ [auroraRebootCall (forwardedHint (AuroraReboot.ForceFailover data) n) m]).
Proof.
  intros Hname. unfold AuroraReboot.rebootMember.
  rewrite forwardedHint_code.
  unfold bind, deref, call_RebootDBInstance, auroraRebootCall, auroraRebootError,
    AddError, ret.
  destruct (DBInstanceIdentifier m) as [name | ]; [ | contradiction].
  simpl. destruct (reply_RebootDBInstance aws tr (Some name) _); reflexivity.
Qed.

Lemma aurora_rebootCluster_failover aws data cluster tr :
  Forall populated (DBClusterMembers cluster) ->
  failoverChosen (DBClusterMembers cluster) (AuroraReboot.ForceFailover data) = true ->
  exists reader call,
    find isReader (DBClusterMembers cluster) = Some reader /\
    call = FailoverDBCluster
             (Some (ValueString (AuroraReboot.ClusterIdentifier data)))
             (DBInstanceIdentifier reader) /\
    AuroraReboot.rebootCluster aws data cluster tr =
      (match errorOf aws tr call with
       | Some e => Failed (auroraFailoverError e)
       | None => Ok tt
       end, tr ++ [call]).
Proof.
  intros Hpop Hchosen. unfold failoverChosen in Hchosen.
  rewrite existsb_find_isReader in Hchosen.
  destruct (find isReader (DBClusterMembers cluster)) as [reader | ] eqn:Hfind.
  2: { rewrite andb_false_r in Hchosen. discriminate. }
  exists reader, (FailoverDBCluster
                    (Some (ValueString (AuroraReboot.ClusterIdentifier data)))
                    (DBInstanceIdentifier reader)).
  split; [reflexivity | split; [reflexivity | ]].
  unfold AuroraReboot.rebootCluster.
  erewrite bind_Ok by (apply findReader_spec, populated_Forall_writer, Hpop).
  rewrite Hfind. cbv beta iota.
  rewrite andb_true_r, <- andb_assoc, wantsFailover_code.
  rewrite andb_true_r in Hchosen. rewrite Hchosen.
  pose proof (find_isReader_populated _ _ Hpop Hfind) as Hname.
  unfold bind, deref, call_FailoverDBCluster, auroraFailoverError, AddError, ret,
    aws_String.
  destruct (DBInstanceIdentifier reader) as [name | ]; [ | contradiction].
  simpl. destruct (reply_FailoverDBCluster aws tr _ (Some name)); reflexivity.
Qed.

Lemma aurora_rebootCluster_fanout aws data cluster tr :
  Forall populated (DBClusterMembers cluster) ->
  failoverChosen (DBClusterMembers cluster) (AuroraReboot.ForceFailover data) = false ->
  AuroraReboot.rebootCluster aws data cluster tr =
    forRange (DBClusterMembers cluster)
      (AuroraReboot.rebootMember aws data (length (DBClusterMembers cluster))) tr.
Proof.
  intros Hpop Hchosen. unfold failoverChosen in Hchosen.
  rewrite existsb_find_isReader in Hchosen.
  unfold AuroraReboot.rebootCluster.
  erewrite bind_Ok by (apply findReader_spec, populated_Forall_writer, Hpop).
  destruct (find isReader (DBClusterMembers cluster)) as [reader | ]; cbv beta iota.
  - rewrite <- andb_assoc, wantsFailover_code, Hchosen. reflexivity.
  - rewrite andb_false_r. reflexivity.
Qed.

(** ** Update does what Create does *)

Lemma bind_mapResult {A B C} (f : B -> C) (m : M A) (k1 : A -> M B) (k2 : A -> M C) tr :
  (forall a tr', k2 a tr' = mapResult f (k1 a tr')) ->
  bind m k2 tr = mapResult f (bind m k1 tr).
Proof.
  intros H. unfold bind. destruct (m tr) as [[a | d | ] tr']; [apply H | | ]; reflexivity.
Qed.

Lemma run_mapResult {A B} (f : A -> B) (m1 : M A) (m2 : M B) :
  m2 [] = mapResult f (m1 []) ->
  run m2 = (mapOutcome f (fst (run m1)), snd (run m1)).
Proof.
  intros H. unfold run, respond. rewrite H.
  destruct (m1 []) as [[a | d | ] tr]; reflexivity.
Qed.

Lemma succeeded_mapOutcome {A B} (f : A -> B) (o : Outcome A) :
  succeeded (mapOutcome f o) = succeeded o.
Proof. destruct o as [[ds st] | ]; reflexivity. Qed.

Lemma failedWith_mapOutcome {A B} (f : A -> B) d (o : Outcome A) :
  failedWith d o -> failedWith d (mapOutcome f o).
Proof. unfold failedWith. intros ->. reflexivity. Qed.

Lemma aurora_Update_as_Create aws data tr :
  AuroraReboot.Update aws data tr =
    mapResult (auroraRebootKeepID data) (AuroraReboot.Create aws data tr).
Proof.
  unfold AuroraReboot.Update, AuroraReboot.Create.
  repeat (apply bind_mapResult; intros ? ?). reflexivity.
Qed.

(** ** Sequences of calls that stop at the first error *)

Lemma issuedOf_acked aws cs : forall tr,
  ackedFrom aws tr cs = true -> issuedOf aws tr cs = cs.
Proof.
  induction cs as [ | c cs IH]; intros tr H; simpl in *; [reflexivity | ].
  destruct (errorOf aws tr c); [discriminate | ].
  rewrite IH by assumption. reflexivity.
Qed.

Lemma issuedOf_prefix aws cs : forall tr,
  exists rest, cs = issuedOf aws tr cs ++ rest.
Proof.
  induction cs as [ | c cs IH]; intros tr; simpl.
  - exists []. reflexivity.
  - destruct (errorOf aws tr c).
    + exists cs. reflexivity.
    + destruct (IH (tr ++ [c])) as [rest Hrest].
      exists rest. simpl. rewrite <- Hrest. reflexivity.
Qed.

Lemma issuedOf_first_error aws p c q e : forall tr,
  ackedFrom aws tr p = true ->
  errorOf aws (tr ++ p) c = Some e ->
  issuedOf aws tr (p ++ c :: q) = p ++ [c].
Proof.
  induction p as [ | y p IH]; intros tr Hack Hc; simpl in *.
  - rewrite app_nil_r in Hc. rewrite Hc. reflexivity.
  - destruct (errorOf aws tr y); [discriminate | ].
    rewrite IH; [reflexivity | assumption | ].
    rewrite <- app_assoc. exact Hc.
Qed.

Lemma filter_issuedOf_all aws (keep : Call -> bool) cs : forall tr,
  forallb keep cs = true -> filter keep (issuedOf aws tr cs) = issuedOf aws tr cs.
Proof.
  induction cs as [ | c cs IH]; intros tr H; simpl in *; [reflexivity | ].
  apply andb_prop in H as [Hc Hcs]. rewrite Hc.
  destruct (errorOf aws tr c); simpl; [reflexivity | ].
  rewrite IH by assumption. reflexivity.
Qed.

Lemma filter_issuedOf_none aws (keep : Call -> bool) cs : forall tr,
  forallb (fun c => negb (keep c)) cs = true -> filter keep (issuedOf aws tr cs) = [].
Proof.
  induction cs as [ | c cs IH]; intros tr H; simpl in *; [reflexivity | ].
  apply andb_prop in H as [Hc Hcs]. apply negb_true_iff in Hc. rewrite Hc.
  destruct (errorOf aws tr c); simpl; [reflexivity | ].
  apply IH. assumption.
Qed.

Section RangeIssued.

Context {A : Type}.
Variable aws : AWS.
Variable body : A -> M unit.
Variable good : A -> Prop.
Variable callOf : A -> Call.
Variable diag : A -> error -> Diagnostic.

Hypothesis body_spec :
  forall x tr, good x ->
    body x tr =
      (match errorOf aws tr (callOf x) with
       | Some e => Failed (diag x e)
       | None => Ok tt
       end,
       tr ++ [callOf x]).

(** Whatever the replies, the loop issues its calls in order up to the first
    error, and ends normally exactly when there is none. *)
Lemma forRange_issued l : forall tr,
  Forall good l ->
  exists r,
    forRange l body tr = (r, tr ++ issuedOf aws tr (map callOf l)) /\
    (ackedFrom aws tr (map callOf l) = true -> r = Ok tt) /\
    (ackedFrom aws tr (map callOf l) = false -> exists d, r = Failed d).
Proof.
  intros tr Hgood.
  destruct (forRange_cases aws body good callOf diag body_spec l tr Hgood)
    as [[Hack Hrun] | (p & x & q & e & -> & Hack & Hx & Hrun)].
  - exists (Ok tt). rewrite issuedOf_acked by assumption.
    split; [exact Hrun | split; [reflexivity | ]].
    intros Hno. congruence.
  - exists (Failed (diag x e)).
    rewrite map_app. simpl map.
    rewrite (issuedOf_first_error aws _ _ _ e) by assumption.
    split; [ | split].
    + rewrite Hrun, map_app. reflexivity.
    + rewrite ackedFrom_app. rewrite Hack. simpl. rewrite Hx. discriminate.
    + intros _. eexists. reflexivity.
Qed.

End RangeIssued.

(** ** Aurora reboot: the methods *)

Section AuroraRebootRuns.

Variable aws : AWS.
Variable data : AuroraReboot.Model.

Let id := ValueString (AuroraReboot.ClusterIdentifier data).
Let ff := AuroraReboot.ForceFailover data.

Lemma aurora_describeCluster_run h0 :
  AuroraReboot.describeCluster aws data h0 =
    (match reply_DescribeDBClusters aws h0 (Some id) with
     | inl e =>
         Failed {| Summary := "Error describing Aurora cluster";
                   Detail := "Could not describe Aurora cluster: " ++ e |}%string
     | inr out =>
         match DBClusters out with
         | [] => Failed (auroraNotFound id)
         | cluster :: _ => Ok cluster
         end
     end, h0 ++ [DescribeDBClusters (Some id)]).
Proof.
  unfold AuroraReboot.describeCluster, bind, call_DescribeDBClusters, aws_String.
  fold id.
  destruct (reply_DescribeDBClusters aws h0 (Some id)) as [e | out]; [reflexivity | ].
  destruct (DBClusters out); reflexivity.
Qed.

(** Create, once the cluster is described: the reboot calls, then the wait
    on the cluster, then the time stamp. *)
Lemma aurora_Create_run h0 cluster others :
  describedAs aws (AuroraReboot.Region data) id h0 (cluster :: others) ->
  AuroraReboot.Create aws data [] =
    match AuroraReboot.rebootCluster aws data cluster
            (h0 ++ [DescribeDBClusters (Some id)]) with
    | (Ok _, tr) =>
        match errorOf aws tr (auroraWaitCall id) with
        | None =>
            (Ok (auroraRebooted data (reply_Now aws (tr ++ [auroraWaitCall id]))),
             tr ++ [auroraWaitCall id; Now])
        | Some e => (Failed (auroraWaitError e), tr ++ [auroraWaitCall id])
        end
    | (Failed d, tr) => (Failed d, tr)
    | (Panicked, tr) => (Panicked, tr)
    end.
Proof.
  intros [Hsel Hrep]. unfold AuroraReboot.Create.
  erewrite bind_Ok by exact Hsel.
  erewrite bind_Ok
    by (rewrite aurora_describeCluster_run, Hrep; reflexivity).
  unfold bind at 1.
  destruct (AuroraReboot.rebootCluster aws data cluster _) as [[[] | d | ] tr];
    try reflexivity.
  unfold AuroraReboot.waitCluster, bind, call_WaitDBClusterAvailable, call_Now,
    AddError, ret, aws_String, auroraWaitCall, auroraWaitError.
  fold id. simpl.
  destruct (reply_WaitDBClusterAvailable aws tr (Some id) (30 * Minute)).
  - reflexivity.
  - rewrite <- app_assoc. reflexivity.
Qed.

(** The reboot step issues the calls of [auroraMutationCalls] in order up to
    the first error. *)
Lemma aurora_rebootCluster_issued cluster tr :
  Forall populated (DBClusterMembers cluster) ->
  exists r,
    AuroraReboot.rebootCluster aws data cluster tr =
      (r, tr ++ issuedOf aws tr (auroraMutationCalls id ff (DBClusterMembers cluster))) /\
    (ackedFrom aws tr (auroraMutationCalls id ff (DBClusterMembers cluster)) = true ->
     r = Ok tt) /\
    (ackedFrom aws tr (auroraMutationCalls id ff (DBClusterMembers cluster)) = false ->
     exists d, r = Failed d).
Proof.
  intros Hpop. unfold auroraMutationCalls.
  destruct (failoverChosen (DBClusterMembers cluster) ff) eqn:Hchosen.
  - destruct (aurora_rebootCluster_failover aws data cluster tr Hpop Hchosen)
      as (reader & call & Hfind & -> & Hrun).
    rewrite Hfind. fold id in Hrun |- *. rewrite Hrun. simpl.
    destruct (reply_FailoverDBCluster aws tr (Some id) (DBInstanceIdentifier reader)).
    + eexists. split; [reflexivity | split; [discriminate | eauto]].
    + eexists. split; [reflexivity | split; [reflexivity | discriminate]].
  - rewrite aurora_rebootCluster_fanout by assumption.
    apply (forRange_issued aws _ (fun m => DBInstanceIdentifier m <> None) _
             auroraRebootError).
    + intros x tr0 Hx. apply aurora_rebootMember_spec. exact Hx.
    + apply populated_Forall_name. exact Hpop.
Qed.

End AuroraRebootRuns.

Section AuroraRebootOutcomes.

Variable aws : AWS.
Variable data : AuroraReboot.Model.
Variable h0 : Trace.
Variable cluster : DBCluster.
Variable others : list DBCluster.

Let id := ValueString (AuroraReboot.ClusterIdentifier data).
Let ff := AuroraReboot.ForceFailover data.
Let members := DBClusterMembers cluster.
Let h1 := h0 ++ [DescribeDBClusters (Some id)].
Let calls := auroraMutationCalls id ff members.

Hypothesis Hdesc : describedAs aws (AuroraReboot.Region data) id h0 (cluster :: others).
Hypothesis Hpop : Forall populated members.

(** All mutation calls acknowledged: the wait on the cluster decides. *)
Lemma aurora_Create_acked :
  ackedFrom aws h1 calls = true ->
  AuroraReboot.Create aws data [] =
    match errorOf aws (h1 ++ calls) (auroraWaitCall id) with
    | None =>
        (Ok (auroraRebooted data (reply_Now aws ((h1 ++ calls) ++ [auroraWaitCall id]))),
         (h1 ++ calls) ++ [auroraWaitCall id; Now])
    | Some e => (Failed (auroraWaitError e), (h1 ++ calls) ++ [auroraWaitCall id])
    end.
Proof.
  intros Hack.
  rewrite (aurora_Create_run aws data h0 cluster others Hdesc).
  destruct (aurora_rebootCluster_issued aws data cluster h1 Hpop)
    as (r & Hrun & Hok & _).
  fold id ff members calls h1 in Hrun, Hok |- *.
  rewrite Hrun, (Hok Hack), issuedOf_acked by assumption. reflexivity.
Qed.

(** A mutation call answered with an error: the method fails there. *)
Lemma aurora_Create_not_acked :
  ackedFrom aws h1 calls = false ->
  exists d, AuroraReboot.Create aws data [] = (Failed d, h1 ++ issuedOf aws h1 calls).
Proof.
  intros Hack.
  rewrite (aurora_Create_run aws data h0 cluster others Hdesc).
  destruct (aurora_rebootCluster_issued aws data cluster h1 Hpop)
    as (r & Hrun & _ & Hfail).
  fold id ff members calls h1 in Hrun, Hfail |- *.
  destruct (Hfail Hack) as [d ->]. rewrite Hrun. exists d. reflexivity.
Qed.

(** In every case the trace is the describe call, the issued mutation
    calls, and a tail without mutations. *)
Lemma aurora_Create_trace :
  exists tail,
    snd (AuroraReboot.Create aws data []) = h1 ++ issuedOf aws h1 calls ++ tail /\
    (tail = [] \/ tail = [auroraWaitCall id] \/ tail = [auroraWaitCall id; Now]).
Proof.
  destruct (ackedFrom aws h1 calls) eqn:Hack.
  - rewrite (aurora_Create_acked Hack), issuedOf_acked by assumption.
    destruct (errorOf aws (h1 ++ calls) (auroraWaitCall id)); simpl snd;
      eexists; rewrite <- app_assoc; split; [reflexivity | auto | reflexivity | auto].
  - destruct (aurora_Create_not_acked Hack) as [d ->]. exists [].
    rewrite app_nil_r. split; [reflexivity | auto].
Qed.

Lemma aurora_h1_unobserved :
  mutations h1 = [] /\ waits h1 = [] /\ touched h1 = [] /\ watched h1 = [].
Proof.
  destruct Hdesc as [Hsel _].
  destruct (selectClient_not_observed _ _ _ _ Hsel) as (Hm & Hw & _ & _ & Ht & Hwd).
  unfold h1, mutations, waits, touched, watched in *.
  rewrite !filter_app, !flat_map_app, Hm, Hw, Ht, Hwd. repeat split; reflexivity.
Qed.

Lemma aurora_Create_mutations :
  mutations (snd (AuroraReboot.Create aws data [])) = mutations (issuedOf aws h1 calls).
Proof.
  destruct aurora_Create_trace as (tail & -> & Htail).
  destruct aurora_h1_unobserved as (Hm & _).
  unfold mutations in *. rewrite !filter_app, Hm.
  destruct Htail as [-> | [-> | ->]]; simpl; rewrite app_nil_r; reflexivity.
Qed.

End AuroraRebootOutcomes.

(** What holds of a run of Create carries over to Update. *)
Lemma aurora_run_Update aws data :
  run (AuroraReboot.Update aws data) =
    (mapOutcome (auroraRebootKeepID data) (fst (run (AuroraReboot.Create aws data))),
     snd (run (AuroraReboot.Create aws data))).
Proof. apply run_mapResult, aurora_Update_as_Create. Qed.

Lemma snd_run {Model} (m : M Model) : snd (run m) = snd (m []).
Proof. unfold run, respond. destruct (m []) as [[a | d | ] tr]; reflexivity. Qed.

Lemma run_Failed {Model} (m : M Model) d tr :
  m [] = (Failed d, tr) -> failedWith d (fst (run m)) /\ snd (run m) = tr.
Proof. intros H. unfold run, respond, failedWith. rewrite H. split; reflexivity. Qed.

Lemma run_Ok {Model} (m : M Model) a tr :
  m [] = (Ok a, tr) ->
  fst (run m) = Returned {| Diagnostics := []; StateSet := Some a |} /\ snd (run m) = tr.
Proof. intros H. unfold run, respond. rewrite H. split; reflexivity. Qed.

Lemma aurora_either_trace aws data o :
  o = run (AuroraReboot.Create aws data) \/ o = run (AuroraReboot.Update aws data) ->
  snd o = snd (AuroraReboot.Create aws data []).
Proof.
  intros [-> | ->]; [ | rewrite aurora_run_Update; simpl snd]; apply snd_run.
Qed.

Lemma aurora_either_failed aws data o d :
  o = run (AuroraReboot.Create aws data) \/ o = run (AuroraReboot.Update aws data) ->
  fst (AuroraReboot.Create aws data []) = Failed d ->
  failedWith d (fst o).
Proof.
  intros Ho Hd.
  assert (failedWith d (fst (run (AuroraReboot.Create aws data)))) as Hc.
  { unfold run, respond. destruct (AuroraReboot.Create aws data []) as [r tr].
    simpl in Hd. subst r. reflexivity. }
  destruct Ho as [-> | ->]; [exact Hc | ].
  rewrite aurora_run_Update. simpl fst. apply failedWith_mapOutcome, Hc.
Qed.

Lemma aurora_either_succeeded aws data o a :
  o = run (AuroraReboot.Create aws data) \/ o = run (AuroraReboot.Update aws data) ->
  fst (AuroraReboot.Create aws data []) = Ok a ->
  succeeded (fst o) = true.
Proof.
  intros Ho Ha.
  assert (succeeded (fst (run (AuroraReboot.Create aws data))) = true) as Hc.
  { unfold run, respond. destruct (AuroraReboot.Create aws data []) as [r tr].
    simpl in Ha. subst r. reflexivity. }
  destruct Ho as [-> | ->]; [exact Hc | ].
  rewrite aurora_run_Update. simpl fst. rewrite succeeded_mapOutcome. exact Hc.
Qed.

Lemma mutations_auroraRebootCalls hint members :
  forallb isMutation (map (auroraRebootCall hint) members) = true.
Proof. induction members as [ | m members IH]; simpl; auto. Qed.

(** ** Neptune reboot *)

Lemma neptune_rebootMember_spec aws m tr :
  NeptuneReboot.rebootMember aws m tr =
    (match errorOf aws tr (neptuneRebootCall m) with
     | Some e => Failed (neptuneRebootError m e)
     | None => Ok tt
     end, tr ++ [neptuneRebootCall m]).
Proof.
  unfold NeptuneReboot.rebootMember, bind, call_RebootDBInstance, neptuneRebootCall,
    neptuneRebootError, AddError, ret, aws_String.
  simpl. destruct (reply_RebootDBInstance aws tr _ None); reflexivity.
Qed.

Lemma neptune_waitMember_spec aws m tr :
  NeptuneReboot.waitMember aws m tr =
    (match errorOf aws tr (neptuneWaitCall m) with
     | Some e => Failed (neptuneWaitError m e)
     | None => Ok tt
     end, tr ++ [neptuneWaitCall m]).
Proof.
  unfold NeptuneReboot.waitMember, bind, call_WaitDBInstanceAvailable, neptuneWaitCall,
    neptuneWaitError, AddError, ret, aws_String.
  simpl. destruct (reply_WaitDBInstanceAvailable aws tr _ _); reflexivity.
Qed.

Lemma Forall_True {A} (l : list A) : Forall (fun _ => True) l.
Proof. induction l; constructor; auto. Qed.

Section NeptuneRebootSteps.

Variable aws : AWS.
Variable mk : Time -> NeptuneReboot.Model.

Let R := map neptuneRebootCall.
Let W := map neptuneWaitCall.

(** The first reboot call that errors ends the method before any wait. *)
Lemma neptune_steps_reboot_error p x q e tr :
  ackedFrom aws tr (R p) = true ->
  errorOf aws (tr ++ R p) (neptuneRebootCall x) = Some e ->
  neptuneRebootSteps aws mk (p ++ x :: q) tr =
    (Failed (neptuneRebootError x e), tr ++ R (p ++ [x])).
Proof.
  intros Hack Hx. unfold neptuneRebootSteps.
  erewrite bind_Failed; [reflexivity | ].
  apply (forRange_first_error aws _ (fun _ => True) neptuneRebootCall neptuneRebootError).
  - intros m tr0 _. apply neptune_rebootMember_spec.
  - apply Forall_True.
  - exact Hack.
  - exact Hx.
Qed.

(** With every reboot acknowledged, the first wait that errors ends the
    method; the instances after it are not waited for. *)
Lemma neptune_steps_wait_error p x q e tr :
  ackedFrom aws tr (R (p ++ x :: q)) = true ->
  ackedFrom aws (tr ++ R (p ++ x :: q)) (W p) = true ->
  errorOf aws ((tr ++ R (p ++ x :: q)) ++ W p) (neptuneWaitCall x) = Some e ->
  neptuneRebootSteps aws mk (p ++ x :: q) tr =
    (Failed (neptuneWaitError x e), (tr ++ R (p ++ x :: q)) ++ W (p ++ [x])).
Proof.
  intros HackR HackW Hx. unfold neptuneRebootSteps.
  erewrite bind_Ok.
  2: { apply (forRange_acked aws _ (fun _ => True) neptuneRebootCall neptuneRebootError).
       - intros m tr0 _. apply neptune_rebootMember_spec.
       - apply Forall_True.
       - exact HackR. }
  erewrite bind_Failed; [reflexivity | ].
  apply (forRange_first_error aws _ (fun _ => True) neptuneWaitCall neptuneWaitError).
  - intros m tr0 _. apply neptune_waitMember_spec.
  - apply Forall_True.
  - exact HackW.
  - exact Hx.
Qed.

(** With every reboot and every wait acknowledged, the time is read. *)
Lemma neptune_steps_acked instances tr :
  ackedFrom aws tr (R instances) = true ->
  ackedFrom aws (tr ++ R instances) (W instances) = true ->
  neptuneRebootSteps aws mk instances tr =
    (Ok (mk (reply_Now aws ((tr ++ R instances) ++ W instances))),
     ((tr ++ R instances) ++ W instances) ++ [Now]).
Proof.
  intros HackR HackW. unfold neptuneRebootSteps.
  erewrite bind_Ok.
  2: { apply (forRange_acked aws _ (fun _ => True) neptuneRebootCall neptuneRebootError).
       - intros m tr0 _. apply neptune_rebootMember_spec.
       - apply Forall_True.
       - exact HackR. }
  erewrite bind_Ok.
  2: { apply (forRange_acked aws _ (fun _ => True) neptuneWaitCall neptuneWaitError).
       - intros m tr0 _. apply neptune_waitMember_spec.
       - apply Forall_True.
       - exact HackW. }
  reflexivity.
Qed.

(** Whatever the replies: the reboots issued up to the first error, then,
    if there was none, the waits issued up to the first error, then, if
    there was none, the time. *)
Lemma neptune_steps_trace instances tr :
  exists r,
    neptuneRebootSteps aws mk instances tr =
      (r,
       tr ++ issuedOf aws tr (R instances)
          ++ (if ackedFrom aws tr (R instances)
              then issuedOf aws (tr ++ R instances) (W instances)
                   ++ (if ackedFrom aws (tr ++ R instances) (W instances)
                       then [Now] else [])
              else [])) /\
    ((exists a, r = Ok a) \/ (exists d, r = Failed d)).
Proof.
  unfold neptuneRebootSteps.
  destruct (forRange_issued aws _ (fun _ => True) neptuneRebootCall neptuneRebootError
              (fun m tr0 _ => neptune_rebootMember_spec aws m tr0)
              instances tr (Forall_True _)) as (r1 & Hrun1 & Hok1 & Hfail1).
  fold (R instances) in Hrun1, Hok1, Hfail1.
  destruct (ackedFrom aws tr (R instances)) eqn:HackR.
  - rewrite (Hok1 eq_refl) in Hrun1.
    erewrite bind_Ok by exact Hrun1.
    rewrite issuedOf_acked by assumption.
    destruct (forRange_issued aws _ (fun _ => True) neptuneWaitCall neptuneWaitError
                (fun m tr0 _ => neptune_waitMember_spec aws m tr0)
                instances (tr ++ R instances) (Forall_True _))
      as (r2 & Hrun2 & Hok2 & Hfail2).
    fold (W instances) in Hrun2, Hok2, Hfail2.
    destruct (ackedFrom aws (tr ++ R instances) (W instances)) eqn:HackW.
    + rewrite (Hok2 eq_refl) in Hrun2.
      erewrite bind_Ok by exact Hrun2.
      eexists. split; [ | left; eexists; reflexivity].
      unfold bind, call_Now, ret. rewrite <- !app_assoc. reflexivity.
    + destruct (Hfail2 eq_refl) as [d ->].
      erewrite bind_Failed by exact Hrun2.
      eexists. split; [ | right; eexists; reflexivity].
      rewrite app_nil_r, <- !app_assoc. reflexivity.
  - destruct (Hfail1 eq_refl) as [d ->].
    erewrite bind_Failed by exact Hrun1.
    eexists. split; [ | right; eexists; reflexivity].
    rewrite app_nil_r. reflexivity.
Qed.

End NeptuneRebootSteps.

Section NeptuneRebootRuns.

Variable aws : AWS.
Variable data : NeptuneReboot.Model.

Let id := ValueString (NeptuneReboot.ClusterIdentifier data).

Lemma neptune_describeCluster_run h0 :
  NeptuneReboot.describeCluster aws data h0 =
    (match reply_DescribeDBClusters aws h0 (Some id) with
     | inl e =>
         Failed {| Summary := "Error describing Neptune cluster";
                   Detail := "Could not describe Neptune cluster: " ++ e |}%string
     | inr out =>
         match DBClusters out with
         | [] => Failed (neptuneNotFound id)
         | cluster :: _ => Ok cluster
         end
     end, h0 ++ [DescribeDBClusters (Some id)]).
Proof.
  unfold NeptuneReboot.describeCluster, bind, call_DescribeDBClusters, aws_String.
  fold id.
  destruct (reply_DescribeDBClusters aws h0 (Some id)) as [e | out]; [reflexivity | ].
  destruct (DBClusters out); reflexivity.
Qed.

Lemma neptune_Update_run h0 cluster others :
  describedAs aws (NeptuneReboot.Region data) id h0 (cluster :: others) ->
  NeptuneReboot.Update aws data [] =
    neptuneRebootSteps aws
      (fun now => neptuneRebootKeepID data (neptuneRebooted data now))
      (DBClusterMembers cluster)
      (h0 ++ [DescribeDBClusters (Some id)]).
Proof.
  intros [Hsel Hrep]. unfold NeptuneReboot.Update.
  erewrite bind_Ok by exact Hsel.
  erewrite bind_Ok
    by (rewrite neptune_describeCluster_run, Hrep; reflexivity).
  reflexivity.
Qed.

Lemma neptune_Create_run h0 cluster others :
  describedAs aws (NeptuneReboot.Region data) id h0 (cluster :: others) ->
  NeptuneReboot.Create aws data [] =
    match DBClusterMembers cluster with
    | [] => (Failed (neptuneNoInstances id), h0 ++ [DescribeDBClusters (Some id)])
    | _ :: _ =>
        neptuneRebootSteps aws (neptuneRebooted data) (DBClusterMembers cluster)
          (h0 ++ [DescribeDBClusters (Some id)])
    end.
Proof.
  intros [Hsel Hrep]. unfold NeptuneReboot.Create.
  erewrite bind_Ok by exact Hsel.
  erewrite bind_Ok
    by (rewrite neptune_describeCluster_run, Hrep; reflexivity).
  destruct (DBClusterMembers cluster) as [ | m ms]; reflexivity.
Qed.

End NeptuneRebootRuns.

(** ** Observers on the traces of the loops *)

Lemma filter_map_all {A} (keep : Call -> bool) (f : A -> Call) l :
  (forall x, keep (f x) = true) -> filter keep (map f l) = map f l.
Proof.
  intros H. induction l as [ | x l IH]; simpl; [reflexivity | ].
  rewrite H, IH. reflexivity.
Qed.

Lemma filter_map_none {A} (keep : Call -> bool) (f : A -> Call) l :
  (forall x, keep (f x) = false) -> filter keep (map f l) = [].
Proof.
  intros H. induction l as [ | x l IH]; simpl; [reflexivity | ].
  rewrite H, IH. reflexivity.
Qed.

Lemma forallb_map_all {A} (keep : Call -> bool) (f : A -> Call) l :
  (forall x, keep (f x) = true) -> forallb keep (map f l) = true.
Proof.
  intros H. induction l as [ | x l IH]; simpl; [reflexivity | ].
  rewrite H, IH. reflexivity.
Qed.

Lemma touched_neptuneRebootCalls l :
  touched (map neptuneRebootCall l) =
    map (fun m => Some (aws_ToString (DBInstanceIdentifier m))) l.
Proof. induction l as [ | x l IH]; simpl; [ | rewrite IH]; reflexivity. Qed.

Lemma watched_neptuneWaitCalls l :
  watched (map neptuneWaitCall l) =
    map (fun m => Some (aws_ToString (DBInstanceIdentifier m))) l.
Proof. induction l as [ | x l IH]; simpl; [ | rewrite IH]; reflexivity. Qed.

Lemma touched_neptuneWaitCalls l : touched (map neptuneWaitCall l) = [].
Proof. induction l as [ | x l IH]; simpl; [ | rewrite IH]; reflexivity. Qed.

Lemma watched_neptuneRebootCalls l : watched (map neptuneRebootCall l) = [].
Proof. induction l as [ | x l IH]; simpl; [ | rewrite IH]; reflexivity. Qed.

(** ** Neptune reboot: either method *)

Lemma neptune_either aws data h0 cluster others o :
  let id := ValueString (NeptuneReboot.ClusterIdentifier data) in
  describedAs aws (NeptuneReboot.Region data) id h0 (cluster :: others) ->
  DBClusterMembers cluster <> [] ->
  o = run (NeptuneReboot.Create aws data) \/ o = run (NeptuneReboot.Update aws data) ->
  exists mk,
    o = respond (neptuneRebootSteps aws mk (DBClusterMembers cluster)
                   (h0 ++ [DescribeDBClusters (Some id)])).
Proof.
  intros id Hdesc Hne [-> | ->]; unfold run.
  - rewrite (neptune_Create_run aws data h0 cluster others Hdesc).
    destruct (DBClusterMembers cluster) as [ | m ms]; [contradiction | ].
    eexists. reflexivity.
  - rewrite (neptune_Update_run aws data h0 cluster others Hdesc).
    eexists. reflexivity.
Qed.

Lemma respond_Failed {Model} (d : Diagnostic) (tr : Trace) :
  @respond Model (Failed d, tr) = (Returned {| Diagnostics := [d]; StateSet := None |}, tr).
Proof. reflexivity. Qed.

Lemma neptune_h1_unobserved aws region id h0 clusters :
  describedAs aws region id h0 clusters ->
  let h1 := h0 ++ [DescribeDBClusters (Some id)] in
  mutations h1 = [] /\ waits h1 = [] /\ touched h1 = [] /\ watched h1 = [].
Proof.
  intros [Hsel _] h1.
  destruct (selectClient_not_observed _ _ _ _ Hsel) as (Hm & Hw & _ & _ & Ht & Hwd).
  unfold h1, mutations, waits, touched, watched in *.
  rewrite !filter_app, !flat_map_app, Hm, Hw, Ht, Hwd. repeat split; reflexivity.
Qed.

(** ** Aurora reboot: the first failing reboot of the fan-out *)

Lemma aurora_Create_reboot_error aws data h0 cluster others p x q e :
  let id := ValueString (AuroraReboot.ClusterIdentifier data) in
  let members := DBClusterMembers cluster in
  let h1 := h0 ++ [DescribeDBClusters (Some id)] in
  let call :=
    auroraRebootCall (forwardedHint (AuroraReboot.ForceFailover data) (length members)) in
  describedAs aws (AuroraReboot.Region data) id h0 (cluster :: others) ->
  Forall populated members ->
  failoverChosen members (AuroraReboot.ForceFailover data) = false ->
  members = p ++ x :: q ->
  ackedFrom aws h1 (map call p) = true ->
  errorOf aws (h1 ++ map call p) (call x) = Some e ->
  AuroraReboot.Create aws data [] =
    (Failed (auroraRebootError x e), h1 ++ map call (p ++ [x])).
Proof.
  intros id members h1 call Hdesc Hpop Hfan Hsplit Hack Hx.
  rewrite (aurora_Create_run aws data h0 cluster others Hdesc).
  rewrite aurora_rebootCluster_fanout by assumption.
  fold members id h1. rewrite Hsplit.
  rewrite (forRange_first_error aws _ (fun m => DBInstanceIdentifier m <> None)
             call auroraRebootError) with (e := e).
  - reflexivity.
  - intros m tr0 Hm. unfold call. rewrite <- Hsplit.
    apply aurora_rebootMember_spec. exact Hm.
  - apply populated_Forall_name. unfold members in Hsplit, Hpop.
    rewrite Hsplit in Hpop. apply Forall_app in Hpop as [Hp Hxq].
    apply Forall_app. split; [exact Hp | ].
    inversion Hxq; subst. constructor; [assumption | constructor].
  - exact Hack.
  - exact Hx.
Qed.

Lemma snd_respond {Model} (r : Result Model * Trace) : snd (respond r) = snd r.
Proof. destruct r as [[a | d | ] tr]; reflexivity. Qed.

(** The mutation calls of the Neptune steps are the reboots issued. *)
Lemma neptune_steps_mutations aws mk instances tr :
  mutations (snd (neptuneRebootSteps aws mk instances tr)) =
    mutations tr ++ issuedOf aws tr (map neptuneRebootCall instances).
Proof.
  destruct (neptune_steps_trace aws mk instances tr) as (r & -> & _). simpl snd.
  unfold mutations. rewrite !filter_app. f_equal.
  rewrite filter_issuedOf_all by (apply forallb_map_all; reflexivity).
  rewrite <- app_nil_r. f_equal.
  destruct (ackedFrom aws tr (map neptuneRebootCall instances)); [ | reflexivity].
  rewrite filter_app.
  rewrite filter_issuedOf_none
    by (apply (forallb_map_all (fun c => negb (isMutation c))); reflexivity).
  destruct (ackedFrom aws _ (map neptuneWaitCall instances)); reflexivity.
Qed.

(** ** Not found, and clusters without members *)

Lemma aurora_Create_not_found aws data h0 :
  let id := ValueString (AuroraReboot.ClusterIdentifier data) in
  describedAs aws (AuroraReboot.Region data) id h0 [] ->
  AuroraReboot.Create aws data [] =
    (Failed (auroraNotFound id), h0 ++ [DescribeDBClusters (Some id)]).
Proof.
  intros id [Hsel Hrep]. unfold AuroraReboot.Create.
  erewrite bind_Ok by exact Hsel.
  erewrite bind_Failed; [reflexivity | ].
  rewrite aurora_describeCluster_run. fold id. rewrite Hrep. reflexivity.
Qed.

Lemma neptune_Create_not_found aws data h0 :
  let id := ValueString (NeptuneReboot.ClusterIdentifier data) in
  describedAs aws (NeptuneReboot.Region data) id h0 [] ->
  NeptuneReboot.Create aws data [] =
    (Failed (neptuneNotFound id), h0 ++ [DescribeDBClusters (Some id)]).
Proof.
  intros id [Hsel Hrep]. unfold NeptuneReboot.Create.
  erewrite bind_Ok by exact Hsel.
  erewrite bind_Failed; [reflexivity | ].
  rewrite neptune_describeCluster_run. fold id. rewrite Hrep. reflexivity.
Qed.

Lemma neptune_Update_not_found aws data h0 :
  let id := ValueString (NeptuneReboot.ClusterIdentifier data) in
  describedAs aws (NeptuneReboot.Region data) id h0 [] ->
  NeptuneReboot.Update aws data [] =
    (Failed (neptuneNotFound id), h0 ++ [DescribeDBClusters (Some id)]).
Proof.
  intros id [Hsel Hrep]. unfold NeptuneReboot.Update.
  erewrite bind_Ok by exact Hsel.
  erewrite bind_Failed; [reflexivity | ].
  rewrite neptune_describeCluster_run. fold id. rewrite Hrep. reflexivity.
Qed.

Lemma watched_auroraRebootCalls hint members :
  watched (map (auroraRebootCall hint) members) = [].
Proof. induction members as [ | m members IH]; simpl; [ | rewrite IH]; reflexivity. Qed.

Lemma touched_auroraRebootCalls hint members :
  touched (map (auroraRebootCall hint) members) = map DBInstanceIdentifier members.
Proof. induction members as [ | m members IH]; simpl; [ | rewrite IH]; reflexivity. Qed.

Lemma auroraMutationCalls_unwatched id ff members :
  waits (auroraMutationCalls id ff members) = [] /\
  watched (auroraMutationCalls id ff members) = [].
Proof.
  unfold auroraMutationCalls.
  destruct (failoverChosen members ff).
  - destruct (find isReader members); split; reflexivity.
  - split.
    + apply filter_map_none. reflexivity.
    + apply watched_auroraRebootCalls.
Qed.

Lemma auroraMutationCalls_nil id ff : auroraMutationCalls id ff [] = [].
Proof. unfold auroraMutationCalls, failoverChosen. reflexivity. Qed.

Lemma succeeded_run_Ok {Model} (m : M Model) a :
  fst (m []) = Ok a -> succeeded (fst (run m)) = true.
Proof.
  unfold run, respond. destruct (m []) as [r tr]. simpl. intros ->. reflexivity.
Qed.

Lemma watched_app tr1 tr2 : watched (tr1 ++ tr2) = watched tr1 ++ watched tr2.
Proof. apply flat_map_app. Qed.

Lemma touched_app tr1 tr2 : touched (tr1 ++ tr2) = touched tr1 ++ touched tr2.
Proof. apply flat_map_app. Qed.

Lemma mutations_app tr1 tr2 : mutations (tr1 ++ tr2) = mutations tr1 ++ mutations tr2.
Proof. apply filter_app. Qed.

Lemma waits_app tr1 tr2 : waits (tr1 ++ tr2) = waits tr1 ++ waits tr2.
Proof. apply filter_app. Qed.

(** ** The polling loop of Neptune modify *)

Lemma bind_assoc {A B C} (m : M A) (k : A -> M B) (k' : B -> M C) tr :
  bind (bind m k) k' tr = bind m (fun a => bind (k a) k') tr.
Proof. unfold bind. destruct (m tr) as [[a | d | ] tr']; reflexivity. Qed.

Section Polling.

Variable aws : AWS.
Variable data : NeptuneModify.Model.

Let id := Some (ValueString (NeptuneModify.ClusterIdentifier data)).

(** One iteration, by what it sees. *)
Lemma pollLoop_step remaining i tr :
  NeptuneModify.pollLoop aws data (S remaining) i tr =
    match observe (reply_DescribeDBClusters aws tr id) with
    | SawError e => (Failed (neptuneDescribeError e), tr ++ [DescribeDBClusters id])
    | SawNilStatus => (Panicked, tr ++ [DescribeDBClusters id])
    | SawAvailable => (Ok tt, tr ++ [DescribeDBClusters id])
    | SawNotAvailable =>
        if i =? NeptuneModify.maxAttempts - 1
        then (Failed NeptuneModify.timeoutDiagnostic, tr ++ [DescribeDBClusters id])
        else NeptuneModify.pollLoop aws data remaining (i + 1)
               ((tr ++ [DescribeDBClusters id]) ++ [Sleep (30 * Second)])
    end.
Proof.
  cbn [NeptuneModify.pollLoop].
  unfold bind at 1. unfold call_DescribeDBClusters at 1. unfold aws_String. fold id.
  unfold observe.
  destruct (reply_DescribeDBClusters aws tr id) as [e | result]; [reflexivity | ].
  unfold bind at 1. unfold NeptuneModify.isAvailable.
  destruct (DBClusters result) as [ | cluster rest].
  - unfold ret at 1. destruct (i =? NeptuneModify.maxAttempts - 1); reflexivity.
  - unfold bind at 1. unfold deref.
    destruct (Status cluster) as [status | ]; [ | reflexivity].
    unfold ret at 1.
    destruct (String.eqb status "available"); [reflexivity | ].
    destruct (i =? NeptuneModify.maxAttempts - 1); reflexivity.
Qed.

Lemma observedAt_shift tr k :
  observedAt aws id ((tr ++ [DescribeDBClusters id]) ++ [Sleep (30 * Second)]) k =
  observedAt aws id tr (S k).
Proof.
  unfold observedAt. cbn [pollAttempts]. rewrite <- !app_assoc. reflexivity.
Qed.

Lemma observedAt_0 tr :
  observedAt aws id tr 0 = observe (reply_DescribeDBClusters aws tr id).
Proof. unfold observedAt. simpl. rewrite app_nil_r. reflexivity. Qed.

(** [n] attempts that see the cluster not yet available, none of them the
    last one, take the loop [n] iterations further. *)
Lemma pollLoop_not_yet n : forall remaining i tr,
  (forall k, (k < n)%nat -> observedAt aws id tr k = SawNotAvailable) ->
  i + Z.of_nat n <= NeptuneModify.maxAttempts - 1 ->
  NeptuneModify.pollLoop aws data (n + remaining) i tr =
    NeptuneModify.pollLoop aws data remaining (i + Z.of_nat n) (tr ++ pollAttempts id n).
Proof.
  induction n as [ | n IH]; intros remaining i tr Hobs Hi.
  - simpl. rewrite Z.add_0_r, app_nil_r. reflexivity.
  - change (S n + remaining)%nat with (S (n + remaining)).
    rewrite pollLoop_step, <- observedAt_0, (Hobs 0%nat) by lia.
    destruct (Z.eqb_spec i (NeptuneModify.maxAttempts - 1)) as [Heq | _]; [lia | ].
    rewrite IH.
    + cbn [pollAttempts]. rewrite <- !app_assoc.
      replace (i + 1 + Z.of_nat n) with (i + Z.of_nat (S n)) by lia. reflexivity.
    + intros k Hk. rewrite observedAt_shift. apply Hobs. lia.
    + lia.
Qed.

(** The loop ends with the timeout only when all its attempts, up to the
    last one allowed, saw the cluster not yet available. *)
Lemma pollLoop_timeout_only_at_end remaining : forall i tr tr',
  Z.of_nat remaining + i = NeptuneModify.maxAttempts ->
  NeptuneModify.pollLoop aws data remaining i tr =
    (Failed NeptuneModify.timeoutDiagnostic, tr') ->
  tr' = tr ++ pollAttempts id (remaining - 1) ++ [DescribeDBClusters id] /\
  (forall k, (k < remaining)%nat -> observedAt aws id tr k = SawNotAvailable).
Proof.
  induction remaining as [ | remaining IH]; intros i tr tr' Hinv Hrun.
  - simpl in Hrun. discriminate Hrun.
  - rewrite pollLoop_step in Hrun.
    destruct (observe (reply_DescribeDBClusters aws tr id)) eqn:Hobs;
      try discriminate Hrun.
    destruct (Z.eqb_spec i (NeptuneModify.maxAttempts - 1)) as [Heq | Hneq].
    + assert (remaining = 0%nat) as -> by lia.
      injection Hrun as <-. split; [reflexivity | ].
      intros k Hk. assert (k = 0%nat) as -> by lia.
      rewrite observedAt_0. exact Hobs.
    + apply IH in Hrun as [-> Hrest]; [ | lia].
      assert (remaining <> 0%nat) as Hpos.
      { intros ->. unfold NeptuneModify.maxAttempts in *. lia. }
      split.
      * destruct remaining as [ | r]; [contradiction | ].
        cbn [Nat.sub pollAttempts]. rewrite Nat.sub_0_r, <- !app_assoc. reflexivity.
      * intros [ | k] Hk.
        -- rewrite observedAt_0. exact Hobs.
        -- rewrite <- observedAt_shift. apply Hrest. lia.
Qed.

End Polling.

Lemma neptune_modify_Update_as_Create aws data tr :
  NeptuneModify.Update aws data tr =
    mapResult (neptuneModifyKeepID data) (NeptuneModify.Create aws data tr).
Proof.
  unfold NeptuneModify.Update, NeptuneModify.Create.
  repeat (apply bind_mapResult; intros ? ?). reflexivity.
Qed.

Lemma aurora_modify_Update_as_Create aws data tr :
  AuroraModify.Update aws data tr =
    mapResult (auroraModifyKeepID data) (AuroraModify.Create aws data tr).
Proof.
  unfold AuroraModify.Update, AuroraModify.Create.
  repeat (apply bind_mapResult; intros ? ?). reflexivity.
Qed.

Lemma neptune_modify_run_Update aws data :
  run (NeptuneModify.Update aws data) =
    (mapOutcome (neptuneModifyKeepID data) (fst (run (NeptuneModify.Create aws data))),
     snd (run (NeptuneModify.Create aws data))).
Proof. apply run_mapResult, neptune_modify_Update_as_Create. Qed.

(** Create, once the modify call is acknowledged: the polling loop, then
    the time stamp. *)
Lemma neptune_modify_Create_run aws data tr :
  modified aws data tr ->
  NeptuneModify.Create aws data [] =
    match NeptuneModify.pollLoop aws data (Z.to_nat NeptuneModify.maxAttempts) 0 tr with
    | (Ok _, t) => (Ok (neptuneModified data (reply_Now aws t)), t ++ [Now])
    | (Failed d, t) => (Failed d, t)
    | (Panicked, t) => (Panicked, t)
    end.
Proof.
  unfold modified. intros Hmod. unfold NeptuneModify.Create.
  rewrite <- bind_assoc. erewrite bind_Ok by exact Hmod.
  unfold bind at 1. unfold NeptuneModify.pollUntilAvailable.
  destruct (NeptuneModify.pollLoop aws data _ 0 tr) as [[[] | d | ] t]; reflexivity.
Qed.

Lemma neptune_modifyCluster_trace aws data h r h' :
  NeptuneModify.modifyCluster aws data h = (r, h') ->
  h' = h \/ exists id pg logs now, h' = h ++ [ModifyDBCluster id pg logs now].
Proof.
  unfold NeptuneModify.modifyCluster.
  unfold bind at 1.
  destruct (negb (IsNull (NeptuneModify.CloudWatchLogsExports data))).
  - unfold bind at 1. unfold ElementsAs.
    destruct (NeptuneModify.CloudWatchLogsExports data) as [ | | elems].
    + intros H; injection H as _ <-. left; reflexivity.
    + intros H; injection H as _ <-. left; reflexivity.
    + destruct (knownElements elems) as [ss | ].
      * unfold ret at 1. unfold bind, call_ModifyDBCluster.
        destruct (reply_ModifyDBCluster aws h _ _ _ _);
          intros H; injection H as _ <-; right; eauto.
      * intros H; injection H as _ <-. left; reflexivity.
  - unfold ret at 1. unfold bind, call_ModifyDBCluster.
    destruct (reply_ModifyDBCluster aws h _ _ _ _);
      intros H; injection H as _ <-; right; eauto.
Qed.

Lemma modified_unobserved aws data tr :
  modified aws data tr -> describes tr = [] /\ sleeps tr = [].
Proof.
  unfold modified, bind.
  destruct (selectClient aws (NeptuneModify.Region data) []) as [[[] | d | ] h0] eqn:Hsel;
    try discriminate.
  intros Hmod.
  destruct (selectClient_not_observed _ _ _ _ Hsel) as (_ & _ & Hd & Hs & _).
  apply neptune_modifyCluster_trace in Hmod
    as [-> | (id & pg & logs & now & ->)].
  - split; assumption.
  - unfold describes, sleeps in *. rewrite !filter_app, Hd, Hs. split; reflexivity.
Qed.

Lemma describes_pollAttempts id n :
  length (describes (pollAttempts id n)) = n /\ length (sleeps (pollAttempts id n)) = n.
Proof.
  induction n as [ | n [IHd IHs]]; simpl; [split; reflexivity | ].
  rewrite IHd, IHs. split; reflexivity.
Qed.

Lemma poll_counts tr id n :
  describes tr = [] ->
  sleeps tr = [] ->
  length (describes (tr ++ pollAttempts id n ++ [DescribeDBClusters id])) = S n /\
  length (sleeps (tr ++ pollAttempts id n ++ [DescribeDBClusters id])) = n.
Proof.
  intros Hd Hs. destruct (describes_pollAttempts id n) as [Hpd Hps].
  unfold describes, sleeps in *.
  rewrite !filter_app, !length_app, Hd, Hs, Hpd, Hps. simpl.
  split; [apply Nat.add_1_r | apply Nat.add_0_r].
Qed.

(** ** Normal ends: every call acknowledged *)

Lemma Format_RFC3339_nonempty t : Format_RFC3339 t <> "".
Proof. unfold Format_RFC3339, pad4. simpl. discriminate. Qed.

Lemma acks_ret {A} aws (a : A) : acks aws (ret a).
Proof.
  intros tr r tr' H. injection H as <- <-. exists []. rewrite app_nil_r.
  split; reflexivity.
Qed.

Lemma acks_AddError {A} aws s d : acks aws (@AddError A s d).
Proof.
  intros tr r tr' H. injection H as <- <-. exists []. rewrite app_nil_r.
  split; [reflexivity | discriminate].
Qed.

Lemma acks_deref {A} aws (p : option A) : acks aws (deref p).
Proof.
  intros tr r tr' H. unfold deref in H. exists []. rewrite app_nil_r.
  destruct p; injection H as <- <-; split; try reflexivity; discriminate.
Qed.

Lemma acks_ElementsAs aws l : acks aws (ElementsAs l).
Proof.
  intros tr r tr' H. unfold ElementsAs in H. exists []. rewrite app_nil_r.
  destruct l as [ | | elems]; [ | | destruct (knownElements elems)];
    injection H as <- <-; split; try reflexivity; discriminate.
Qed.

Lemma acks_bind {A B} aws (m : M A) (k : A -> M B) :
  acks aws m -> (forall a, acks aws (k a)) -> acks aws (bind m k).
Proof.
  intros Hm Hk tr r tr' H. unfold bind in H.
  destruct (m tr) as [[a | d | ] t] eqn:Hrun.
  - destruct (Hm _ _ _ Hrun) as (cs1 & -> & Hack1).
    destruct (Hk a _ _ _ H) as (cs2 & -> & Hack2).
    exists (cs1 ++ cs2). rewrite app_assoc. split; [reflexivity | ].
    intros b ->. rewrite ackedFrom_app, (Hack1 a eq_refl), (Hack2 b eq_refl).
    reflexivity.
  - injection H as <- <-. destruct (Hm _ _ _ Hrun) as (cs1 & -> & _).
    exists cs1. split; [reflexivity | discriminate].
  - injection H as <- <-. destruct (Hm _ _ _ Hrun) as (cs1 & -> & _).
    exists cs1. split; [reflexivity | discriminate].
Qed.

Lemma acks_forRange {A} aws (body : A -> M unit) l :
  (forall x, acks aws (body x)) -> acks aws (forRange l body).
Proof.
  intros Hbody. induction l as [ | x l IH]; simpl.
  - apply acks_ret.
  - apply acks_bind; [apply Hbody | intros _; exact IH].
Qed.

(** A call whose error is checked right away. *)
Lemma acks_checked {A} aws (m : M A) (c : Call) (good : A) :
  (forall tr, exists r,
      m tr = (r, tr ++ [c]) /\
      (forall a, r = Ok a -> errorOf aws tr c = None)) ->
  acks aws m.
Proof.
  intros Hm tr r tr' H. destruct (Hm tr) as (r0 & Hrun & Hok).
  rewrite Hrun in H. injection H as <- <-.
  exists [c]. split; [reflexivity | ].
  intros a Ha. simpl. rewrite (Hok a Ha). reflexivity.
Qed.

Lemma acks_selectClient aws region : acks aws (selectClient aws region).
Proof.
  unfold selectClient. destruct (negb (IsNull region)); [ | apply acks_ret].
  apply (acks_checked aws _ (LoadDefaultConfig (ValueString region)) tt).
  intros tr. unfold bind, call_LoadDefaultConfig, AddError, ret. simpl.
  destruct (reply_LoadDefaultConfig aws tr (ValueString region)) eqn:E;
    eexists; (split; [reflexivity | ]); intros a Ha; first [discriminate Ha | reflexivity | exact E].
Qed.

Lemma acks_call_Now aws : acks aws (call_Now aws).
Proof.
  intros tr r tr' H. injection H as <- <-. exists [Now]. split; reflexivity.
Qed.

Lemma acks_aurora_describeCluster aws data :
  acks aws (AuroraReboot.describeCluster aws data).
Proof.
  apply (acks_checked aws _
           (DescribeDBClusters (Some (ValueString (AuroraReboot.ClusterIdentifier data))))
           {| DBClusterMembers := []; Status := None |}).
  intros tr. rewrite aurora_describeCluster_run. simpl.
  destruct (reply_DescribeDBClusters aws tr _) as [e | out];
    eexists; (split; [reflexivity | ]); intros a Ha; first [discriminate Ha | reflexivity].
Qed.

Lemma acks_neptune_describeCluster aws data :
  acks aws (NeptuneReboot.describeCluster aws data).
Proof.
  apply (acks_checked aws _
           (DescribeDBClusters (Some (ValueString (NeptuneReboot.ClusterIdentifier data))))
           {| DBClusterMembers := []; Status := None |}).
  intros tr. rewrite neptune_describeCluster_run. simpl.
  destruct (reply_DescribeDBClusters aws tr _) as [e | out];
    eexists; (split; [reflexivity | ]); intros a Ha; first [discriminate Ha | reflexivity].
Qed.

Lemma acks_aurora_findReader aws members : acks aws (AuroraReboot.findReader members).
Proof.
  induction members as [ | m members IH]; simpl.
  - apply acks_ret.
  - apply acks_bind; [apply acks_deref | ].
    intros w. destruct (negb w); [apply acks_ret | exact IH].
Qed.

Lemma acks_aurora_rebootMember aws data n m :
  acks aws (AuroraReboot.rebootMember aws data n m).
Proof.
  unfold AuroraReboot.rebootMember.
  apply acks_bind; [apply acks_deref | ]. intros name.
  eapply (acks_checked aws _ (RebootDBInstance (DBInstanceIdentifier m) _) tt).
  intros tr. unfold bind, call_RebootDBInstance, AddError, ret. simpl.
  destruct (reply_RebootDBInstance aws tr (DBInstanceIdentifier m) _) eqn:E;
    eexists; (split; [reflexivity | ]); intros a Ha; first [discriminate Ha | reflexivity | exact E].
Qed.

Lemma acks_aurora_rebootCluster aws data cluster :
  acks aws (AuroraReboot.rebootCluster aws data cluster).
Proof.
  unfold AuroraReboot.rebootCluster.
  apply acks_bind; [apply acks_aurora_findReader | ].
  intros [hasReader reader].
  destruct (_ && _ && _ && _).
  - apply acks_bind; [apply acks_deref | ]. intros name.
    eapply (acks_checked aws _ (FailoverDBCluster _ reader) tt).
    intros tr. unfold bind, call_FailoverDBCluster, AddError, ret. simpl.
    destruct (reply_FailoverDBCluster aws tr _ reader) eqn:E;
      eexists; (split; [reflexivity | ]); intros a Ha; first [discriminate Ha | reflexivity | exact E].
  - apply acks_forRange. intros m. apply acks_aurora_rebootMember.
Qed.

Lemma acks_aurora_waitCluster aws data : acks aws (AuroraReboot.waitCluster aws data).
Proof.
  eapply (acks_checked aws _ (WaitDBClusterAvailable _ _) tt).
  intros tr. unfold AuroraReboot.waitCluster, bind, call_WaitDBClusterAvailable,
               AddError, ret. simpl.
  destruct (reply_WaitDBClusterAvailable aws tr _ _) eqn:E;
    eexists; (split; [reflexivity | ]); intros a Ha; first [discriminate Ha | reflexivity | exact E].
Qed.

Lemma acks_neptune_rebootMember aws m : acks aws (NeptuneReboot.rebootMember aws m).
Proof.
  apply (acks_checked aws _ (neptuneRebootCall m) tt).
  intros tr. rewrite neptune_rebootMember_spec.
  destruct (errorOf aws tr (neptuneRebootCall m)) eqn:E;
    eexists; (split; [reflexivity | ]); intros a Ha; first [discriminate Ha | reflexivity].
Qed.

Lemma acks_neptune_waitMember aws m : acks aws (NeptuneReboot.waitMember aws m).
Proof.
  apply (acks_checked aws _ (neptuneWaitCall m) tt).
  intros tr. rewrite neptune_waitMember_spec.
  destruct (errorOf aws tr (neptuneWaitCall m)) eqn:E;
    eexists; (split; [reflexivity | ]); intros a Ha; first [discriminate Ha | reflexivity].
Qed.

Lemma acks_aurora_modifyCluster aws data : acks aws (AuroraModify.modifyCluster aws data).
Proof.
  unfold AuroraModify.modifyCluster. apply acks_bind.
  - destruct (negb (IsNull (AuroraModify.CloudWatchLogsExports data)));
      [ | apply acks_ret].
    apply acks_bind; [apply acks_ElementsAs | intros ss; apply acks_ret].
  - intros logs.
    eapply (acks_checked aws _ (ModifyDBCluster _ _ logs _) tt).
    intros tr. unfold bind, call_ModifyDBCluster, AddError, ret. simpl.
    destruct (reply_ModifyDBCluster aws tr _ _ logs _) eqn:E;
      eexists; (split; [reflexivity | ]); intros a Ha; first [discriminate Ha | reflexivity | exact E].
Qed.

Lemma acks_aurora_modify_waitCluster aws data :
  acks aws (AuroraModify.waitCluster aws data).
Proof.
  eapply (acks_checked aws _ (WaitDBClusterAvailable _ _) tt).
  intros tr. unfold AuroraModify.waitCluster, bind, call_WaitDBClusterAvailable,
               AddError, ret. simpl.
  destruct (reply_WaitDBClusterAvailable aws tr _ _) eqn:E;
    eexists; (split; [reflexivity | ]); intros a Ha; first [discriminate Ha | reflexivity | exact E].
Qed.

Lemma acks_neptune_modifyCluster aws data :
  acks aws (NeptuneModify.modifyCluster aws data).
Proof.
  unfold NeptuneModify.modifyCluster. apply acks_bind.
  - destruct (negb (IsNull (NeptuneModify.CloudWatchLogsExports data)));
      [ | apply acks_ret].
    apply acks_bind; [apply acks_ElementsAs | intros ss; apply acks_ret].
  - intros logs.
    eapply (acks_checked aws _ (ModifyDBCluster _ _ logs _) tt).
    intros tr. unfold bind, call_ModifyDBCluster, AddError, ret. simpl.
    destruct (reply_ModifyDBCluster aws tr _ _ logs _) eqn:E;
      eexists; (split; [reflexivity | ]); intros a Ha; first [discriminate Ha | reflexivity | exact E].
Qed.

Lemma observe_acked aws tr id :
  (forall e, observe (reply_DescribeDBClusters aws tr id) <> SawError e) ->
  errorOf aws tr (DescribeDBClusters id) = None.
Proof.
  intros H. simpl. destruct (reply_DescribeDBClusters aws tr id) as [e | out];
    [ | reflexivity].
  contradiction (H e). reflexivity.
Qed.

Lemma acks_neptune_pollLoop aws data remaining : forall i,
  acks aws (NeptuneModify.pollLoop aws data remaining i).
Proof.
  induction remaining as [ | remaining IH]; intros i.
  - apply acks_ret.
  - intros tr r tr' H. rewrite pollLoop_step in H.
    set (id := Some (ValueString (NeptuneModify.ClusterIdentifier data))) in *.
    destruct (observe (reply_DescribeDBClusters aws tr id)) eqn:Hobs.
    + injection H as <- <-. exists [DescribeDBClusters id].
      split; [reflexivity | discriminate].
    + injection H as <- <-. exists [DescribeDBClusters id].
      split; [reflexivity | discriminate].
    + injection H as <- <-. exists [DescribeDBClusters id].
      split; [reflexivity | ]. intros _ _.
      apply ackedFrom_one, observe_acked. intros e. rewrite Hobs. discriminate.
    + destruct (i =? NeptuneModify.maxAttempts - 1).
      * injection H as <- <-. exists [DescribeDBClusters id].
        split; [reflexivity | discriminate].
      * destruct (IH _ _ _ _ H) as (cs & -> & Hack).
        exists (DescribeDBClusters id :: Sleep (30 * Second) :: cs).
        split; [rewrite <- !app_assoc; reflexivity | ].
        intros a Ha. cbn [ackedFrom].
        rewrite (observe_acked aws tr id)
          by (intros e; rewrite Hobs; discriminate).
        cbn [errorOf]. apply (Hack a Ha).
Qed.

(** ** Normal ends: the stored time stamp *)

Lemma stamps_bind {A Model} aws stamp (m : M A) (k : A -> M Model) :
  acks aws m -> (forall a, stamps aws stamp (k a)) -> stamps aws stamp (bind m k).
Proof.
  intros Hm Hk tr data tr' H. unfold bind in H.
  destruct (m tr) as [[a | d | ] t] eqn:Hrun; try discriminate H.
  destruct (Hm _ _ _ Hrun) as (cs1 & -> & Hack1).
  destruct (Hk a _ _ _ H) as (cs2 & -> & Hack2 & Hstamp).
  exists (cs1 ++ cs2). rewrite app_assoc.
  split; [reflexivity | split].
  - rewrite ackedFrom_app, (Hack1 a eq_refl), Hack2. reflexivity.
  - exact Hstamp.
Qed.

Lemma stamps_finish {Model} aws (stamp : Model -> tfvalue string) (mk : Time -> Model) :
  (forall now, stamp (mk now) = Known (Format_RFC3339 now)) ->
  stamps aws stamp (bind (call_Now aws) (fun now => ret (mk now))).
Proof.
  intros Hmk tr data tr' H. injection H as <- <-.
  exists []. rewrite app_nil_r. split; [reflexivity | split; [reflexivity | apply Hmk]].
Qed.

(** The loop ends normally only at an attempt that sees the cluster
    available. *)
Lemma pollLoop_ok_only_when_available aws data remaining : forall i tr tr',
  let id := Some (ValueString (NeptuneModify.ClusterIdentifier data)) in
  (1 <= remaining)%nat ->
  Z.of_nat remaining + i = NeptuneModify.maxAttempts ->
  NeptuneModify.pollLoop aws data remaining i tr = (Ok tt, tr') ->
  exists n,
    (n < remaining)%nat /\
    (forall k, (k < n)%nat -> observedAt aws id tr k = SawNotAvailable) /\
    observedAt aws id tr n = SawAvailable /\
    tr' = tr ++ pollAttempts id n ++ [DescribeDBClusters id].
Proof.
  induction remaining as [ | remaining IH]; intros i tr tr'; cbv zeta;
    intros Hpos Hinv Hrun; [lia | ].
  rewrite pollLoop_step in Hrun.
  destruct (observe (reply_DescribeDBClusters aws tr _)) eqn:Hobs;
    try discriminate Hrun.
  - injection Hrun as <-. exists 0%nat. repeat split.
    + lia.
    + intros k Hk. lia.
    + rewrite observedAt_0. exact Hobs.
  - destruct (Z.eqb_spec i (NeptuneModify.maxAttempts - 1)) as [Heq | Hneq];
      [discriminate Hrun | ].
    apply IH in Hrun as (n & Hn & Hbefore & Hat & ->); [ | lia | lia].
    exists (S n). repeat split.
    + lia.
    + intros [ | k] Hk.
      * rewrite observedAt_0. exact Hobs.
      * rewrite <- (observedAt_shift aws data). apply Hbefore. lia.
    + rewrite <- (observedAt_shift aws data). exact Hat.
    + cbn [pollAttempts]. rewrite <- !app_assoc. reflexivity.
Qed.

Lemma neptune_modify_Create_Ok aws data stored t :
  NeptuneModify.Create aws data [] = (Ok stored, t) ->
  exists tr t',
    modified aws data tr /\
    NeptuneModify.pollLoop aws data (Z.to_nat NeptuneModify.maxAttempts) 0 tr
      = (Ok tt, t') /\
    t = t' ++ [Now].
Proof.
  unfold NeptuneModify.Create. rewrite <- bind_assoc.
  unfold bind at 1.
  destruct (bind (selectClient aws (NeptuneModify.Region data))
              (fun _ => NeptuneModify.modifyCluster aws data) [])
    as [[[] | d | ] tr] eqn:Hmod; try discriminate.
  unfold bind at 1. unfold NeptuneModify.pollUntilAvailable.
  destruct (NeptuneModify.pollLoop aws data _ 0 tr) as [[[] | d | ] t'] eqn:Hloop;
    try discriminate.
  intros H. injection H as _ <-.
  exists tr, t'. split; [exact Hmod | split; [exact Hloop | reflexivity]].
Qed.

(** ** What a computation may call *)

Lemma emits_ret {A} P (a : A) : emits P (ret a).
Proof.
  intros tr r tr' H. injection H as <- <-. exists []. rewrite app_nil_r.
  split; reflexivity.
Qed.

Lemma emits_AddError {A} P s d : emits P (@AddError A s d).
Proof.
  intros tr r tr' H. injection H as <- <-. exists []. rewrite app_nil_r.
  split; reflexivity.
Qed.

Lemma emits_deref {A} P (p : option A) : emits P (deref p).
Proof.
  intros tr r tr' H. unfold deref in H. exists []. rewrite app_nil_r.
  destruct p; injection H as <- <-; split; reflexivity.
Qed.

Lemma emits_ElementsAs P l : emits P (ElementsAs l).
Proof.
  intros tr r tr' H. unfold ElementsAs in H. exists []. rewrite app_nil_r.
  destruct l as [ | | elems]; [ | | destruct (knownElements elems)];
    injection H as <- <-; split; reflexivity.
Qed.

Lemma emits_bind {A B} P (m : M A) (k : A -> M B) :
  emits P m -> (forall a, emits P (k a)) -> emits P (bind m k).
Proof.
  intros Hm Hk tr r tr' H. unfold bind in H.
  destruct (m tr) as [[a | d | ] t] eqn:Hrun.
  - destruct (Hm _ _ _ Hrun) as (cs1 & -> & H1).
    destruct (Hk a _ _ _ H) as (cs2 & -> & H2).
    exists (cs1 ++ cs2). rewrite app_assoc, forallb_app, H1, H2. split; reflexivity.
  - injection H as <- <-. exact (Hm _ _ _ Hrun).
  - injection H as <- <-. exact (Hm _ _ _ Hrun).
Qed.

Lemma emits_forRange {A} P (body : A -> M unit) l :
  (forall x, emits P (body x)) -> emits P (forRange l body).
Proof.
  intros Hbody. induction l as [ | x l IH]; simpl.
  - apply emits_ret.
  - apply emits_bind; [apply Hbody | intros _; exact IH].
Qed.

(** A computation that makes the one call [c] whatever the trace. *)
Lemma emits_one {A} (P : Call -> bool) (m : M A) (c : Call) :
  (forall tr, snd (m tr) = tr ++ [c]) -> P c = true -> emits P m.
Proof.
  intros Hm Hc tr r tr' H. exists [c]. split.
  - rewrite <- (Hm tr), H. reflexivity.
  - simpl. rewrite Hc. reflexivity.
Qed.

Lemma emits_findReader P members : emits P (AuroraReboot.findReader members).
Proof.
  induction members as [ | m members IH]; simpl.
  - apply emits_ret.
  - apply emits_bind; [apply emits_deref | ].
    intros w. destruct (negb w); [apply emits_ret | exact IH].
Qed.

(** After [*p] the pointer is known not to be nil. *)
Lemma emits_bind_deref {A B} P (p : option A) (k : A -> M B) :
  (forall a, p = Some a -> emits P (k a)) -> emits P (bind (deref p) k).
Proof.
  intros Hk. destruct p as [a | ].
  - intros tr r tr' H. apply (Hk a eq_refl tr r tr'). exact H.
  - intros tr r tr' H. injection H as <- <-. exists []. rewrite app_nil_r.
    split; reflexivity.
Qed.

(** Splits a method body along its binds and case distinctions; what is
    left are its calls, to be checked against the predicate. *)
Ltac emits_loop := fail.

Ltac emits_steps :=
  repeat first
    [ emits_loop
    | apply emits_ret
    | apply emits_AddError
    | apply emits_bind_deref; intros ? ->
    | apply emits_deref
    | apply emits_ElementsAs
    | apply emits_findReader
    | apply emits_bind; [ | intros ? ]
    | apply emits_forRange; intros ?
    | match goal with
      | |- emits _ (match ?x with _ => _ end) => destruct x
      end
    | (eapply emits_one; [intros ?; reflexivity | ]) ].


Lemma emits_pollLoop P aws data remaining : forall i,
  P (DescribeDBClusters (Some (ValueString (NeptuneModify.ClusterIdentifier data)))) = true ->
  P (Sleep (30 * Second)) = true ->
  emits P (NeptuneModify.pollLoop aws data remaining i).
Proof.
  induction remaining as [ | remaining IH]; intros i Hd Hs; cbn [NeptuneModify.pollLoop].
  - apply emits_ret.
  - unfold NeptuneModify.isAvailable, call_Sleep.
    emits_steps; try assumption.
    apply IH; assumption.
Qed.

Ltac emits_loop ::=
  match goal with
  | |- emits _ (NeptuneModify.pollUntilAvailable _ _) =>
      unfold NeptuneModify.pollUntilAvailable; apply emits_pollLoop
  end.

Lemma emits_run {Model} P (m : M Model) :
  emits P m -> forallb P (snd (run m)) = true.
Proof.
  intros Hm. rewrite snd_run.
  destruct (m []) as [r tr] eqn:Hrun.
  destruct (Hm _ _ _ Hrun) as (cs & -> & Hcs). exact Hcs.
Qed.

Lemma bind_Ok_inv {A B} (m : M A) (k : A -> M B) tr b t :
  bind m k tr = (Ok b, t) -> exists a t1, m tr = (Ok a, t1) /\ k a t1 = (Ok b, t).
Proof.
  unfold bind. destruct (m tr) as [[a | d | ] t1]; try discriminate.
  intros H. exists a, t1. split; [reflexivity | exact H].
Qed.

Lemma selectClient_run aws region :
  selectClient aws region [] =
    if IsNull region then (Ok tt, [])
    else match reply_LoadDefaultConfig aws [] (ValueString region) with
         | Some e =>
             (Failed (configError (ValueString region) e),
              [LoadDefaultConfig (ValueString region)])
         | None => (Ok tt, [LoadDefaultConfig (ValueString region)])
         end.
Proof.
  unfold selectClient, bind, call_LoadDefaultConfig, AddError, ret, configError.
  destruct (IsNull region); [reflexivity | ]. cbn [negb app].
  destruct (reply_LoadDefaultConfig aws [] (ValueString region)); reflexivity.
Qed.

Lemma filter_none_negb {A} (P : A -> bool) l :
  forallb (fun x => negb (P x)) l = true -> filter P l = [].
Proof.
  induction l as [ | x l IH]; simpl; [reflexivity | ].
  destruct (P x); simpl; [discriminate | exact IH].
Qed.

Lemma aurora_modifyCluster_run aws data h :
  AuroraModify.modifyCluster aws data h =
    match modifyRequest (AuroraModify.ClusterIdentifier data)
            (AuroraModify.ParameterGroupName data)
            (AuroraModify.CloudWatchLogsExports data)
            (AuroraModify.ApplyImmediately data) with
    | None => (Failed conversionDiagnostic, h)
    | Some c =>
        (match errorOf aws h c with
         | Some e => Failed (auroraModifyError e)
         | None => Ok tt
         end, h ++ [c])
    end.
Proof.
  unfold AuroraModify.modifyCluster, modifyRequest, sentLogs, sentString, sentBool,
    bind, ElementsAs, call_ModifyDBCluster, aws_String, aws_Bool, AddError, ret,
    auroraModifyError.
  destruct (AuroraModify.CloudWatchLogsExports data) as [ | | elems];
    cbn [IsNull negb]; try reflexivity.
  - destruct (AuroraModify.ParameterGroupName data), (AuroraModify.ApplyImmediately data);
      cbn [IsNull negb errorOf];
      match goal with |- context [reply_ModifyDBCluster ?a ?b ?c ?d ?e ?f] =>
        destruct (reply_ModifyDBCluster a b c d e f) end; reflexivity.
  - destruct (knownElements elems) as [ss | ]; [ | reflexivity].
    destruct (AuroraModify.ParameterGroupName data), (AuroraModify.ApplyImmediately data);
      cbn [IsNull negb errorOf];
      match goal with |- context [reply_ModifyDBCluster ?a ?b ?c ?d ?e ?f] =>
        destruct (reply_ModifyDBCluster a b c d e f) end; reflexivity.
Qed.

(** Aurora modify Create, step by step, once it has its client. *)
Lemma aurora_modify_Create_run aws data h0 :
  selectClient aws (AuroraModify.Region data) [] = (Ok tt, h0) ->
  AuroraModify.Create aws data [] =
    match modifyRequest (AuroraModify.ClusterIdentifier data)
            (AuroraModify.ParameterGroupName data)
            (AuroraModify.CloudWatchLogsExports data)
            (AuroraModify.ApplyImmediately data) with
    | None => (Failed conversionDiagnostic, h0)
    | Some c =>
        let w := WaitDBClusterAvailable
                   (Some (ValueString (AuroraModify.ClusterIdentifier data)))
                   (30 * Minute) in
        match errorOf aws h0 c with
        | Some e => (Failed (auroraModifyError e), h0 ++ [c])
        | None =>
            match errorOf aws (h0 ++ [c]) w with
            | Some e => (Failed (auroraWaitError e), h0 ++ [c; w])
            | None =>
                (Ok (auroraModified data (reply_Now aws (h0 ++ [c; w]))),
                 h0 ++ [c; w; Now])
            end
        end
    end.
Proof.
  intros Hsel. unfold AuroraModify.Create.
  erewrite bind_Ok by exact Hsel.
  unfold bind at 1. rewrite aurora_modifyCluster_run.
  destruct (modifyRequest _ _ _ _) as [c | ]; [ | reflexivity].
  cbv zeta. destruct (errorOf aws h0 c); [reflexivity | ].
  unfold bind at 1. unfold AuroraModify.waitCluster, bind at 1.
  unfold call_WaitDBClusterAvailable, aws_String. cbn [errorOf].
  rewrite <- !app_assoc. cbn [app].
  destruct (reply_WaitDBClusterAvailable aws (h0 ++ [c]) _ _); [reflexivity | ].
  unfold ret at 1. unfold bind, call_Now, ret, auroraModified, StringValue.
  rewrite <- !app_assoc. reflexivity.
Qed.


(** ** When the clock is read *)

Lemma clockReads_app tr1 tr2 : clockReads (tr1 ++ tr2) = clockReads tr1 ++ clockReads tr2.
Proof. apply filter_app. Qed.

Lemma timed_bind {A B} (m : M A) (k : A -> M B) :
  emits (fun c => negb (isNow c)) m -> (forall a, timed (k a)) -> timed (bind m k).
Proof.
  intros Hm Hk tr r tr' H. unfold bind in H.
  destruct (m tr) as [[a | d | ] t] eqn:Hrun.
  - destruct (Hm _ _ _ Hrun) as (cs1 & -> & H1).
    destruct (Hk a _ _ _ H) as (cs2 & -> & H2).
    exists (cs1 ++ cs2). rewrite app_assoc. split; [reflexivity | ].
    rewrite clockReads_app. unfold clockReads at 1.
    rewrite (filter_none_negb _ _ H1). exact H2.
  - injection H as <- <-. destruct (Hm _ _ _ Hrun) as (cs1 & -> & H1).
    exists cs1. split; [reflexivity | apply filter_none_negb; exact H1].
  - injection H as <- <-. destruct (Hm _ _ _ Hrun) as (cs1 & -> & H1).
    exists cs1. split; [reflexivity | apply filter_none_negb; exact H1].
Qed.

Lemma timed_finish {Model} aws (mk : Time -> Model) :
  timed (bind (call_Now aws) (fun now => ret (mk now))).
Proof.
  intros tr r tr' H. injection H as <- <-. exists [Now]. split; reflexivity.
Qed.

Ltac timed_steps :=
  repeat first [ apply timed_finish | apply timed_bind; [ | intros ? ] ].

(** From the three facts about a method body to the invariant of its
    outcome. *)
Lemma outcome_intro {Model} aws (stamp : Model -> tfvalue string) waited (m : M Model) :
  stamps aws stamp m ->
  timed m ->
  (forall data t, m [] = (Ok data, t ++ [Now]) -> waited t) ->
  outcomeInvariant aws stamp waited (run m).
Proof.
  intros Hs Ht Hw. unfold outcomeInvariant, run, respond.
  destruct (m []) as [[data | d | ] tr] eqn:Hrun; cbn [fst snd HasError Diagnostics StateSet].
  - destruct (Hs _ _ _ Hrun) as (cs & -> & Hack & Hstamp). cbn [app] in *.
    destruct (Ht _ _ _ Hrun) as (cs' & Heq & Hclock). cbn [app] in Heq. subst cs'.
    exists data, cs. split; [reflexivity | split; [reflexivity | ]].
    split.
    { rewrite clockReads_app in Hclock. cbn in Hclock.
      destruct (clockReads cs) as [ | c l]; [reflexivity | ].
      injection Hclock as _ Hl. destruct l; discriminate Hl. }
    split; [exact Hack | ].
    split; [apply (Hw data); reflexivity | ].
    split; [exact Hstamp | apply Format_RFC3339_nonempty].
  - destruct (Ht _ _ _ Hrun) as (cs & Heq & Hclock). cbn [app] in Heq. subst cs.
    split; [reflexivity | exact Hclock].
  - destruct (Ht _ _ _ Hrun) as (cs & Heq & Hclock). cbn [app] in Heq. subst cs.
    exact Hclock.
Qed.

(** ** What a method that ended normally has done *)

Lemma mapResult_Ok_inv {A B} (f : A -> B) (r : Result A * Trace) b t :
  mapResult f r = (Ok b, t) -> exists a, r = (Ok a, t).
Proof.
  destruct r as [[a | d | ] t0]; simpl; intros H; try discriminate H.
  injection H as _ <-. exists a. reflexivity.
Qed.

Lemma emits_aurora_rebootCluster aws data cluster :
  emits isMutation (AuroraReboot.rebootCluster aws data cluster).
Proof.
  unfold AuroraReboot.rebootCluster, AuroraReboot.rebootMember.
  emits_steps; reflexivity.
Qed.

Lemma aurora_Create_Ok aws data stored t :
  AuroraReboot.Create aws data [] = (Ok stored, t ++ [Now]) ->
  auroraRebootWaited aws data t.
Proof.
  intros H. unfold auroraRebootWaited.
  destruct (selectClient aws (AuroraReboot.Region data) []) as [[[] | d | ] h0] eqn:Hsel.
  2: { unfold AuroraReboot.Create in H. erewrite bind_Failed in H by exact Hsel.
       discriminate H. }
  2: { unfold AuroraReboot.Create in H. erewrite bind_Panicked in H by exact Hsel.
       discriminate H. }
  destruct (reply_DescribeDBClusters aws h0
              (Some (ValueString (AuroraReboot.ClusterIdentifier data))))
    as [e | [clusters]] eqn:Hrep.
  { unfold AuroraReboot.Create in H. erewrite bind_Ok in H by exact Hsel.
    erewrite bind_Failed in H
      by (rewrite aurora_describeCluster_run, Hrep; reflexivity).
    discriminate H. }
  destruct clusters as [ | cluster others].
  { rewrite (aurora_Create_not_found aws data h0 (conj Hsel Hrep)) in H. discriminate H. }
  rewrite (aurora_Create_run aws data h0 cluster others (conj Hsel Hrep)) in H.
  destruct (AuroraReboot.rebootCluster aws data cluster _) as [[[] | d | ] tr] eqn:Hreboot;
    try discriminate H.
  destruct (emits_aurora_rebootCluster aws data cluster _ _ _ Hreboot) as (calls & -> & Hcalls).
  destruct (errorOf aws _ (auroraWaitCall _)); [discriminate H | ].
  injection H as _ H.
  exists h0, cluster, others, calls. split; [split; assumption | split; [exact Hcalls | ]].
  change [auroraWaitCall (ValueString (AuroraReboot.ClusterIdentifier data)); Now]
    with ([auroraWaitCall (ValueString (AuroraReboot.ClusterIdentifier data))] ++ [Now]) in H.
  rewrite app_assoc in H. apply app_inj_tail in H as [<- _].
  rewrite <- app_assoc. reflexivity.
Qed.

Lemma aurora_Update_Ok aws data stored t :
  AuroraReboot.Update aws data [] = (Ok stored, t ++ [Now]) ->
  auroraRebootWaited aws data t.
Proof.
  rewrite aurora_Update_as_Create. intros H.
  apply mapResult_Ok_inv in H as [s H]. exact (aurora_Create_Ok aws data s t H).
Qed.

Lemma neptune_steps_Ok aws mk instances tr stored t :
  neptuneRebootSteps aws mk instances tr = (Ok stored, t ++ [Now]) ->
  t = tr ++ map neptuneRebootCall instances ++ map neptuneWaitCall instances.
Proof.
  unfold neptuneRebootSteps. intros H.
  apply bind_Ok_inv in H as ([] & t1 & H1 & H).
  apply bind_Ok_inv in H as ([] & t2 & H2 & H).
  injection H as _ H. apply app_inj_tail in H as [<- _].
  destruct (forRange_issued aws _ (fun _ => True) neptuneRebootCall neptuneRebootError
              (fun m tr0 _ => neptune_rebootMember_spec aws m tr0)
              instances tr (Forall_True _)) as (r1 & Hrun1 & _ & Hfail1).
  rewrite H1 in Hrun1. injection Hrun1 as <- ->.
  destruct (ackedFrom aws tr (map neptuneRebootCall instances)) eqn:Hack1;
    [ | destruct (Hfail1 eq_refl) as [d Hd]; discriminate Hd].
  rewrite issuedOf_acked in H2 by exact Hack1.
  destruct (forRange_issued aws _ (fun _ => True) neptuneWaitCall neptuneWaitError
              (fun m tr0 _ => neptune_waitMember_spec aws m tr0)
              instances (tr ++ map neptuneRebootCall instances) (Forall_True _))
    as (r2 & Hrun2 & _ & Hfail2).
  rewrite H2 in Hrun2. injection Hrun2 as <- ->.
  destruct (ackedFrom aws _ (map neptuneWaitCall instances)) eqn:Hack2;
    [ | destruct (Hfail2 eq_refl) as [d Hd]; discriminate Hd].
  rewrite issuedOf_acked by exact Hack2. rewrite <- app_assoc. reflexivity.
Qed.

Lemma neptune_reboot_Ok aws data stored t :
  NeptuneReboot.Create aws data [] = (Ok stored, t ++ [Now]) \/
  NeptuneReboot.Update aws data [] = (Ok stored, t ++ [Now]) ->
  neptuneRebootWaited aws data t.
Proof.
  intros H. unfold neptuneRebootWaited.
  destruct (selectClient aws (NeptuneReboot.Region data) []) as [[[] | d | ] h0] eqn:Hsel.
  2: { destruct H as [H | H];
         [unfold NeptuneReboot.Create in H | unfold NeptuneReboot.Update in H];
         erewrite bind_Failed in H by exact Hsel; discriminate H. }
  2: { destruct H as [H | H];
         [unfold NeptuneReboot.Create in H | unfold NeptuneReboot.Update in H];
         erewrite bind_Panicked in H by exact Hsel; discriminate H. }
  destruct (reply_DescribeDBClusters aws h0
              (Some (ValueString (NeptuneReboot.ClusterIdentifier data))))
    as [e | [clusters]] eqn:Hrep.
  { destruct H as [H | H];
      [unfold NeptuneReboot.Create in H | unfold NeptuneReboot.Update in H];
      erewrite bind_Ok in H by exact Hsel;
      erewrite bind_Failed in H
        by (rewrite neptune_describeCluster_run, Hrep; reflexivity);
      discriminate H. }
  destruct clusters as [ | cluster others].
  { destruct H as [H | H].
    - rewrite (neptune_Create_not_found aws data h0 (conj Hsel Hrep)) in H. discriminate H.
    - rewrite (neptune_Update_not_found aws data h0 (conj Hsel Hrep)) in H. discriminate H. }
  exists h0, cluster, others. split; [split; assumption | ].
  destruct H as [H | H].
  - rewrite (neptune_Create_run aws data h0 cluster others (conj Hsel Hrep)) in H.
    destruct (DBClusterMembers cluster) as [ | m ms] eqn:Hmembers; [discriminate H | ].
    apply neptune_steps_Ok in H. rewrite H, <- app_assoc. reflexivity.
  - rewrite (neptune_Update_run aws data h0 cluster others (conj Hsel Hrep)) in H.
    apply neptune_steps_Ok in H. rewrite H, <- app_assoc. reflexivity.
Qed.

Lemma aurora_modify_Ok aws data stored t :
  AuroraModify.Create aws data [] = (Ok stored, t ++ [Now]) \/
  AuroraModify.Update aws data [] = (Ok stored, t ++ [Now]) ->
  auroraModifyWaited aws data t.
Proof.
  intros H.
  assert (exists s, AuroraModify.Create aws data [] = (Ok s, t ++ [Now])) as [s Hc].
  { destruct H as [H | H]; [eauto | ].
    rewrite aurora_modify_Update_as_Create in H.
    apply mapResult_Ok_inv in H. exact H. }
  clear H. unfold auroraModifyWaited.
  destruct (selectClient aws (AuroraModify.Region data) []) as [[[] | d | ] h0] eqn:Hsel.
  2: { unfold AuroraModify.Create in Hc. erewrite bind_Failed in Hc by exact Hsel.
       discriminate Hc. }
  2: { unfold AuroraModify.Create in Hc. erewrite bind_Panicked in Hc by exact Hsel.
       discriminate Hc. }
  rewrite (aurora_modify_Create_run aws data h0 Hsel) in Hc.
  destruct (modifyRequest _ _ _ _) as [c | ]; [ | discriminate Hc].
  cbv zeta in Hc.
  destruct (errorOf aws h0 c); [discriminate Hc | ].
  destruct (errorOf aws (h0 ++ [c]) _); [discriminate Hc | ].
  injection Hc as _ Hc.
  exists h0, c. split; [reflexivity | split; [reflexivity | ]].
  match type of Hc with
  | ?h ++ [?a; ?b; Now] = _ => change (h ++ [a; b; Now]) with (h ++ [a; b] ++ [Now]) in Hc
  end.
  rewrite app_assoc in Hc. apply app_inj_tail in Hc as [<- _]. reflexivity.
Qed.

Lemma neptune_modify_Ok aws data stored t :
  NeptuneModify.Create aws data [] = (Ok stored, t ++ [Now]) \/
  NeptuneModify.Update aws data [] = (Ok stored, t ++ [Now]) ->
  neptuneModifyWaited aws data t.
Proof.
  intros H.
  assert (exists s, NeptuneModify.Create aws data [] = (Ok s, t ++ [Now])) as [s Hc].
  { destruct H as [H | H]; [eauto | ].
    rewrite neptune_modify_Update_as_Create in H.
    apply mapResult_Ok_inv in H. exact H. }
  clear H. unfold neptuneModifyWaited.
  apply neptune_modify_Create_Ok in Hc as (tr0 & t' & Hmod & Hloop & Heq).
  apply app_inj_tail in Heq as [-> _].
  apply pollLoop_ok_only_when_available in Hloop
    as (n & Hn & Hbefore & Hat & ->); [ | simpl; lia | reflexivity].
  exists tr0, n. repeat split; try assumption.
Qed.

(** * The properties *)

(** ** Choice of the reboot strategy *)

(** C1.  Aurora reboot, Create and Update: on a cluster with at least two
    members, a reader among them, and [force_failover] explicitly true, the
    only mutation call is one failover whose target is the first reader in
    the order of the described member list.  In every other case
    ([force_failover] false, null or unknown, or no reader, or fewer than
    two members) the mutation calls are the per-member reboots, one per
    member in that order whatever the member's role, issued up to the first
    error; when none errors they cover all members.  Neptune reboot, which
    has no [force_failover], always fans out in that way. *)
Theorem reboot_strategy (aws : AWS) :
  (forall (data : AuroraReboot.Model) h0 cluster others o,
     let id := ValueString (AuroraReboot.ClusterIdentifier data) in
     let members := DBClusterMembers cluster in
     let h1 := h0 ++ [DescribeDBClusters (Some id)] in
     let fanOut :=
       map (auroraRebootCall
              (forwardedHint (AuroraReboot.ForceFailover data) (length members)))
           members in
     describedAs aws (AuroraReboot.Region data) id h0 (cluster :: others) ->
     Forall populated members ->
     o = run (AuroraReboot.Create aws data) \/ o = run (AuroraReboot.Update aws data) ->
     ((2 <= length members)%nat ->
      existsb isReader members = true ->
      AuroraReboot.ForceFailover data = Known true ->
      exists reader,
        find isReader members = Some reader /\
        mutations (snd o) = [FailoverDBCluster (Some id) (DBInstanceIdentifier reader)])
     /\
     ((length members < 2)%nat \/
      existsb isReader members = false \/
      AuroraReboot.ForceFailover data <> Known true ->
      mutations (snd o) = issuedOf aws h1 fanOut /\
      (ackedFrom aws h1 fanOut = true -> mutations (snd o) = fanOut)))
  /\
  (forall (data : NeptuneReboot.Model) h0 cluster others o,
     let id := ValueString (NeptuneReboot.ClusterIdentifier data) in
     let members := DBClusterMembers cluster in
     let h1 := h0 ++ [DescribeDBClusters (Some id)] in
     let fanOut := map neptuneRebootCall members in
     describedAs aws (NeptuneReboot.Region data) id h0 (cluster :: others) ->
     o = run (NeptuneReboot.Create aws data) \/ o = run (NeptuneReboot.Update aws data) ->
     mutations (snd o) = issuedOf aws h1 fanOut /\
     (ackedFrom aws h1 fanOut = true -> mutations (snd o) = fanOut)).
Proof.
  split.
  - intros data h0 cluster others o id members h1 fanOut Hdesc Hpop Ho.
    rewrite (aurora_either_trace aws data o Ho).
    rewrite (aurora_Create_mutations aws data h0 cluster others Hdesc Hpop).
    fold id members h1. unfold auroraMutationCalls. split.
    + intros Hlen Hreader Hff.
      assert (failoverChosen members (AuroraReboot.ForceFailover data) = true) as Hc.
      { unfold failoverChosen. rewrite Hreader, Hff.
        apply Nat.leb_le in Hlen. rewrite Hlen. reflexivity. }
      rewrite Hc. rewrite existsb_find_isReader in Hreader.
      destruct (find isReader members) as [reader | ]; [ | discriminate].
      exists reader. split; [reflexivity | ].
      cbn [issuedOf]. destruct (errorOf aws h1 _); reflexivity.
    + intros Hother.
      assert (failoverChosen members (AuroraReboot.ForceFailover data) = false) as Hc.
      { unfold failoverChosen. destruct Hother as [Hlen | [Hreader | Hff]].
        - apply Nat.leb_gt in Hlen. rewrite Hlen. reflexivity.
        - rewrite Hreader, andb_false_r. reflexivity.
        - destruct (AuroraReboot.ForceFailover data) as [ | | [ | ]]; simpl;
            try apply andb_false_r.
          contradiction Hff. reflexivity. }
      rewrite Hc. fold fanOut.
      assert (mutations (issuedOf aws h1 fanOut) = issuedOf aws h1 fanOut) as Hmut.
      { apply filter_issuedOf_all, mutations_auroraRebootCalls. }
      rewrite Hmut. split; [reflexivity | ].
      intros Hack. apply issuedOf_acked. exact Hack.
  - intros data h0 cluster others o id members h1 fanOut Hdesc Ho.
    destruct (neptune_h1_unobserved aws _ id h0 _ Hdesc) as (Hm & _).
    fold h1 in Hm.
    assert (mutations (snd o) = issuedOf aws h1 fanOut) as Hmut.
    { destruct Ho as [-> | ->]; unfold run; rewrite snd_respond.
      - rewrite (neptune_Create_run aws data h0 cluster others Hdesc).
        fold id h1 members. unfold fanOut.
        destruct members as [ | m ms] eqn:Hmem.
        + cbn [snd]. exact Hm.
        + rewrite neptune_steps_mutations, Hm. reflexivity.
      - rewrite (neptune_Update_run aws data h0 cluster others Hdesc).
        fold id h1 members. rewrite neptune_steps_mutations, Hm. reflexivity. }
    split; [exact Hmut | ].
    intros Hack. rewrite Hmut. apply issuedOf_acked. exact Hack.
Qed.

Lemma reboot_strategy_witness :
  (exists reader,
     find isReader (DBClusterMembers db1) = Some reader /\
     mutations (snd (run (AuroraReboot.Create (calmAWS [db1])
                            (auroraPlan "db-1" (Known true))))) =
       [FailoverDBCluster (Some "db-1") (DBInstanceIdentifier reader)]).
Proof.
  refine (proj1 (proj1 (reboot_strategy (calmAWS [db1]))
                   (auroraPlan "db-1" (Known true)) [] db1 [] _ _ _ _) _ _ _).
  - split; reflexivity.
  - repeat constructor; discriminate.
  - left; reflexivity.
  - simpl; lia.
  - reflexivity.
  - reflexivity.
Defined.

(** ** The fan-out stops at the first error *)

(** C6.  In every per-member fan-out (Neptune reboot Create and Update, and
    Aurora reboot Create and Update when no failover is chosen) the reboot
    calls are issued in the order of the described member list; when the
    calls for the members [p] are acknowledged and the call for the next
    member [x] errors, the method fails with the diagnostic of that error,
    the trace ends with the call for [x], nothing is issued for the members
    [q] after it, and no wait is started. *)
Theorem fanout_first_error_aborts (aws : AWS) :
  (forall (data : NeptuneReboot.Model) h0 cluster others p x q e o,
     let id := ValueString (NeptuneReboot.ClusterIdentifier data) in
     let h1 := h0 ++ [DescribeDBClusters (Some id)] in
     describedAs aws (NeptuneReboot.Region data) id h0 (cluster :: others) ->
     DBClusterMembers cluster = p ++ x :: q ->
     ackedFrom aws h1 (map neptuneRebootCall p) = true ->
     errorOf aws (h1 ++ map neptuneRebootCall p) (neptuneRebootCall x) = Some e ->
     o = run (NeptuneReboot.Create aws data) \/ o = run (NeptuneReboot.Update aws data) ->
     failedWith (neptuneRebootError x e) (fst o) /\
     snd o = h1 ++ map neptuneRebootCall (p ++ [x]) /\
     waits (snd o) = [])
  /\
  (forall (data : AuroraReboot.Model) h0 cluster others p x q e o,
     let id := ValueString (AuroraReboot.ClusterIdentifier data) in
     let h1 := h0 ++ [DescribeDBClusters (Some id)] in
     let call :=
       auroraRebootCall
         (forwardedHint (AuroraReboot.ForceFailover data)
            (length (DBClusterMembers cluster))) in
     describedAs aws (AuroraReboot.Region data) id h0 (cluster :: others) ->
     Forall populated (DBClusterMembers cluster) ->
     failoverChosen (DBClusterMembers cluster) (AuroraReboot.ForceFailover data) = false ->
     DBClusterMembers cluster = p ++ x :: q ->
     ackedFrom aws h1 (map call p) = true ->
     errorOf aws (h1 ++ map call p) (call x) = Some e ->
     o = run (AuroraReboot.Create aws data) \/ o = run (AuroraReboot.Update aws data) ->
     failedWith (auroraRebootError x e) (fst o) /\
     snd o = h1 ++ map call (p ++ [x]) /\
     waits (snd o) = []).
Proof.
  split.
  - intros data h0 cluster others p x q e o id h1 Hdesc Hsplit Hack Hx Ho.
    assert (DBClusterMembers cluster <> []) as Hne.
    { rewrite Hsplit. destruct p; discriminate. }
    destruct (neptune_either aws data h0 cluster others o Hdesc Hne Ho) as [mk ->].
    fold id h1. rewrite Hsplit.
    rewrite (neptune_steps_reboot_error aws mk p x q e h1 Hack Hx).
    rewrite respond_Failed. simpl fst. simpl snd.
    split; [reflexivity | split; [reflexivity | ]].
    destruct (neptune_h1_unobserved aws _ id h0 _ Hdesc) as (_ & Hw & _).
    fold h1 in Hw. unfold waits in *. rewrite filter_app, Hw.
    rewrite filter_map_none by reflexivity. reflexivity.
  - intros data h0 cluster others p x q e o id h1 call Hdesc Hpop Hfan Hsplit Hack Hx Ho.
    pose proof (aurora_Create_reboot_error aws data h0 cluster others p x q e
                  Hdesc Hpop Hfan Hsplit Hack Hx) as Hrun.
    fold id h1 call in Hrun.
    split; [ | split].
    + apply (aurora_either_failed aws data o _ Ho). rewrite Hrun. reflexivity.
    + rewrite (aurora_either_trace aws data o Ho), Hrun. reflexivity.
    + rewrite (aurora_either_trace aws data o Ho), Hrun. simpl snd.
      destruct (aurora_h1_unobserved aws data h0 cluster others Hdesc) as (_ & Hw & _).
      fold id h1 in Hw. unfold waits in *. rewrite filter_app, Hw.
      rewrite filter_map_none by reflexivity. reflexivity.
Qed.

Lemma fanout_first_error_aborts_witness :
  let aws := withRebootError "db-1-b" "throttled" (calmAWS [db1]) in
  let o := run (NeptuneReboot.Create aws (neptunePlan "db-1")) in
  failedWith (neptuneRebootError (member "db-1-b" false) "throttled") (fst o) /\
  snd o = [DescribeDBClusters (Some "db-1");
           RebootDBInstance (Some "db-1-a") None;
           RebootDBInstance (Some "db-1-b") None] /\
  waits (snd o) = [].
Proof.
  intros aws o.
  refine (proj1 (fanout_first_error_aborts aws) (neptunePlan "db-1") [] db1 []
            [member "db-1-a" true] (member "db-1-b" false) [] "throttled" o
            _ _ _ _ _).
  - split; reflexivity.
  - reflexivity.
  - reflexivity.
  - reflexivity.
  - left; reflexivity.
Defined.

(** ** Clusters with a single member *)

(** C7.  On a cluster with exactly one member the only mutation call of a
    reboot is the reboot of that member, and the call carries no
    force-failover hint: for Aurora reboot whatever [force_failover] is set
    to and whatever the member's role, for Neptune reboot always. *)
Theorem single_member_reboot (aws : AWS) :
  (forall (data : AuroraReboot.Model) h0 cluster others m o,
     let id := ValueString (AuroraReboot.ClusterIdentifier data) in
     describedAs aws (AuroraReboot.Region data) id h0 (cluster :: others) ->
     DBClusterMembers cluster = [m] ->
     populated m ->
     o = run (AuroraReboot.Create aws data) \/ o = run (AuroraReboot.Update aws data) ->
     mutations (snd o) = [RebootDBInstance (DBInstanceIdentifier m) None])
  /\
  (forall (data : NeptuneReboot.Model) h0 cluster others m o,
     let id := ValueString (NeptuneReboot.ClusterIdentifier data) in
     describedAs aws (NeptuneReboot.Region data) id h0 (cluster :: others) ->
     DBClusterMembers cluster = [m] ->
     o = run (NeptuneReboot.Create aws data) \/ o = run (NeptuneReboot.Update aws data) ->
     mutations (snd o) =
       [RebootDBInstance (Some (aws_ToString (DBInstanceIdentifier m))) None]).
Proof.
  split.
  - intros data h0 cluster others m o id Hdesc Hone Hpop Ho.
    assert (Forall populated (DBClusterMembers cluster)) as Hall.
    { rewrite Hone. constructor; [exact Hpop | constructor]. }
    rewrite (aurora_either_trace aws data o Ho).
    rewrite (aurora_Create_mutations aws data h0 cluster others Hdesc Hall).
    rewrite Hone. unfold auroraMutationCalls, failoverChosen. simpl.
    assert (forwardedHint (AuroraReboot.ForceFailover data) 1 = None) as ->.
    { destruct (AuroraReboot.ForceFailover data); reflexivity. }
    unfold auroraRebootCall.
    destruct (reply_RebootDBInstance aws _ (DBInstanceIdentifier m) None); reflexivity.
  - intros data h0 cluster others m o id Hdesc Hone Ho.
    assert (DBClusterMembers cluster <> []) as Hne by (rewrite Hone; discriminate).
    destruct (neptune_either aws data h0 cluster others o Hdesc Hne Ho) as [mk ->].
    rewrite snd_respond, neptune_steps_mutations.
    destruct (neptune_h1_unobserved aws _ id h0 _ Hdesc) as (Hm & _).
    fold id. rewrite Hm, Hone. cbn [map issuedOf app].
    destruct (errorOf aws _ (neptuneRebootCall m)); reflexivity.
Qed.

Lemma single_member_reboot_witness :
  mutations (snd (run (AuroraReboot.Create (calmAWS [db2])
                         (auroraPlan "db-2" (Known true))))) =
    [RebootDBInstance (Some "db-2-a") None].
Proof.
  refine (proj1 (single_member_reboot (calmAWS [db2]))
            (auroraPlan "db-2" (Known true)) [] db2 [] (member "db-2-a" true) _
            _ _ _ _).
  - split; reflexivity.
  - reflexivity.
  - split; discriminate.
  - left; reflexivity.
Defined.

(** ** The hint on the per-instance reboots *)

(** C10.  Aurora reboot, Create and Update, on a cluster with at least two
    members and [force_failover] not null: every per-instance reboot call
    of the method carries the value of the attribute as its hint, [false]
    included; and when the fan-out is taken (no reader, or the value is not
    true) the reboots issued are those calls, in member order up to the
    first error, the first of them always. *)
Theorem aurora_fanout_forwards_present_hint
    (aws : AWS) (data : AuroraReboot.Model) (h0 : Trace)
    (cluster : DBCluster) (others : list DBCluster)
    (o : Outcome AuroraReboot.Model * Trace) :
  let id := ValueString (AuroraReboot.ClusterIdentifier data) in
  let members := DBClusterMembers cluster in
  let h1 := h0 ++ [DescribeDBClusters (Some id)] in
  let value := ValueBool (AuroraReboot.ForceFailover data) in
  describedAs aws (AuroraReboot.Region data) id h0 (cluster :: others) ->
  Forall populated members ->
  (2 <= length members)%nat ->
  IsNull (AuroraReboot.ForceFailover data) = false ->
  o = run (AuroraReboot.Create aws data) \/ o = run (AuroraReboot.Update aws data) ->
  (forall inst hint, In (RebootDBInstance inst hint) (snd o) -> hint = Some value)
  /\
  (existsb isReader members = false \/ value = false ->
   mutations (snd o) = issuedOf aws h1 (map (auroraRebootCall (Some value)) members) /\
   exists first rest,
     members = first :: rest /\
     In (RebootDBInstance (DBInstanceIdentifier first) (Some value)) (snd o)).
Proof.
  intros id members h1 value Hdesc Hpop Hlen Hset Ho.
  assert (forwardedHint (AuroraReboot.ForceFailover data) (length members)
          = Some value) as Hhint.
  { unfold forwardedHint, value. apply Nat.leb_le in Hlen. rewrite Hlen.
    destruct (AuroraReboot.ForceFailover data); [discriminate | reflexivity .. ]. }
  pose proof (aurora_Create_mutations aws data h0 cluster others Hdesc Hpop) as Hmut.
  rewrite <- (aurora_either_trace aws data o Ho) in Hmut.
  fold id members h1 in Hmut. unfold auroraMutationCalls in Hmut.
  rewrite Hhint in Hmut.
  split.
  - intros inst hint Hin.
    assert (In (RebootDBInstance inst hint) (mutations (snd o))) as Hin'.
    { apply filter_In. split; [exact Hin | reflexivity]. }
    rewrite Hmut in Hin'. apply filter_In in Hin' as [Hin' _].
    match type of Hin' with
    | In _ (issuedOf _ _ ?cs) =>
        destruct (issuedOf_prefix aws cs h1) as [rest Hrest];
        assert (In (RebootDBInstance inst hint) cs) as Hcs
          by (rewrite Hrest; apply in_or_app; left; exact Hin')
    end.
    destruct (failoverChosen members (AuroraReboot.ForceFailover data)).
    + destruct (find isReader members); simpl in Hcs.
      * destruct Hcs as [Hcs | []]. discriminate Hcs.
      * contradiction.
    + apply in_map_iff in Hcs as (m & Hm & _).
      unfold auroraRebootCall in Hm. congruence.
  - intros Hfan.
    assert (failoverChosen members (AuroraReboot.ForceFailover data) = false) as Hc.
    { unfold failoverChosen. destruct Hfan as [Hreader | Hvalue].
      - rewrite Hreader, andb_false_r. reflexivity.
      - unfold value in Hvalue.
        destruct (AuroraReboot.ForceFailover data) as [ | | [ | ]]; simpl in *;
          try apply andb_false_r. discriminate. }
    rewrite Hc in Hmut. unfold mutations at 2 in Hmut.
    rewrite filter_issuedOf_all in Hmut
      by (apply forallb_map_all; reflexivity).
    split; [exact Hmut | ].
    destruct members as [ | first rest] eqn:Hmem; [simpl in Hlen; lia | ].
    exists first, rest. split; [reflexivity | ].
    assert (In (RebootDBInstance (DBInstanceIdentifier first) (Some value))
              (mutations (snd o))) as Hin.
    { rewrite Hmut. simpl. left. reflexivity. }
    apply filter_In in Hin as [Hin _]. exact Hin.
Qed.

Lemma aurora_fanout_forwards_present_hint_witness :
  mutations (snd (run (AuroraReboot.Create (calmAWS [db1])
                         (auroraPlan "db-1" (Known false))))) =
    [RebootDBInstance (Some "db-1-a") (Some false);
     RebootDBInstance (Some "db-1-b") (Some false)].
Proof.
  refine (proj1 (proj2 (aurora_fanout_forwards_present_hint (calmAWS [db1])
                          (auroraPlan "db-1" (Known false)) [] db1 [] _ _ _ _ _ _) _)).
  - split; reflexivity.
  - repeat constructor; discriminate.
  - simpl; lia.
  - reflexivity.
  - left; reflexivity.
  - right; reflexivity.
Defined.

(** ** Not found, and clusters without members *)

(** C2, as the claim states it, at a concrete input: Aurora reboot Create
    on a cluster that exists and has no members.  The claim has the method
    fail; it does not: it issues no mutation call, waits for the cluster and
    stores a time stamp. *)
Lemma aurora_reboot_accepts_empty_cluster :
  let o := run (AuroraReboot.Create (calmAWS [db0]) (auroraPlan "db-0" Null)) in
  ~ (exists resp, fst o = Returned resp /\ HasError resp = true) /\
  succeeded (fst o) = true /\
  snd o = [DescribeDBClusters (Some "db-0"); auroraWaitCall "db-0"; Now].
Proof.
  intros o. split; [ | split; reflexivity].
  intros (resp & Hresp & Herr). vm_compute in Hresp.
  injection Hresp as <-. discriminate Herr.
Qed.

(** C2, amended.  In every reboot method, when the describe call returns no
    cluster the method fails with its not-found diagnostic right after that
    call, with no mutation issued.  Neptune reboot Create also fails, right
    after the describe call and with no mutation issued, when the described
    cluster has no members.  Aurora reboot Create and Update have no such
    check: on a cluster without members they issue no mutation call, wait
    for the cluster, and succeed when that wait does. *)
Theorem reboot_not_found_and_empty (aws : AWS) :
  (forall (data : AuroraReboot.Model) h0 o,
     let id := ValueString (AuroraReboot.ClusterIdentifier data) in
     describedAs aws (AuroraReboot.Region data) id h0 [] ->
     o = run (AuroraReboot.Create aws data) \/ o = run (AuroraReboot.Update aws data) ->
     failedWith (auroraNotFound id) (fst o) /\
     snd o = h0 ++ [DescribeDBClusters (Some id)])
  /\
  (forall (data : NeptuneReboot.Model) h0 o,
     let id := ValueString (NeptuneReboot.ClusterIdentifier data) in
     describedAs aws (NeptuneReboot.Region data) id h0 [] ->
     o = run (NeptuneReboot.Create aws data) \/ o = run (NeptuneReboot.Update aws data) ->
     failedWith (neptuneNotFound id) (fst o) /\
     snd o = h0 ++ [DescribeDBClusters (Some id)])
  /\
  (forall (data : NeptuneReboot.Model) h0 cluster others,
     let id := ValueString (NeptuneReboot.ClusterIdentifier data) in
     let o := run (NeptuneReboot.Create aws data) in
     describedAs aws (NeptuneReboot.Region data) id h0 (cluster :: others) ->
     DBClusterMembers cluster = [] ->
     failedWith (neptuneNoInstances id) (fst o) /\
     snd o = h0 ++ [DescribeDBClusters (Some id)])
  /\
  (forall (data : AuroraReboot.Model) h0 cluster others o,
     let id := ValueString (AuroraReboot.ClusterIdentifier data) in
     let h1 := h0 ++ [DescribeDBClusters (Some id)] in
     describedAs aws (AuroraReboot.Region data) id h0 (cluster :: others) ->
     DBClusterMembers cluster = [] ->
     o = run (AuroraReboot.Create aws data) \/ o = run (AuroraReboot.Update aws data) ->
     mutations (snd o) = [] /\
     waits (snd o) = [auroraWaitCall id] /\
     (errorOf aws h1 (auroraWaitCall id) = None ->
      succeeded (fst o) = true /\ snd o = h1 ++ [auroraWaitCall id; Now])).
Proof.
  split; [ | split; [ | split]].
  - intros data h0 o id Hdesc Ho.
    pose proof (aurora_Create_not_found aws data h0 Hdesc) as Hrun. fold id in Hrun.
    split.
    + apply (aurora_either_failed aws data o _ Ho). rewrite Hrun. reflexivity.
    + rewrite (aurora_either_trace aws data o Ho), Hrun. reflexivity.
  - intros data h0 o id Hdesc [-> | ->]; apply run_Failed.
    + apply neptune_Create_not_found. exact Hdesc.
    + apply neptune_Update_not_found. exact Hdesc.
  - intros data h0 cluster others id o Hdesc Hempty. apply run_Failed.
    rewrite (neptune_Create_run aws data h0 cluster others Hdesc), Hempty.
    reflexivity.
  - intros data h0 cluster others o id h1 Hdesc Hempty Ho.
    assert (Forall populated (DBClusterMembers cluster)) as Hpop
      by (rewrite Hempty; constructor).
    assert (ackedFrom aws h1
              (auroraMutationCalls id (AuroraReboot.ForceFailover data)
                 (DBClusterMembers cluster)) = true) as Hack
      by (rewrite Hempty, auroraMutationCalls_nil; reflexivity).
    pose proof (aurora_Create_acked aws data h0 cluster others Hdesc Hpop Hack) as Hrun.
    fold id h1 in Hrun. rewrite Hempty, auroraMutationCalls_nil, app_nil_r in Hrun.
    destruct (aurora_h1_unobserved aws data h0 cluster others Hdesc) as (Hm & Hw & _).
    fold id h1 in Hm, Hw.
    rewrite (aurora_either_trace aws data o Ho).
    split; [ | split].
    + rewrite Hrun. unfold mutations in *.
      destruct (errorOf aws h1 (auroraWaitCall id)); simpl snd;
        rewrite filter_app, Hm; reflexivity.
    + rewrite Hrun. unfold waits in *.
      destruct (errorOf aws h1 (auroraWaitCall id)); simpl snd;
        rewrite filter_app, Hw; reflexivity.
    + intros Hwait. rewrite Hwait in Hrun. split.
      * eapply aurora_either_succeeded; [exact Ho | rewrite Hrun; reflexivity].
      * rewrite Hrun. reflexivity.
Qed.

Lemma reboot_not_found_and_empty_witness :
  let o := run (NeptuneReboot.Create (calmAWS [db0]) (neptunePlan "db-0")) in
  failedWith (neptuneNoInstances "db-0") (fst o) /\
  snd o = [DescribeDBClusters (Some "db-0")].
Proof.
  refine (proj1 (proj2 (proj2 (reboot_not_found_and_empty (calmAWS [db0]))))
            (neptunePlan "db-0") [] db0 [] _ _).
  - split; reflexivity.
  - reflexivity.
Defined.

(** C9.  Neptune reboot rejects a cluster without members in Create only.
    On such a cluster Update issues no reboot call and no wait: after the
    describe call it reads the time and stores it, and the response
    carries no diagnostic; Create fails right after the describe call. *)
Theorem neptune_update_accepts_empty_cluster
    (aws : AWS) (data : NeptuneReboot.Model) (h0 : Trace)
    (cluster : DBCluster) (others : list DBCluster) :
  let id := ValueString (NeptuneReboot.ClusterIdentifier data) in
  let h1 := h0 ++ [DescribeDBClusters (Some id)] in
  let stamp := Format_RFC3339 (reply_Now aws h1) in
  describedAs aws (NeptuneReboot.Region data) id h0 (cluster :: others) ->
  DBClusterMembers cluster = [] ->
  (exists stored,
     run (NeptuneReboot.Update aws data) =
       (Returned {| Diagnostics := []; StateSet := Some stored |}, h1 ++ [Now]) /\
     NeptuneReboot.LastRebootTime stored = Known stamp /\
     mutations (h1 ++ [Now]) = [] /\
     waits (h1 ++ [Now]) = [])
  /\
  failedWith (neptuneNoInstances id) (fst (run (NeptuneReboot.Create aws data))) /\
  snd (run (NeptuneReboot.Create aws data)) = h1.
Proof.
  intros id h1 stamp Hdesc Hempty. split.
  - exists (neptuneRebootKeepID data (neptuneRebooted data (reply_Now aws h1))).
    destruct (neptune_h1_unobserved aws _ id h0 _ Hdesc) as (Hm & Hw & _).
    fold h1 in Hm, Hw.
    split; [ | split; [reflexivity | split]].
    + unfold run.
      rewrite (neptune_Update_run aws data h0 cluster others Hdesc), Hempty.
      reflexivity.
    + unfold mutations in *. rewrite filter_app, Hm. reflexivity.
    + unfold waits in *. rewrite filter_app, Hw. reflexivity.
  - apply run_Failed.
    rewrite (neptune_Create_run aws data h0 cluster others Hdesc), Hempty.
    reflexivity.
Qed.

Lemma neptune_update_accepts_empty_cluster_witness :
  exists stored,
    run (NeptuneReboot.Update (calmAWS [db0]) (neptunePlan "db-0")) =
      (Returned {| Diagnostics := []; StateSet := Some stored |},
       [DescribeDBClusters (Some "db-0"); Now]) /\
    NeptuneReboot.LastRebootTime stored = Known "2025-03-14T09:26:53Z".
Proof.
  destruct (proj1 (neptune_update_accepts_empty_cluster (calmAWS [db0])
                     (neptunePlan "db-0") [] db0 []
                     (conj eq_refl eq_refl) eq_refl))
    as (stored & Hrun & Hstamp & _).
  exists stored. split; [exact Hrun | exact Hstamp].
Defined.

(** ** Waiting after the mutation calls *)

(** C3, as the claim states it, at a concrete input: Aurora reboot Create
    fanning out over the two members of ["db-1"].  The claim has the
    method wait on each instance it rebooted, in that order; the method
    waits once, on the cluster. *)
Lemma aurora_fanout_waits_on_cluster :
  let tr := snd (run (AuroraReboot.Create (calmAWS [db1]) (auroraPlan "db-1" Null))) in
  touched tr = [Some "db-1-a"; Some "db-1-b"] /\
  watched tr = [Some "db-1"] /\
  watched tr <> touched tr.
Proof.
  intros tr. split; [reflexivity | split; [reflexivity | ]].
  vm_compute. discriminate.
Qed.

(** C3, amended.  Neptune reboot, Create and Update, waits for the
    instances one at a time in the order in which it rebooted them: with
    every reboot acknowledged, the first wait that errors fails the method
    with that error and the instances after it are not waited for; with
    every wait acknowledged too the method succeeds, having waited for
    exactly the instances it rebooted, in order.  Aurora reboot, Create
    and Update, whether it failed over or fanned out, waits once, on the
    cluster, for 30 minutes at most, after all its mutation calls were
    acknowledged; an error of that wait fails the method. *)
Theorem reboot_waits (aws : AWS) :
  (forall (data : NeptuneReboot.Model) h0 cluster others p x q e o,
     let id := ValueString (NeptuneReboot.ClusterIdentifier data) in
     let h1 := h0 ++ [DescribeDBClusters (Some id)] in
     let rebooted := h1 ++ map neptuneRebootCall (p ++ x :: q) in
     describedAs aws (NeptuneReboot.Region data) id h0 (cluster :: others) ->
     DBClusterMembers cluster = p ++ x :: q ->
     ackedFrom aws h1 (map neptuneRebootCall (p ++ x :: q)) = true ->
     ackedFrom aws rebooted (map neptuneWaitCall p) = true ->
     errorOf aws (rebooted ++ map neptuneWaitCall p) (neptuneWaitCall x) = Some e ->
     o = run (NeptuneReboot.Create aws data) \/ o = run (NeptuneReboot.Update aws data) ->
     failedWith (neptuneWaitError x e) (fst o) /\
     snd o = rebooted ++ map neptuneWaitCall (p ++ [x]) /\
     watched (snd o) = map instanceName (p ++ [x]))
  /\
  (forall (data : NeptuneReboot.Model) h0 cluster others o,
     let id := ValueString (NeptuneReboot.ClusterIdentifier data) in
     let h1 := h0 ++ [DescribeDBClusters (Some id)] in
     let members := DBClusterMembers cluster in
     let rebooted := h1 ++ map neptuneRebootCall members in
     describedAs aws (NeptuneReboot.Region data) id h0 (cluster :: others) ->
     members <> [] ->
     ackedFrom aws h1 (map neptuneRebootCall members) = true ->
     ackedFrom aws rebooted (map neptuneWaitCall members) = true ->
     o = run (NeptuneReboot.Create aws data) \/ o = run (NeptuneReboot.Update aws data) ->
     succeeded (fst o) = true /\
     snd o = (rebooted ++ map neptuneWaitCall members) ++ [Now] /\
     watched (snd o) = map instanceName members /\
     watched (snd o) = touched (snd o))
  /\
  (forall (data : AuroraReboot.Model) h0 cluster others o,
     let id := ValueString (AuroraReboot.ClusterIdentifier data) in
     let h1 := h0 ++ [DescribeDBClusters (Some id)] in
     let calls :=
       auroraMutationCalls id (AuroraReboot.ForceFailover data)
         (DBClusterMembers cluster) in
     describedAs aws (AuroraReboot.Region data) id h0 (cluster :: others) ->
     Forall populated (DBClusterMembers cluster) ->
     ackedFrom aws h1 calls = true ->
     o = run (AuroraReboot.Create aws data) \/ o = run (AuroraReboot.Update aws data) ->
     waits (snd o) = [WaitDBClusterAvailable (Some id) (30 * Minute)] /\
     watched (snd o) = [Some id] /\
     (forall e,
        errorOf aws (h1 ++ calls) (auroraWaitCall id) = Some e ->
        failedWith (auroraWaitError e) (fst o) /\
        snd o = (h1 ++ calls) ++ [auroraWaitCall id]) /\
     (errorOf aws (h1 ++ calls) (auroraWaitCall id) = None ->
      succeeded (fst o) = true /\
      snd o = (h1 ++ calls) ++ [auroraWaitCall id; Now])).
Proof.
  split; [ | split].
  - intros data h0 cluster others p x q e o id h1 rebooted Hdesc Hsplit HackR HackW Hx Ho.
    assert (DBClusterMembers cluster <> []) as Hne.
    { rewrite Hsplit. destruct p; discriminate. }
    destruct (neptune_either aws data h0 cluster others o Hdesc Hne Ho) as [mk ->].
    fold id h1. rewrite Hsplit.
    rewrite (neptune_steps_wait_error aws mk p x q e h1 HackR HackW Hx).
    rewrite respond_Failed. simpl fst. simpl snd. fold rebooted.
    split; [reflexivity | split; [reflexivity | ]].
    destruct (neptune_h1_unobserved aws _ id h0 _ Hdesc) as (_ & _ & _ & Hwd).
    fold h1 in Hwd. unfold rebooted.
    rewrite !watched_app, Hwd, watched_neptuneRebootCalls, watched_neptuneWaitCalls.
    reflexivity.
  - intros data h0 cluster others o id h1 members rebooted Hdesc Hne HackR HackW Ho.
    destruct (neptune_either aws data h0 cluster others o Hdesc Hne Ho) as [mk ->].
    fold id h1 members.
    rewrite (neptune_steps_acked aws mk members h1 HackR HackW).
    simpl fst. simpl snd. fold rebooted.
    destruct (neptune_h1_unobserved aws _ id h0 _ Hdesc) as (_ & _ & Ht & Hwd).
    fold h1 in Ht, Hwd.
    assert (watched ((rebooted ++ map neptuneWaitCall members) ++ [Now])
            = map instanceName members) as Hwatched.
    { unfold rebooted.
      rewrite !watched_app, Hwd, watched_neptuneRebootCalls, watched_neptuneWaitCalls.
      simpl. rewrite app_nil_r. reflexivity. }
    assert (touched ((rebooted ++ map neptuneWaitCall members) ++ [Now])
            = map instanceName members) as Htouched.
    { unfold rebooted.
      rewrite !touched_app, Ht, touched_neptuneRebootCalls, touched_neptuneWaitCalls.
      simpl. rewrite !app_nil_r. reflexivity. }
    split; [reflexivity | split; [reflexivity | split; [exact Hwatched | ]]].
    rewrite Hwatched, Htouched. reflexivity.
  - intros data h0 cluster others o id h1 calls Hdesc Hpop Hack Ho.
    pose proof (aurora_Create_acked aws data h0 cluster others Hdesc Hpop Hack) as Hrun.
    fold id h1 calls in Hrun.
    destruct (aurora_h1_unobserved aws data h0 cluster others Hdesc)
      as (_ & Hw & _ & Hwd).
    fold id h1 in Hw, Hwd.
    destruct (auroraMutationCalls_unwatched id (AuroraReboot.ForceFailover data)
                (DBClusterMembers cluster)) as [Hcw Hcwd].
    fold calls in Hcw, Hcwd.
    rewrite (aurora_either_trace aws data o Ho).
    split; [ | split; [ | split]].
    + rewrite Hrun. unfold waits in *.
      destruct (errorOf aws (h1 ++ calls) (auroraWaitCall id)); simpl snd;
        rewrite !filter_app, Hw, Hcw; reflexivity.
    + rewrite Hrun.
      destruct (errorOf aws (h1 ++ calls) (auroraWaitCall id)); simpl snd;
        rewrite !watched_app, Hwd, Hcwd; reflexivity.
    + intros e He. rewrite He in Hrun. split.
      * apply (aurora_either_failed aws data o _ Ho). rewrite Hrun. reflexivity.
      * rewrite Hrun. reflexivity.
    + intros Hnone. rewrite Hnone in Hrun. split.
      * eapply aurora_either_succeeded; [exact Ho | rewrite Hrun; reflexivity].
      * rewrite Hrun. reflexivity.
Qed.

Lemma reboot_waits_witness :
  let aws := withWaitError "db-1-a" "deadline exceeded" (calmAWS [db1]) in
  let o := run (NeptuneReboot.Update aws (neptunePlan "db-1")) in
  failedWith (neptuneWaitError (member "db-1-a" true) "deadline exceeded") (fst o) /\
  snd o = [DescribeDBClusters (Some "db-1");
           RebootDBInstance (Some "db-1-a") None;
           RebootDBInstance (Some "db-1-b") None;
           WaitDBInstanceAvailable (Some "db-1-a") (30 * Minute)] /\
  watched (snd o) = [Some "db-1-a"].
Proof.
  intros aws o.
  refine (proj1 (reboot_waits aws) (neptunePlan "db-1") [] db1 []
            [] (member "db-1-a" true) [member "db-1-b" false] "deadline exceeded" o
            _ _ _ _ _ _).
  - split; reflexivity.
  - reflexivity.
  - reflexivity.
  - reflexivity.
  - reflexivity.
  - right; reflexivity.
Defined.

(** ** Reading back *)

(** C8, as the claim states it, at a concrete input: Read of the Aurora
    reboot resource for a cluster the describe call reports as absent by
    listing no cluster, which is the reply Create of the same resource
    answers with its not-found error.  The claim has Read fail with a
    not-found error; Read makes its one describe call, reports no
    diagnostic and stores the prior state. *)
Lemma read_accepts_absent_cluster :
  let aws := calmAWS [] in
  let data := auroraPlan "gone" Null in
  let o := run (AuroraReboot.Read aws data) in
  reply_DescribeDBClusters aws [] (Some "gone") = inr {| DBClusters := [] |} /\
  failedWith (auroraNotFound "gone") (fst (run (AuroraReboot.Create aws data))) /\
  snd o = [DescribeDBClusters (Some "gone")] /\
  fst o = Returned {| Diagnostics := []; StateSet := Some data |} /\
  ~ (exists d, failedWith d (fst o)).
Proof.
  intros aws data o.
  split; [reflexivity | split; [reflexivity | split; [reflexivity | split]]].
  - reflexivity.
  - intros [d Hd]. unfold failedWith in Hd. discriminate Hd.
Qed.

(** C8, amended.  Read, in the Aurora and the Neptune reboot resource: once
    the client is selected the method makes exactly one call, the describe
    call for the cluster, and no wait, sleep or second describe.  When that
    call errors, as it does for a cluster identifier AWS rejects as
    unknown, the method fails at once with the read diagnostic that carries
    the error, and stores nothing; there is no not-found error of its own.
    When the call is answered without an error, whatever it lists, a reply
    without any cluster included, the method reports no diagnostic and
    stores the prior state as it was. *)
Theorem read_describes_once (aws : AWS) :
  (forall (data : AuroraReboot.Model) h0,
     let id := ValueString (AuroraReboot.ClusterIdentifier data) in
     let o := run (AuroraReboot.Read aws data) in
     selectClient aws (AuroraReboot.Region data) [] = (Ok tt, h0) ->
     snd o = h0 ++ [DescribeDBClusters (Some id)] /\
     length (describes (snd o)) = 1%nat /\
     waits (snd o) = [] /\ sleeps (snd o) = [] /\
     (forall e, reply_DescribeDBClusters aws h0 (Some id) = inl e ->
                failedWith (auroraReadError e) (fst o)) /\
     (forall out, reply_DescribeDBClusters aws h0 (Some id) = inr out ->
                  fst o = Returned {| Diagnostics := []; StateSet := Some data |}))
  /\
  (forall (data : NeptuneReboot.Model) h0,
     let id := ValueString (NeptuneReboot.ClusterIdentifier data) in
     let o := run (NeptuneReboot.Read aws data) in
     selectClient aws (NeptuneReboot.Region data) [] = (Ok tt, h0) ->
     snd o = h0 ++ [DescribeDBClusters (Some id)] /\
     length (describes (snd o)) = 1%nat /\
     waits (snd o) = [] /\ sleeps (snd o) = [] /\
     (forall e, reply_DescribeDBClusters aws h0 (Some id) = inl e ->
                failedWith (neptuneReadError e) (fst o)) /\
     (forall out, reply_DescribeDBClusters aws h0 (Some id) = inr out ->
                  fst o = Returned {| Diagnostics := []; StateSet := Some data |})).
Proof.
  split.
  - intros data h0 id o Hsel.
    assert (AuroraReboot.Read aws data [] =
              (match reply_DescribeDBClusters aws h0 (Some id) with
               | inl e => Failed (auroraReadError e)
               | inr _ => Ok data
               end, h0 ++ [DescribeDBClusters (Some id)])) as Hrun.
    { unfold AuroraReboot.Read. erewrite bind_Ok by exact Hsel.
      unfold bind, call_DescribeDBClusters, aws_String. fold id.
      destruct (reply_DescribeDBClusters aws h0 (Some id)); reflexivity. }
    assert (snd o = h0 ++ [DescribeDBClusters (Some id)]) as Htr.
    { unfold o. rewrite snd_run, Hrun. reflexivity. }
    destruct (selectClient_not_observed _ _ _ _ Hsel) as (_ & Hw & Hd & Hs & _).
    rewrite Htr. unfold describes, waits, sleeps in *.
    rewrite !filter_app, Hw, Hd, Hs.
    repeat split; try reflexivity.
    + intros e He. unfold o, run. rewrite Hrun, He. reflexivity.
    + intros out Hout. unfold o, run. rewrite Hrun, Hout. reflexivity.
  - intros data h0 id o Hsel.
    assert (NeptuneReboot.Read aws data [] =
              (match reply_DescribeDBClusters aws h0 (Some id) with
               | inl e => Failed (neptuneReadError e)
               | inr _ => Ok data
               end, h0 ++ [DescribeDBClusters (Some id)])) as Hrun.
    { unfold NeptuneReboot.Read. erewrite bind_Ok by exact Hsel.
      unfold bind, call_DescribeDBClusters, aws_String. fold id.
      destruct (reply_DescribeDBClusters aws h0 (Some id)); reflexivity. }
    assert (snd o = h0 ++ [DescribeDBClusters (Some id)]) as Htr.
    { unfold o. rewrite snd_run, Hrun. reflexivity. }
    destruct (selectClient_not_observed _ _ _ _ Hsel) as (_ & Hw & Hd & Hs & _).
    rewrite Htr. unfold describes, waits, sleeps in *.
    rewrite !filter_app, Hw, Hd, Hs.
    repeat split; try reflexivity.
    + intros e He. unfold o, run. rewrite Hrun, He. reflexivity.
    + intros out Hout. unfold o, run. rewrite Hrun, Hout. reflexivity.
Qed.

Lemma read_describes_once_witness :
  let aws := withDescribeError "DBClusterNotFoundFault" (calmAWS []) in
  let o := run (AuroraReboot.Read aws (auroraPlan "gone" Null)) in
  snd o = [DescribeDBClusters (Some "gone")] /\
  failedWith (auroraReadError "DBClusterNotFoundFault") (fst o).
Proof.
  intros aws o.
  destruct (proj1 (read_describes_once aws) (auroraPlan "gone" Null) [] eq_refl)
    as (Htr & _ & _ & _ & Hfail & _).
  split; [exact Htr | apply Hfail; reflexivity].
Defined.

(** ** The polling loop *)

(** C4.  Neptune modify, Create and Update, after the modify call was
    acknowledged.  When each of the 60 attempts sees the cluster not yet
    available (no describe error, status not ["available"]) the method
    makes 60 describe calls with a sleep of 30 seconds between one and the
    next, and fails after the 60th with the diagnostic of the timeout that
    names the 30 minutes.  It fails with that diagnostic in no other run.
    When an attempt sees the cluster available after [n] attempts that did
    not, the loop ends with that describe call: the only call after it is
    the reading of the time. *)
Theorem neptune_modify_polling
    (aws : AWS) (data : NeptuneModify.Model) (tr : Trace)
    (o : Outcome NeptuneModify.Model * Trace) :
  let id := Some (ValueString (NeptuneModify.ClusterIdentifier data)) in
  modified aws data tr ->
  o = run (NeptuneModify.Create aws data) \/ o = run (NeptuneModify.Update aws data) ->
  ((forall k, (k < 60)%nat -> observedAt aws id tr k = SawNotAvailable) ->
   failedWith NeptuneModify.timeoutDiagnostic (fst o) /\
   snd o = tr ++ pollAttempts id 59 ++ [DescribeDBClusters id] /\
   length (describes (snd o)) = 60%nat /\
   length (sleeps (snd o)) = 59%nat)
  /\
  (failedWith NeptuneModify.timeoutDiagnostic (fst o) ->
   snd o = tr ++ pollAttempts id 59 ++ [DescribeDBClusters id] /\
   forall k, (k < 60)%nat -> observedAt aws id tr k = SawNotAvailable)
  /\
  (forall n,
     (n < 60)%nat ->
     (forall k, (k < n)%nat -> observedAt aws id tr k = SawNotAvailable) ->
     observedAt aws id tr n = SawAvailable ->
     succeeded (fst o) = true /\
     snd o = tr ++ pollAttempts id n ++ [DescribeDBClusters id; Now])
  /\
  NeptuneModify.maxAttempts * (30 * Second) = 30 * Minute.
Proof.
  intros id Hmod Ho.
  pose proof (neptune_modify_Create_run aws data tr Hmod) as Hrun.
  assert (snd o = snd (NeptuneModify.Create aws data [])) as Htr.
  { destruct Ho as [-> | ->]; [ | rewrite neptune_modify_run_Update; cbn [snd]];
      apply snd_run. }
  assert (forall d, fst (NeptuneModify.Create aws data []) = Failed d <->
                    failedWith d (fst o)) as Hfail.
  { intros d. unfold failedWith.
    destruct Ho as [-> | ->]; [ | rewrite neptune_modify_run_Update; simpl fst];
      unfold run, respond;
      destruct (NeptuneModify.Create aws data []) as [[a | d' | ] t]; simpl;
      split; intros H; try discriminate H; try (injection H as ->; reflexivity). }
  assert (forall a, fst (NeptuneModify.Create aws data []) = Ok a ->
                    succeeded (fst o) = true) as Hsucc.
  { intros a Ha.
    destruct Ho as [-> | ->]; [ | rewrite neptune_modify_run_Update; simpl fst;
                                  rewrite succeeded_mapOutcome];
      apply (succeeded_run_Ok _ a Ha). }
  destruct (modified_unobserved aws data tr Hmod) as [Hd Hs].
  split; [ | split; [ | split]].
  - intros Hobs.
    assert (NeptuneModify.pollLoop aws data (Z.to_nat NeptuneModify.maxAttempts) 0 tr
            = (Failed NeptuneModify.timeoutDiagnostic,
               (tr ++ pollAttempts id 59) ++ [DescribeDBClusters id])) as Hloop.
    { change (Z.to_nat NeptuneModify.maxAttempts) with (59 + 1)%nat.
      rewrite (pollLoop_not_yet aws data 59 1 0 tr).
      - rewrite pollLoop_step. fold id.
        change (observe (reply_DescribeDBClusters aws (tr ++ pollAttempts id 59) id))
          with (observedAt aws id tr 59).
        rewrite Hobs by lia. reflexivity.
      - intros k Hk. apply Hobs. lia.
      - unfold NeptuneModify.maxAttempts. lia. }
    rewrite Hloop in Hrun. rewrite Htr, Hrun. cbn [snd].
    split; [apply Hfail; rewrite Hrun; reflexivity | ].
    rewrite <- app_assoc. split; [reflexivity | ].
    exact (poll_counts tr id 59 Hd Hs).
  - intros Hto. apply Hfail in Hto. rewrite Hrun in Hto.
    destruct (NeptuneModify.pollLoop aws data (Z.to_nat NeptuneModify.maxAttempts) 0 tr)
      as [[[] | d | ] t] eqn:Hloop; simpl in Hto; try discriminate Hto.
    injection Hto as ->.
    apply pollLoop_timeout_only_at_end in Hloop as [-> Hobs]; [ | reflexivity].
    rewrite Htr, Hrun. cbn [snd]. split; [reflexivity | exact Hobs].
  - intros n Hn Hobs Havail.
    assert (NeptuneModify.pollLoop aws data (Z.to_nat NeptuneModify.maxAttempts) 0 tr
            = (Ok tt, (tr ++ pollAttempts id n) ++ [DescribeDBClusters id])) as Hloop.
    { replace (Z.to_nat NeptuneModify.maxAttempts) with (n + S (59 - n))%nat
        by (unfold NeptuneModify.maxAttempts; lia).
      rewrite (pollLoop_not_yet aws data n (S (59 - n)) 0 tr Hobs)
        by (unfold NeptuneModify.maxAttempts; lia).
      rewrite pollLoop_step. fold id.
      change (observe (reply_DescribeDBClusters aws (tr ++ pollAttempts id n) id))
        with (observedAt aws id tr n).
      rewrite Havail. reflexivity. }
    rewrite Hloop in Hrun. split.
    + apply (Hsucc _ (f_equal fst Hrun)).
    + rewrite Htr, Hrun. cbn [snd]. rewrite <- !app_assoc. reflexivity.
  - reflexivity.
Qed.

Lemma neptune_modify_polling_witness :
  let o := run (NeptuneModify.Create (settlingAWS 2) (neptuneModifyPlan "db-1")) in
  succeeded (fst o) = true /\
  snd o = [ModifyDBCluster (Some "db-1") (Some "audit-on") None (Some true);
           DescribeDBClusters (Some "db-1"); Sleep (30 * Second);
           DescribeDBClusters (Some "db-1"); Sleep (30 * Second);
           DescribeDBClusters (Some "db-1"); Now].
Proof.
  intros o.
  refine (proj1 (proj2 (proj2 (neptune_modify_polling (settlingAWS 2)
                                 (neptuneModifyPlan "db-1")
                                 [ModifyDBCluster (Some "db-1") (Some "audit-on")
                                    None (Some true)]
                                 o _ _))) 2%nat _ _ _).
  - reflexivity.
  - left; reflexivity.
  - lia.
  - intros [ | [ | k]] Hk; [reflexivity | reflexivity | lia].
  - reflexivity.
Defined.

(** ** What is handed back *)

(** C5.  Every mutating method of the four cluster resources (reboot and
    modify, Aurora and Neptune, Create and Update) hands back one of two
    things.  Either an error diagnostic and no stored model, and then the
    method never read the clock: no time stamp was made.  Or no diagnostic
    and a stored model whose time stamp is the non-empty RFC 3339 text of
    the time read by the last call of the method, the only reading of the
    clock; every call before it was answered without an error, and those
    calls end with the waiting of the resource: for Aurora reboot the
    describe call, mutation calls only, and the wait on the cluster; for
    Neptune reboot the describe call, the reboot of every member, and the
    wait for every member; for Aurora modify the modify call and the wait
    on the cluster; for Neptune modify the modify call and the polling,
    whose last describe call saw the cluster available.  A method that
    panics has not read the clock either. *)
Theorem outcome_invariant (aws : AWS) :
  (forall data,
     outcomeInvariant aws AuroraReboot.LastRebootTime (auroraRebootWaited aws data)
       (run (AuroraReboot.Create aws data)) /\
     outcomeInvariant aws AuroraReboot.LastRebootTime (auroraRebootWaited aws data)
       (run (AuroraReboot.Update aws data)))
  /\
  (forall data,
     outcomeInvariant aws NeptuneReboot.LastRebootTime (neptuneRebootWaited aws data)
       (run (NeptuneReboot.Create aws data)) /\
     outcomeInvariant aws NeptuneReboot.LastRebootTime (neptuneRebootWaited aws data)
       (run (NeptuneReboot.Update aws data)))
  /\
  (forall data,
     outcomeInvariant aws AuroraModify.LastModifiedTime (auroraModifyWaited aws data)
       (run (AuroraModify.Create aws data)) /\
     outcomeInvariant aws AuroraModify.LastModifiedTime (auroraModifyWaited aws data)
       (run (AuroraModify.Update aws data)))
  /\
  (forall data,
     outcomeInvariant aws NeptuneModify.LastModifiedTime (neptuneModifyWaited aws data)
       (run (NeptuneModify.Create aws data)) /\
     outcomeInvariant aws NeptuneModify.LastModifiedTime (neptuneModifyWaited aws data)
       (run (NeptuneModify.Update aws data))).
Proof.
  split; [ | split; [ | split]]; intros data; split; apply outcome_intro.
  (* Aurora reboot, Create *)
  - unfold AuroraReboot.Create.
    apply stamps_bind; [apply acks_selectClient | intros _].
    apply stamps_bind; [apply acks_aurora_describeCluster | intros cluster].
    apply stamps_bind; [apply acks_aurora_rebootCluster | intros _].
    apply stamps_bind; [apply acks_aurora_waitCluster | intros _].
    apply stamps_finish. reflexivity.
  - unfold AuroraReboot.Create. timed_steps.
    all: unfold selectClient, AuroraReboot.describeCluster, AuroraReboot.rebootCluster,
           AuroraReboot.rebootMember, AuroraReboot.waitCluster;
         emits_steps; reflexivity.
  - intros stored t H. exact (aurora_Create_Ok aws data stored t H).
  (* Aurora reboot, Update *)
  - unfold AuroraReboot.Update.
    apply stamps_bind; [apply acks_selectClient | intros _].
    apply stamps_bind; [apply acks_aurora_describeCluster | intros cluster].
    apply stamps_bind; [apply acks_aurora_rebootCluster | intros _].
    apply stamps_bind; [apply acks_aurora_waitCluster | intros _].
    apply stamps_finish. reflexivity.
  - unfold AuroraReboot.Update. timed_steps.
    all: unfold selectClient, AuroraReboot.describeCluster, AuroraReboot.rebootCluster,
           AuroraReboot.rebootMember, AuroraReboot.waitCluster;
         emits_steps; reflexivity.
  - intros stored t H. exact (aurora_Update_Ok aws data stored t H).
  (* Neptune reboot, Create *)
  - unfold NeptuneReboot.Create.
    apply stamps_bind; [apply acks_selectClient | intros _].
    apply stamps_bind; [apply acks_neptune_describeCluster | intros cluster].
    apply stamps_bind.
    { destruct (length (DBClusterMembers cluster) =? 0)%nat;
        [apply acks_AddError | apply acks_ret]. }
    intros _.
    apply stamps_bind; [apply acks_forRange, acks_neptune_rebootMember | intros _].
    apply stamps_bind; [apply acks_forRange, acks_neptune_waitMember | intros _].
    apply stamps_finish. reflexivity.
  - unfold NeptuneReboot.Create. timed_steps.
    all: unfold selectClient, NeptuneReboot.describeCluster, NeptuneReboot.rebootMember,
           NeptuneReboot.waitMember;
         emits_steps; reflexivity.
  - intros stored t H. exact (neptune_reboot_Ok aws data stored t (or_introl H)).
  (* Neptune reboot, Update *)
  - unfold NeptuneReboot.Update.
    apply stamps_bind; [apply acks_selectClient | intros _].
    apply stamps_bind; [apply acks_neptune_describeCluster | intros cluster].
    apply stamps_bind; [apply acks_forRange, acks_neptune_rebootMember | intros _].
    apply stamps_bind; [apply acks_forRange, acks_neptune_waitMember | intros _].
    apply stamps_finish. reflexivity.
  - unfold NeptuneReboot.Update. timed_steps.
    all: unfold selectClient, NeptuneReboot.describeCluster, NeptuneReboot.rebootMember,
           NeptuneReboot.waitMember;
         emits_steps; reflexivity.
  - intros stored t H. exact (neptune_reboot_Ok aws data stored t (or_intror H)).
  (* Aurora modify, Create *)
  - unfold AuroraModify.Create.
    apply stamps_bind; [apply acks_selectClient | intros _].
    apply stamps_bind; [apply acks_aurora_modifyCluster | intros _].
    apply stamps_bind; [apply acks_aurora_modify_waitCluster | intros _].
    apply stamps_finish. reflexivity.
  - unfold AuroraModify.Create. timed_steps.
    all: unfold selectClient, AuroraModify.modifyCluster, AuroraModify.waitCluster;
         emits_steps; reflexivity.
  - intros stored t H. exact (aurora_modify_Ok aws data stored t (or_introl H)).
  (* Aurora modify, Update *)
  - unfold AuroraModify.Update.
    apply stamps_bind; [apply acks_selectClient | intros _].
    apply stamps_bind; [apply acks_aurora_modifyCluster | intros _].
    apply stamps_bind; [apply acks_aurora_modify_waitCluster | intros _].
    apply stamps_finish. reflexivity.
  - unfold AuroraModify.Update. timed_steps.
    all: unfold selectClient, AuroraModify.modifyCluster, AuroraModify.waitCluster;
         emits_steps; reflexivity.
  - intros stored t H. exact (aurora_modify_Ok aws data stored t (or_intror H)).
  (* Neptune modify, Create *)
  - unfold NeptuneModify.Create.
    apply stamps_bind; [apply acks_selectClient | intros _].
    apply stamps_bind; [apply acks_neptune_modifyCluster | intros _].
    apply stamps_bind; [apply acks_neptune_pollLoop | intros _].
    apply stamps_finish. reflexivity.
  - unfold NeptuneModify.Create. timed_steps.
    all: unfold selectClient, NeptuneModify.modifyCluster;
         emits_steps; reflexivity.
  - intros stored t H. exact (neptune_modify_Ok aws data stored t (or_introl H)).
  (* Neptune modify, Update *)
  - unfold NeptuneModify.Update.
    apply stamps_bind; [apply acks_selectClient | intros _].
    apply stamps_bind; [apply acks_neptune_modifyCluster | intros _].
    apply stamps_bind; [apply acks_neptune_pollLoop | intros _].
    apply stamps_finish. reflexivity.
  - unfold NeptuneModify.Update. timed_steps.
    all: unfold selectClient, NeptuneModify.modifyCluster;
         emits_steps; reflexivity.
  - intros stored t H. exact (neptune_modify_Ok aws data stored t (or_intror H)).
Qed.

Lemma outcome_invariant_witness :
  exists stored tr',
    run (AuroraReboot.Create (calmAWS [db1]) (auroraPlan "db-1" Null)) =
      (Returned {| Diagnostics := []; StateSet := Some stored |}, tr' ++ [Now]) /\
    auroraRebootWaited (calmAWS [db1]) (auroraPlan "db-1" Null) tr' /\
    AuroraReboot.LastRebootTime stored = Known (Format_RFC3339 someTime).
Proof.
  destruct (proj1 (proj1 (outcome_invariant (calmAWS [db1])) (auroraPlan "db-1" Null)))
    as (stored & tr' & Hset & Htr & _ & _ & Hwaited & Hstamp & _).
  exists stored, tr'. split; [ | split; [exact Hwaited | exact Hstamp]].
  injection Hset as <-. cbn [snd] in Htr.
  apply app_inj_tail in Htr as [<- _]. reflexivity.
Defined.

(** * Further properties of the methods *)

(** ** What a method may call *)

(** X1.  Whatever AWS answers, a method calls only what belongs to it.
    Neptune reboot (Create, Update, Read): the loading of the
    configuration, the describe call for its own cluster, reboots of named
    instances without a force-failover hint, waits for named instances,
    and the clock; never a failover.  Aurora reboot: the same with the hint
    allowed, a failover of its own cluster to a named instance, and the
    wait on its own cluster instead of waits for instances.  Aurora and
    Neptune modify: the modify call, the describe call and the wait for
    their own cluster, sleeps and the clock; never a reboot or a
    failover. *)
Theorem methods_call_only_their_kind (aws : AWS) :
  (forall (data : NeptuneReboot.Model) o,
     o = run (NeptuneReboot.Create aws data) \/
     o = run (NeptuneReboot.Update aws data) \/
     o = run (NeptuneReboot.Read aws data) ->
     forallb (neptuneRebootKind (ValueString (NeptuneReboot.ClusterIdentifier data)))
       (snd o) = true)
  /\
  (forall (data : AuroraReboot.Model) o,
     o = run (AuroraReboot.Create aws data) \/
     o = run (AuroraReboot.Update aws data) \/
     o = run (AuroraReboot.Read aws data) ->
     forallb (auroraRebootKind (ValueString (AuroraReboot.ClusterIdentifier data)))
       (snd o) = true)
  /\
  (forall (data : AuroraModify.Model) o,
     o = run (AuroraModify.Create aws data) \/
     o = run (AuroraModify.Update aws data) \/
     o = run (AuroraModify.Read aws data) ->
     forallb (modifyKind (ValueString (AuroraModify.ClusterIdentifier data)))
       (snd o) = true)
  /\
  (forall (data : NeptuneModify.Model) o,
     o = run (NeptuneModify.Create aws data) \/
     o = run (NeptuneModify.Update aws data) \/
     o = run (NeptuneModify.Read aws data) ->
     forallb (modifyKind (ValueString (NeptuneModify.ClusterIdentifier data)))
       (snd o) = true).
Proof.
  split; [ | split; [ | split]].
  - intros data o [-> | [-> | ->]]; apply emits_run.
    + unfold NeptuneReboot.Create, selectClient, NeptuneReboot.describeCluster,
        NeptuneReboot.rebootMember, NeptuneReboot.waitMember.
      emits_steps; try reflexivity; apply String.eqb_refl.
    + unfold NeptuneReboot.Update, selectClient, NeptuneReboot.describeCluster,
        NeptuneReboot.rebootMember, NeptuneReboot.waitMember.
      emits_steps; try reflexivity; apply String.eqb_refl.
    + unfold NeptuneReboot.Read, selectClient.
      emits_steps; try reflexivity; apply String.eqb_refl.
  - intros data o [-> | [-> | ->]]; apply emits_run.
    + unfold AuroraReboot.Create, selectClient, AuroraReboot.describeCluster,
        AuroraReboot.rebootCluster, AuroraReboot.rebootMember, AuroraReboot.waitCluster.
      emits_steps; try reflexivity; apply String.eqb_refl.
    + unfold AuroraReboot.Update, selectClient, AuroraReboot.describeCluster,
        AuroraReboot.rebootCluster, AuroraReboot.rebootMember, AuroraReboot.waitCluster.
      emits_steps; try reflexivity; apply String.eqb_refl.
    + unfold AuroraReboot.Read, selectClient.
      emits_steps; try reflexivity; apply String.eqb_refl.
  - intros data o [-> | [-> | ->]]; apply emits_run.
    + unfold AuroraModify.Create, selectClient, AuroraModify.modifyCluster,
        AuroraModify.waitCluster.
      emits_steps; try reflexivity; apply String.eqb_refl.
    + unfold AuroraModify.Update, selectClient, AuroraModify.modifyCluster,
        AuroraModify.waitCluster.
      emits_steps; try reflexivity; apply String.eqb_refl.
    + unfold AuroraModify.Read, selectClient.
      emits_steps; try reflexivity; apply String.eqb_refl.
  - intros data o [-> | [-> | ->]]; apply emits_run.
    + unfold NeptuneModify.Create, selectClient, NeptuneModify.modifyCluster.
      emits_steps; try reflexivity; apply String.eqb_refl.
    + unfold NeptuneModify.Update, selectClient, NeptuneModify.modifyCluster.
      emits_steps; try reflexivity; apply String.eqb_refl.
    + unfold NeptuneModify.Read, selectClient.
      emits_steps; try reflexivity; apply String.eqb_refl.
Qed.

Lemma methods_call_only_their_kind_witness :
  forallb (neptuneRebootKind "db-1")
    (snd (run (NeptuneReboot.Create (calmAWS [db1]) (neptunePlan "db-1")))) = true.
Proof.
  refine (proj1 (methods_call_only_their_kind (calmAWS [db1])) (neptunePlan "db-1") _ _).
  left; reflexivity.
Defined.

(** X2.  Whatever AWS answers, every wait a mutating method asks for (on a
    cluster or on an instance) has a budget of 30 minutes and every sleep
    lasts 30 seconds: Create and Update of Aurora reboot, Neptune reboot,
    Aurora modify, Neptune modify and RDS reboot. *)
Theorem waits_and_sleeps_budget (aws : AWS) :
  (forall (data : AuroraReboot.Model) o,
     o = run (AuroraReboot.Create aws data) \/ o = run (AuroraReboot.Update aws data) ->
     forallb budgeted (snd o) = true)
  /\
  (forall (data : NeptuneReboot.Model) o,
     o = run (NeptuneReboot.Create aws data) \/ o = run (NeptuneReboot.Update aws data) ->
     forallb budgeted (snd o) = true)
  /\
  (forall (data : AuroraModify.Model) o,
     o = run (AuroraModify.Create aws data) \/ o = run (AuroraModify.Update aws data) ->
     forallb budgeted (snd o) = true)
  /\
  (forall (data : NeptuneModify.Model) o,
     o = run (NeptuneModify.Create aws data) \/ o = run (NeptuneModify.Update aws data) ->
     forallb budgeted (snd o) = true)
  /\
  (forall (data : RDSReboot.Model) o,
     o = run (RDSReboot.Create aws data) \/ o = run (RDSReboot.Update aws data) ->
     forallb budgeted (snd o) = true).
Proof.
  repeat split; intros data o [-> | ->]; apply emits_run;
    unfold AuroraReboot.Create, AuroraReboot.Update, AuroraReboot.describeCluster,
      AuroraReboot.rebootCluster, AuroraReboot.rebootMember, AuroraReboot.waitCluster,
      NeptuneReboot.Create, NeptuneReboot.Update, NeptuneReboot.describeCluster,
      NeptuneReboot.rebootMember, NeptuneReboot.waitMember,
      AuroraModify.Create, AuroraModify.Update, AuroraModify.modifyCluster,
      AuroraModify.waitCluster,
      NeptuneModify.Create, NeptuneModify.Update, NeptuneModify.modifyCluster,
      RDSReboot.Create, RDSReboot.Update, RDSReboot.rebootInstance,
      RDSReboot.waitInstance, selectClient;
    emits_steps; reflexivity.
Qed.

Lemma waits_and_sleeps_budget_witness :
  forallb budgeted
    (snd (run (NeptuneModify.Create (settlingAWS 2) (neptuneModifyPlan "db-1")))) = true.
Proof.
  refine (proj1 (proj2 (proj2 (proj2 (waits_and_sleeps_budget (settlingAWS 2)))))
            (neptuneModifyPlan "db-1") _ _).
  left; reflexivity.
Defined.

(** ** The client *)

Lemma after_selectClient {A} aws region (Q : Call -> bool) (k : unit -> M A) :
  emits Q (k tt) ->
  exists rest,
    snd (bind (selectClient aws region) k []) =
      (if IsNull region then [] else [LoadDefaultConfig (ValueString region)]) ++ rest /\
    forallb Q rest = true.
Proof.
  intros Hk. unfold bind. rewrite selectClient_run.
  destruct (IsNull region).
  - destruct (k tt []) as [r tr] eqn:Hrun.
    destruct (Hk _ _ _ Hrun) as (cs & -> & Hcs).
    exists cs. split; [reflexivity | exact Hcs].
  - destruct (reply_LoadDefaultConfig aws [] (ValueString region)).
    + exists []. split; reflexivity.
    + destruct (k tt [LoadDefaultConfig (ValueString region)]) as [r tr] eqn:Hrun.
      destruct (Hk _ _ _ Hrun) as (cs & -> & Hcs).
      exists cs. split; [reflexivity | exact Hcs].
Qed.

Lemma configuredRun_intro {Model} aws region (k : unit -> M Model) :
  emits (fun c => negb (isLoadConfig c)) (k tt) ->
  configuredRun aws region (run (bind (selectClient aws region) k)).
Proof.
  intros Hk. split.
  - rewrite snd_run. apply after_selectClient. exact Hk.
  - intros e Hnull He. unfold run.
    erewrite bind_Failed by (rewrite selectClient_run, Hnull, He; reflexivity).
    reflexivity.
Qed.

(** X3.  Every method of the four cluster resources and Create and Update
    of RDS reboot resolve their client first: with a null region nothing is
    loaded, with a region the first call loads the configuration for it;
    no later call loads a configuration; and when the loading errors the
    method ends there, with the diagnostic that names the region and the
    error, nothing stored and no call to the database service made. *)
Theorem client_resolved_first (aws : AWS) :
  (forall (data : AuroraReboot.Model) o,
     o = run (AuroraReboot.Create aws data) \/
     o = run (AuroraReboot.Update aws data) \/
     o = run (AuroraReboot.Read aws data) ->
     configuredRun aws (AuroraReboot.Region data) o)
  /\
  (forall (data : NeptuneReboot.Model) o,
     o = run (NeptuneReboot.Create aws data) \/
     o = run (NeptuneReboot.Update aws data) \/
     o = run (NeptuneReboot.Read aws data) ->
     configuredRun aws (NeptuneReboot.Region data) o)
  /\
  (forall (data : AuroraModify.Model) o,
     o = run (AuroraModify.Create aws data) \/
     o = run (AuroraModify.Update aws data) \/
     o = run (AuroraModify.Read aws data) ->
     configuredRun aws (AuroraModify.Region data) o)
  /\
  (forall (data : NeptuneModify.Model) o,
     o = run (NeptuneModify.Create aws data) \/
     o = run (NeptuneModify.Update aws data) \/
     o = run (NeptuneModify.Read aws data) ->
     configuredRun aws (NeptuneModify.Region data) o)
  /\
  (forall (data : RDSReboot.Model) o,
     o = run (RDSReboot.Create aws data) \/ o = run (RDSReboot.Update aws data) ->
     configuredRun aws (RDSReboot.Region data) o).
Proof.
  split; [ | split; [ | split; [ | split]]]; intros data o Ho;
    repeat (destruct Ho as [-> | Ho]); try subst o;
    apply configuredRun_intro;
    unfold AuroraReboot.describeCluster,
      AuroraReboot.rebootCluster, AuroraReboot.rebootMember, AuroraReboot.waitCluster,
      NeptuneReboot.describeCluster,
      NeptuneReboot.rebootMember, NeptuneReboot.waitMember,
      AuroraModify.modifyCluster, AuroraModify.waitCluster,
      NeptuneModify.modifyCluster,
      RDSReboot.rebootInstance, RDSReboot.waitInstance;
    emits_steps; reflexivity.
Qed.

Lemma client_resolved_first_witness :
  run (AuroraReboot.Create (withConfigError "no credentials" (calmAWS [db1]))
         (auroraPlanIn "eu-west-1" "db-1")) =
    (Returned {| Diagnostics := [configError "eu-west-1" "no credentials"];
                 StateSet := None |},
     [LoadDefaultConfig "eu-west-1"]).
Proof.
  refine (proj2 (proj1 (client_resolved_first
                          (withConfigError "no credentials" (calmAWS [db1])))
                   (auroraPlanIn "eu-west-1" "db-1") _ _) "no credentials" _ _).
  - left; reflexivity.
  - reflexivity.
  - reflexivity.
Defined.

(** ** Errors of single calls *)

(** X4.  Reboot, Create and Update, Aurora and Neptune: when the describe
    call errors the method ends right after it, with the diagnostic that
    carries the error, nothing stored, and no reboot, failover or wait. *)
Theorem describe_error_aborts (aws : AWS) :
  (forall (data : AuroraReboot.Model) h0 e o,
     let id := ValueString (AuroraReboot.ClusterIdentifier data) in
     selectClient aws (AuroraReboot.Region data) [] = (Ok tt, h0) ->
     reply_DescribeDBClusters aws h0 (Some id) = inl e ->
     o = run (AuroraReboot.Create aws data) \/ o = run (AuroraReboot.Update aws data) ->
     o = (Returned {| Diagnostics := [auroraDescribeError e]; StateSet := None |},
          h0 ++ [DescribeDBClusters (Some id)]))
  /\
  (forall (data : NeptuneReboot.Model) h0 e o,
     let id := ValueString (NeptuneReboot.ClusterIdentifier data) in
     selectClient aws (NeptuneReboot.Region data) [] = (Ok tt, h0) ->
     reply_DescribeDBClusters aws h0 (Some id) = inl e ->
     o = run (NeptuneReboot.Create aws data) \/ o = run (NeptuneReboot.Update aws data) ->
     o = (Returned {| Diagnostics := [neptuneDescribeError e]; StateSet := None |},
          h0 ++ [DescribeDBClusters (Some id)])).
Proof.
  split.
  - intros data h0 e o id Hsel Hrep [-> | ->]; unfold run.
    + unfold AuroraReboot.Create. erewrite bind_Ok by exact Hsel.
      erewrite bind_Failed
        by (rewrite aurora_describeCluster_run; fold id; rewrite Hrep; reflexivity).
      reflexivity.
    + unfold AuroraReboot.Update. erewrite bind_Ok by exact Hsel.
      erewrite bind_Failed
        by (rewrite aurora_describeCluster_run; fold id; rewrite Hrep; reflexivity).
      reflexivity.
  - intros data h0 e o id Hsel Hrep [-> | ->]; unfold run.
    + unfold NeptuneReboot.Create. erewrite bind_Ok by exact Hsel.
      erewrite bind_Failed
        by (rewrite neptune_describeCluster_run; fold id; rewrite Hrep; reflexivity).
      reflexivity.
    + unfold NeptuneReboot.Update. erewrite bind_Ok by exact Hsel.
      erewrite bind_Failed
        by (rewrite neptune_describeCluster_run; fold id; rewrite Hrep; reflexivity).
      reflexivity.
Qed.

Lemma describe_error_aborts_witness :
  run (NeptuneReboot.Update (withDescribeError "AccessDenied" (calmAWS [db1]))
         (neptunePlan "db-1")) =
    (Returned {| Diagnostics := [neptuneDescribeError "AccessDenied"];
                 StateSet := None |},
     [DescribeDBClusters (Some "db-1")]).
Proof.
  refine (proj2 (describe_error_aborts (withDescribeError "AccessDenied" (calmAWS [db1])))
            (neptunePlan "db-1") [] "AccessDenied" _ _ _ _).
  - reflexivity.
  - reflexivity.
  - right; reflexivity.
Defined.

(** X5.  Aurora reboot, Create and Update, when it fails over (at least two
    members, [reader] the first reader, [force_failover] true) and the
    failover call errors: the method ends right after that call with the
    failover diagnostic, nothing stored; no instance is rebooted instead and
    the cluster is not waited for. *)
Theorem aurora_failover_error_aborts
    (aws : AWS) (data : AuroraReboot.Model) (h0 : Trace)
    (cluster : DBCluster) (others : list DBCluster)
    (reader : DBClusterMember) (e : error)
    (o : Outcome AuroraReboot.Model * Trace) :
  let id := ValueString (AuroraReboot.ClusterIdentifier data) in
  let members := DBClusterMembers cluster in
  let h1 := h0 ++ [DescribeDBClusters (Some id)] in
  describedAs aws (AuroraReboot.Region data) id h0 (cluster :: others) ->
  Forall populated members ->
  (2 <= length members)%nat ->
  find isReader members = Some reader ->
  AuroraReboot.ForceFailover data = Known true ->
  reply_FailoverDBCluster aws h1 (Some id) (DBInstanceIdentifier reader) = Some e ->
  o = run (AuroraReboot.Create aws data) \/ o = run (AuroraReboot.Update aws data) ->
  o = (Returned {| Diagnostics := [auroraFailoverError e]; StateSet := None |},
       h1 ++ [FailoverDBCluster (Some id) (DBInstanceIdentifier reader)]).
Proof.
  intros id members h1 Hdesc Hpop Hlen Hfind Hff He Ho.
  assert (failoverChosen members (AuroraReboot.ForceFailover data) = true) as Hc.
  { unfold failoverChosen. rewrite existsb_find_isReader, Hfind, Hff.
    apply Nat.leb_le in Hlen. rewrite Hlen. reflexivity. }
  assert (AuroraReboot.Create aws data [] =
            (Failed (auroraFailoverError e),
             h1 ++ [FailoverDBCluster (Some id) (DBInstanceIdentifier reader)])) as Hrun.
  { rewrite (aurora_Create_run aws data h0 cluster others Hdesc).
    destruct (aurora_rebootCluster_failover aws data cluster h1 Hpop Hc)
      as (reader' & call & Hfind' & -> & Hreboot).
    fold members in Hfind'. rewrite Hfind in Hfind'. injection Hfind' as <-.
    fold id h1 in Hreboot |- *. rewrite Hreboot. cbn [errorOf]. rewrite He.
    reflexivity. }
  pose proof (aurora_either_failed aws data o _ Ho (f_equal fst Hrun)) as Hfail.
  pose proof (aurora_either_trace aws data o Ho) as Htr.
  rewrite Hrun in Htr. cbn [snd] in Htr.
  destruct o as [out tr]. unfold failedWith in Hfail. simpl in Hfail, Htr.
  rewrite Hfail, Htr. reflexivity.
Qed.

Lemma aurora_failover_error_aborts_witness :
  run (AuroraReboot.Create (withFailoverError "InvalidDBClusterStateFault" (calmAWS [db1]))
         (auroraPlan "db-1" (Known true))) =
    (Returned {| Diagnostics := [auroraFailoverError "InvalidDBClusterStateFault"];
                 StateSet := None |},
     [DescribeDBClusters (Some "db-1");
      FailoverDBCluster (Some "db-1") (Some "db-1-b")]).
Proof.
  refine (aurora_failover_error_aborts
            (withFailoverError "InvalidDBClusterStateFault" (calmAWS [db1]))
            (auroraPlan "db-1" (Known true)) [] db1 [] (member "db-1-b" false)
            "InvalidDBClusterStateFault" _ _ _ _ _ _ _ _).
  - split; reflexivity.
  - repeat constructor; discriminate.
  - simpl; lia.
  - reflexivity.
  - reflexivity.
  - reflexivity.
  - left; reflexivity.
Defined.

(** ** Read *)

(** X6.  Read, in all four cluster resources, makes the one describe call
    and decides on its error alone: an error fails the method with the
    read diagnostic and nothing stored; any reply without an error, a
    reply that lists no cluster included, stores the prior state exactly
    as it was, with no diagnostic. *)
Theorem read_keeps_state (aws : AWS) :
  (forall (data : AuroraReboot.Model) h0,
     let id := ValueString (AuroraReboot.ClusterIdentifier data) in
     selectClient aws (AuroraReboot.Region data) [] = (Ok tt, h0) ->
     run (AuroraReboot.Read aws data) =
       (match reply_DescribeDBClusters aws h0 (Some id) with
        | inl e => Returned {| Diagnostics := [auroraReadError e]; StateSet := None |}
        | inr _ => Returned {| Diagnostics := []; StateSet := Some data |}
        end, h0 ++ [DescribeDBClusters (Some id)]))
  /\
  (forall (data : NeptuneReboot.Model) h0,
     let id := ValueString (NeptuneReboot.ClusterIdentifier data) in
     selectClient aws (NeptuneReboot.Region data) [] = (Ok tt, h0) ->
     run (NeptuneReboot.Read aws data) =
       (match reply_DescribeDBClusters aws h0 (Some id) with
        | inl e => Returned {| Diagnostics := [neptuneReadError e]; StateSet := None |}
        | inr _ => Returned {| Diagnostics := []; StateSet := Some data |}
        end, h0 ++ [DescribeDBClusters (Some id)]))
  /\
  (forall (data : AuroraModify.Model) h0,
     let id := ValueString (AuroraModify.ClusterIdentifier data) in
     selectClient aws (AuroraModify.Region data) [] = (Ok tt, h0) ->
     run (AuroraModify.Read aws data) =
       (match reply_DescribeDBClusters aws h0 (Some id) with
        | inl e => Returned {| Diagnostics := [auroraReadError e]; StateSet := None |}
        | inr _ => Returned {| Diagnostics := []; StateSet := Some data |}
        end, h0 ++ [DescribeDBClusters (Some id)]))
  /\
  (forall (data : NeptuneModify.Model) h0,
     let id := ValueString (NeptuneModify.ClusterIdentifier data) in
     selectClient aws (NeptuneModify.Region data) [] = (Ok tt, h0) ->
     run (NeptuneModify.Read aws data) =
       (match reply_DescribeDBClusters aws h0 (Some id) with
        | inl e => Returned {| Diagnostics := [neptuneReadError e]; StateSet := None |}
        | inr _ => Returned {| Diagnostics := []; StateSet := Some data |}
        end, h0 ++ [DescribeDBClusters (Some id)])).
Proof.
  split; [ | split; [ | split]]; intros data h0 id Hsel; unfold run.
  - unfold AuroraReboot.Read. erewrite bind_Ok by exact Hsel.
    unfold bind, call_DescribeDBClusters, aws_String. fold id.
    destruct (reply_DescribeDBClusters aws h0 (Some id)); reflexivity.
  - unfold NeptuneReboot.Read. erewrite bind_Ok by exact Hsel.
    unfold bind, call_DescribeDBClusters, aws_String. fold id.
    destruct (reply_DescribeDBClusters aws h0 (Some id)); reflexivity.
  - unfold AuroraModify.Read. erewrite bind_Ok by exact Hsel.
    unfold bind, call_DescribeDBClusters, aws_String. fold id.
    destruct (reply_DescribeDBClusters aws h0 (Some id)); reflexivity.
  - unfold NeptuneModify.Read. erewrite bind_Ok by exact Hsel.
    unfold bind, call_DescribeDBClusters, aws_String. fold id.
    destruct (reply_DescribeDBClusters aws h0 (Some id)); reflexivity.
Qed.

Lemma read_keeps_state_witness :
  run (NeptuneModify.Read (calmAWS []) (neptuneModifyState "gone")) =
    (Returned {| Diagnostics := []; StateSet := Some (neptuneModifyState "gone") |},
     [DescribeDBClusters (Some "gone")]).
Proof.
  exact (proj2 (proj2 (proj2 (read_keeps_state (calmAWS []))))
           (neptuneModifyState "gone") [] eq_refl).
Defined.

(** ** Create and Update *)

Lemma neptune_steps_mapResult aws (f : NeptuneReboot.Model -> NeptuneReboot.Model)
    mk instances tr :
  neptuneRebootSteps aws (fun now => f (mk now)) instances tr =
    mapResult f (neptuneRebootSteps aws mk instances tr).
Proof.
  unfold neptuneRebootSteps.
  repeat (apply bind_mapResult; intros ? ?). reflexivity.
Qed.

Lemma rds_Update_as_Create aws data tr :
  RDSReboot.Update aws data tr =
    mapResult (rdsRebootKeepID data) (RDSReboot.Create aws data tr).
Proof.
  unfold RDSReboot.Update, RDSReboot.Create.
  repeat (apply bind_mapResult; intros ? ?). reflexivity.
Qed.

(** Peels the steps off a method body that ended normally, down to the
    model it returned. *)
Ltac stored_model H :=
  repeat (apply bind_Ok_inv in H as (? & ? & _ & H));
  injection H as <- _.

(** X7.  Update repeats Create.  For Aurora reboot, Aurora modify, Neptune
    modify and RDS reboot, Update makes the calls Create makes and reports
    the diagnostics Create reports, and what it stores is what Create
    stores with the planned [id] in place of the identifier; the same holds
    for Neptune reboot unless the cluster is described without members.
    Create of Aurora reboot stores the planned attributes unchanged, the
    cluster identifier as [id], and the time stamp. *)
Theorem update_repeats_create (aws : AWS) :
  (forall data : AuroraReboot.Model,
     run (AuroraReboot.Update aws data) =
       (mapOutcome (auroraRebootKeepID data) (fst (run (AuroraReboot.Create aws data))),
        snd (run (AuroraReboot.Create aws data))))
  /\
  (forall data : AuroraModify.Model,
     run (AuroraModify.Update aws data) =
       (mapOutcome (auroraModifyKeepID data) (fst (run (AuroraModify.Create aws data))),
        snd (run (AuroraModify.Create aws data))))
  /\
  (forall data : NeptuneModify.Model,
     run (NeptuneModify.Update aws data) =
       (mapOutcome (neptuneModifyKeepID data) (fst (run (NeptuneModify.Create aws data))),
        snd (run (NeptuneModify.Create aws data))))
  /\
  (forall data : RDSReboot.Model,
     run (RDSReboot.Update aws data) =
       (mapOutcome (rdsRebootKeepID data) (fst (run (RDSReboot.Create aws data))),
        snd (run (RDSReboot.Create aws data))))
  /\
  (forall data : NeptuneReboot.Model,
     (forall h0 cluster others,
        describedAs aws (NeptuneReboot.Region data)
          (ValueString (NeptuneReboot.ClusterIdentifier data)) h0 (cluster :: others) ->
        DBClusterMembers cluster <> []) ->
     run (NeptuneReboot.Update aws data) =
       (mapOutcome (neptuneRebootKeepID data) (fst (run (NeptuneReboot.Create aws data))),
        snd (run (NeptuneReboot.Create aws data))))
  /\
  (forall (data stored : AuroraReboot.Model) tr,
     run (AuroraReboot.Create aws data) =
       (Returned {| Diagnostics := []; StateSet := Some stored |}, tr) ->
     AuroraReboot.ClusterIdentifier stored = AuroraReboot.ClusterIdentifier data /\
     AuroraReboot.Region stored = AuroraReboot.Region data /\
     AuroraReboot.ForceFailover stored = AuroraReboot.ForceFailover data /\
     AuroraReboot.ID stored = Known (ValueString (AuroraReboot.ClusterIdentifier data)) /\
     exists now, AuroraReboot.LastRebootTime stored = Known (Format_RFC3339 now)).
Proof.
  split; [ | split; [ | split; [ | split; [ | split]]]].
  - intros data. apply run_mapResult, aurora_Update_as_Create.
  - intros data. apply run_mapResult, aurora_modify_Update_as_Create.
  - intros data. apply run_mapResult, neptune_modify_Update_as_Create.
  - intros data. apply run_mapResult, rds_Update_as_Create.
  - intros data Hmembers. apply run_mapResult.
    set (id := ValueString (NeptuneReboot.ClusterIdentifier data)) in *.
    destruct (selectClient aws (NeptuneReboot.Region data) []) as [[[] | d | ] h0] eqn:Hsel.
    + destruct (reply_DescribeDBClusters aws h0 (Some id)) as [e | [clusters]] eqn:Hrep.
      * assert (NeptuneReboot.describeCluster aws data h0 =
                  (Failed (neptuneDescribeError e), h0 ++ [DescribeDBClusters (Some id)]))
          as Hd
          by (rewrite neptune_describeCluster_run; fold id; rewrite Hrep; reflexivity).
        unfold NeptuneReboot.Update, NeptuneReboot.Create.
        erewrite bind_Ok by exact Hsel. erewrite bind_Failed by exact Hd.
        erewrite bind_Ok by exact Hsel. erewrite bind_Failed by exact Hd.
        reflexivity.
      * destruct clusters as [ | cluster others].
        -- rewrite (neptune_Update_not_found aws data h0),
             (neptune_Create_not_found aws data h0) by (split; assumption).
           reflexivity.
        -- assert (describedAs aws (NeptuneReboot.Region data) id h0 (cluster :: others))
             as Hdesc by (split; assumption).
           rewrite (neptune_Update_run aws data h0 cluster others Hdesc).
           rewrite (neptune_Create_run aws data h0 cluster others Hdesc).
           pose proof (Hmembers h0 cluster others Hdesc) as Hne.
           destruct (DBClusterMembers cluster) as [ | m ms] eqn:Hmem; [contradiction | ].
           apply (neptune_steps_mapResult aws (neptuneRebootKeepID data)).
    + unfold NeptuneReboot.Update, NeptuneReboot.Create.
      erewrite bind_Failed by exact Hsel. erewrite bind_Failed by exact Hsel.
      reflexivity.
    + unfold NeptuneReboot.Update, NeptuneReboot.Create.
      erewrite bind_Panicked by exact Hsel. erewrite bind_Panicked by exact Hsel.
      reflexivity.
  - intros data stored tr Hrun. unfold run, respond in Hrun.
    destruct (AuroraReboot.Create aws data []) as [[a | d | ] t] eqn:Hc;
      try discriminate Hrun.
    injection Hrun as -> _. unfold AuroraReboot.Create in Hc.
    stored_model Hc. repeat split. eexists. reflexivity.
Qed.

Lemma update_repeats_create_witness :
  run (NeptuneReboot.Update (calmAWS [db1]) (neptunePlan "db-1")) =
    (mapOutcome (neptuneRebootKeepID (neptunePlan "db-1"))
       (fst (run (NeptuneReboot.Create (calmAWS [db1]) (neptunePlan "db-1")))),
     snd (run (NeptuneReboot.Create (calmAWS [db1]) (neptunePlan "db-1")))).
Proof.
  refine (proj1 (proj2 (proj2 (proj2 (proj2 (update_repeats_create (calmAWS [db1]))))))
            (neptunePlan "db-1") _).
  intros h0 cluster others [_ Hrep]. injection Hrep as <- _. discriminate.
Defined.

(** ** Nil pointers *)

Section RangePanics.

Context {A : Type}.
Variable aws : AWS.
Variable body : A -> M unit.
Variable good : A -> Prop.
Variable callOf : A -> Call.
Variable diag : A -> error -> Diagnostic.

Hypothesis body_spec :
  forall x tr, good x ->
    body x tr =
      (match errorOf aws tr (callOf x) with
       | Some e => Failed (diag x e)
       | None => Ok tt
       end,
       tr ++ [callOf x]).

(** A body that panics before its call ends the loop after the calls of the
    elements before it. *)
Lemma forRange_panics p x q : forall tr,
  Forall good p ->
  ackedFrom aws tr (map callOf p) = true ->
  (forall tr', body x tr' = (Panicked, tr')) ->
  forRange (p ++ x :: q) body tr = (Panicked, tr ++ map callOf p).
Proof.
  induction p as [ | y p IH]; intros tr Hgood Hack Hx; simpl in *.
  - erewrite bind_Panicked by apply Hx. rewrite app_nil_r. reflexivity.
  - inversion Hgood as [ | ? ? Hgy Hgp]; subst.
    destruct (errorOf aws tr (callOf y)) eqn:Hry; [discriminate | ].
    erewrite bind_Ok by (rewrite body_spec, Hry by assumption; reflexivity).
    rewrite IH by assumption. rewrite <- app_assoc. reflexivity.
Qed.

End RangePanics.

Lemma findReader_writers_only members : forall tr,
  Forall (fun m => IsClusterWriter m = Some true) members ->
  AuroraReboot.findReader members tr = (Ok (false, None), tr).
Proof.
  induction members as [ | m members IH]; intros tr Hw; simpl.
  - reflexivity.
  - inversion Hw as [ | ? ? Hm Hrest]; subst.
    unfold bind, deref. rewrite Hm. simpl. apply IH. exact Hrest.
Qed.

Lemma findReader_nil_flag p x q : forall tr,
  Forall (fun m => IsClusterWriter m = Some true) p ->
  IsClusterWriter x = None ->
  AuroraReboot.findReader (p ++ x :: q) tr = (Panicked, tr).
Proof.
  induction p as [ | m p IH]; intros tr Hw Hx; simpl.
  - unfold bind, deref. rewrite Hx. reflexivity.
  - inversion Hw as [ | ? ? Hm Hrest]; subst.
    unfold bind at 1. unfold deref at 1. rewrite Hm. simpl.
    apply IH; assumption.
Qed.

Lemma run_Panicked {Model} (m : M Model) tr :
  m [] = (Panicked, tr) -> run m = (Crashed, tr).
Proof. intros H. unfold run, respond. rewrite H. reflexivity. Qed.

(** X9.  Nil pointers in the members of an Aurora cluster.  When the scan
    for a reader meets, after writers only, a member without its writer
    flag, Create and Update panic right after the describe call: nothing
    is rebooted.  When the fan-out over a cluster of writers reaches a
    member without an instance identifier, they panic before the call for
    that member: the members before it have been rebooted, the cluster is
    not waited for, and no response is produced. *)
Theorem aurora_nil_member_fields_panic
    (aws : AWS) (data : AuroraReboot.Model) (h0 : Trace)
    (cluster : DBCluster) (others : list DBCluster)
    (p : list DBClusterMember) (x : DBClusterMember) (q : list DBClusterMember)
    (o : Outcome AuroraReboot.Model * Trace) :
  let id := ValueString (AuroraReboot.ClusterIdentifier data) in
  let h1 := h0 ++ [DescribeDBClusters (Some id)] in
  let call :=
    auroraRebootCall
      (forwardedHint (AuroraReboot.ForceFailover data)
         (length (DBClusterMembers cluster))) in
  describedAs aws (AuroraReboot.Region data) id h0 (cluster :: others) ->
  DBClusterMembers cluster = p ++ x :: q ->
  o = run (AuroraReboot.Create aws data) \/ o = run (AuroraReboot.Update aws data) ->
  (Forall (fun m => IsClusterWriter m = Some true) p ->
   IsClusterWriter x = None ->
   o = (Crashed, h1))
  /\
  (Forall (fun m => IsClusterWriter m = Some true) (p ++ x :: q) ->
   Forall (fun m => DBInstanceIdentifier m <> None) p ->
   DBInstanceIdentifier x = None ->
   ackedFrom aws h1 (map call p) = true ->
   o = (Crashed, h1 ++ map call p)).
Proof.
  intros id h1 call Hdesc Hsplit Ho.
  assert (forall tr, AuroraReboot.Create aws data [] = (Panicked, tr) -> o = (Crashed, tr))
    as Hcrash.
  { intros tr Hrun. destruct Ho as [-> | ->].
    - apply run_Panicked. exact Hrun.
    - apply run_Panicked. rewrite aurora_Update_as_Create, Hrun. reflexivity. }
  split.
  - intros Hw Hx. apply Hcrash.
    rewrite (aurora_Create_run aws data h0 cluster others Hdesc). fold id h1.
    unfold AuroraReboot.rebootCluster. rewrite Hsplit.
    erewrite bind_Panicked by (apply findReader_nil_flag; assumption).
    reflexivity.
  - intros Hw Hnames Hx Hack. apply Hcrash.
    rewrite (aurora_Create_run aws data h0 cluster others Hdesc). fold id h1.
    unfold AuroraReboot.rebootCluster.
    erewrite bind_Ok
      by (rewrite Hsplit; apply findReader_writers_only; exact Hw).
    cbv beta iota. rewrite andb_false_r. cbn [andb].
    rewrite Hsplit at 1.
    rewrite (forRange_panics aws _ (fun m => DBInstanceIdentifier m <> None)
               call auroraRebootError).
    + reflexivity.
    + intros m tr Hm. apply aurora_rebootMember_spec. exact Hm.
    + exact Hnames.
    + exact Hack.
    + intros tr. unfold AuroraReboot.rebootMember, bind, deref. rewrite Hx. reflexivity.
Qed.

Lemma aurora_nil_member_fields_panic_witness :
  run (AuroraReboot.Create (calmAWS [db3]) (auroraPlan "db-3" Null)) =
    (Crashed, [DescribeDBClusters (Some "db-3"); RebootDBInstance (Some "db-3-a") None]).
Proof.
  refine (proj2 (aurora_nil_member_fields_panic (calmAWS [db3]) (auroraPlan "db-3" Null)
                   [] db3 [] [member "db-3-a" true]
                   {| DBInstanceIdentifier := None; IsClusterWriter := Some true |}
                   [member "db-3-c" true] _ _ _ _) _ _ _ _).
  - split; reflexivity.
  - reflexivity.
  - left; reflexivity.
  - repeat constructor.
  - repeat constructor; discriminate.
  - reflexivity.
  - reflexivity.
Defined.

(** The polling loop, after [n] attempts that did not end it, is at the
    attempt that follows them. *)
Lemma pollLoop_reaches aws data tr n :
  let id := Some (ValueString (NeptuneModify.ClusterIdentifier data)) in
  (n < 60)%nat ->
  (forall k, (k < n)%nat -> observedAt aws id tr k = SawNotAvailable) ->
  NeptuneModify.pollLoop aws data (Z.to_nat NeptuneModify.maxAttempts) 0 tr =
    NeptuneModify.pollLoop aws data (S (59 - n)) (Z.of_nat n) (tr ++ pollAttempts id n).
Proof.
  intros id Hn Hobs.
  replace (Z.to_nat NeptuneModify.maxAttempts) with (n + S (59 - n))%nat
    by (unfold NeptuneModify.maxAttempts; lia).
  rewrite (pollLoop_not_yet aws data n (S (59 - n)) 0 tr Hobs)
    by (unfold NeptuneModify.maxAttempts; lia).
  reflexivity.
Qed.

Lemma neptune_modify_either aws data o r t :
  o = run (NeptuneModify.Create aws data) \/ o = run (NeptuneModify.Update aws data) ->
  NeptuneModify.Create aws data [] = (r, t) ->
  (forall d, r = Failed d ->
     o = (Returned {| Diagnostics := [d]; StateSet := None |}, t)) /\
  (r = Panicked -> o = (Crashed, t)).
Proof.
  intros Ho Hrun.
  split; [intros d -> | intros ->];
    (destruct Ho as [-> | ->];
     [unfold run; rewrite Hrun; reflexivity
     | unfold run; rewrite neptune_modify_Update_as_Create, Hrun; reflexivity]).
Qed.

(** X10.  Neptune modify, Create and Update, after the modify call was
    acknowledged and [n < 60] polling attempts saw the cluster not yet
    available.  When the next describe call errors, the method stops there
    with the diagnostic of that error: it does not sleep and try again.
    When the next describe call answers with a first cluster that has no
    status, the method panics at that call.  In both cases that describe
    call is the last call made and nothing is stored. *)
Theorem neptune_modify_polling_interrupted
    (aws : AWS) (data : NeptuneModify.Model) (tr : Trace) (n : nat)
    (o : Outcome NeptuneModify.Model * Trace) :
  let id := Some (ValueString (NeptuneModify.ClusterIdentifier data)) in
  let here := tr ++ pollAttempts id n in
  modified aws data tr ->
  o = run (NeptuneModify.Create aws data) \/ o = run (NeptuneModify.Update aws data) ->
  (n < 60)%nat ->
  (forall k, (k < n)%nat -> observedAt aws id tr k = SawNotAvailable) ->
  (forall e,
     reply_DescribeDBClusters aws here id = inl e ->
     o = (Returned {| Diagnostics := [neptuneDescribeError e]; StateSet := None |},
          here ++ [DescribeDBClusters id]))
  /\
  (forall result cluster rest,
     reply_DescribeDBClusters aws here id = inr result ->
     DBClusters result = cluster :: rest ->
     Status cluster = None ->
     o = (Crashed, here ++ [DescribeDBClusters id])).
Proof.
  intros id here Hmod Ho Hn Hobs.
  pose proof (neptune_modify_Create_run aws data tr Hmod) as Hrun.
  rewrite (pollLoop_reaches aws data tr n Hn Hobs), pollLoop_step in Hrun.
  fold id here in Hrun.
  split.
  - intros e He. rewrite He in Hrun. cbn [observe] in Hrun.
    apply (neptune_modify_either aws data o _ _ Ho Hrun). reflexivity.
  - intros result cluster rest Hr Hc Hs. rewrite Hr in Hrun.
    unfold observe in Hrun. rewrite Hc, Hs in Hrun.
    apply (neptune_modify_either aws data o _ _ Ho Hrun). reflexivity.
Qed.

Lemma neptune_modify_polling_interrupted_witness :
  run (NeptuneModify.Create (withDescribeErrorAfter 1 "Throttling" (settlingAWS 5))
         (neptuneModifyPlan "db-1")) =
    (Returned {| Diagnostics := [neptuneDescribeError "Throttling"]; StateSet := None |},
     [ModifyDBCluster (Some "db-1") (Some "audit-on") None (Some true);
      DescribeDBClusters (Some "db-1"); Sleep (30 * Second);
      DescribeDBClusters (Some "db-1")]).
Proof.
  refine (proj1 (neptune_modify_polling_interrupted
                   (withDescribeErrorAfter 1 "Throttling" (settlingAWS 5))
                   (neptuneModifyPlan "db-1")
                   [ModifyDBCluster (Some "db-1") (Some "audit-on") None (Some true)]
                   1%nat _ _ _ _ _) "Throttling" _).
  - reflexivity.
  - left; reflexivity.
  - lia.
  - intros [ | k] Hk; [reflexivity | lia].
  - reflexivity.
Defined.

(** ** The modify request *)

Lemma neptune_modifyCluster_run aws data h :
  NeptuneModify.modifyCluster aws data h =
    match modifyRequest (NeptuneModify.ClusterIdentifier data)
            (NeptuneModify.ClusterParameterGroupName data)
            (NeptuneModify.CloudWatchLogsExports data)
            (NeptuneModify.ApplyImmediately data) with
    | None => (Failed conversionDiagnostic, h)
    | Some c =>
        (match errorOf aws h c with
         | Some e => Failed (neptuneModifyError e)
         | None => Ok tt
         end, h ++ [c])
    end.
Proof.
  unfold NeptuneModify.modifyCluster, modifyRequest, sentLogs, sentString, sentBool,
    bind, ElementsAs, call_ModifyDBCluster, aws_String, aws_Bool, AddError, ret,
    neptuneModifyError.
  destruct (NeptuneModify.CloudWatchLogsExports data) as [ | | elems];
    cbn [IsNull negb]; try reflexivity.
  - destruct (NeptuneModify.ClusterParameterGroupName data),
      (NeptuneModify.ApplyImmediately data);
      cbn [IsNull negb errorOf];
      match goal with |- context [reply_ModifyDBCluster ?a ?b ?c ?d ?e ?f] =>
        destruct (reply_ModifyDBCluster a b c d e f) end; reflexivity.
  - destruct (knownElements elems) as [ss | ]; [ | reflexivity].
    destruct (NeptuneModify.ClusterParameterGroupName data),
      (NeptuneModify.ApplyImmediately data);
      cbn [IsNull negb errorOf];
      match goal with |- context [reply_ModifyDBCluster ?a ?b ?c ?d ?e ?f] =>
        destruct (reply_ModifyDBCluster a b c d e f) end; reflexivity.
Qed.

(** What a run of Create or of Update is, from what Create computes, when
    Update is Create with another model stored. *)
Lemma either_run {Model} (create update : M Model) (f : Model -> Model) o :
  (forall tr, update tr = mapResult f (create tr)) ->
  o = run create \/ o = run update ->
  snd o = snd (create []) /\
  (forall d, fst (create []) = Failed d ->
     fst o = Returned {| Diagnostics := [d]; StateSet := None |}) /\
  (fst (create []) = Panicked -> fst o = Crashed) /\
  (forall a, fst (create []) = Ok a ->
     (o = run create -> fst o = Returned {| Diagnostics := []; StateSet := Some a |}) /\
     (o = run update ->
      fst o = Returned {| Diagnostics := []; StateSet := Some (f a) |})).
Proof.
  intros Hup Ho.
  assert (run update = respond (mapResult f (create []))) as Hrun
    by (unfold run; rewrite Hup; reflexivity).
  assert (run create = respond (create [])) as Hrun' by reflexivity.
  destruct (create []) as [[a | d | ] t]; cbn [fst snd mapResult respond] in *.
  - repeat split; try discriminate.
    + destruct Ho as [-> | ->]; [rewrite Hrun' | rewrite Hrun]; reflexivity.
    + intros ->. injection H as <-. rewrite Hrun'. reflexivity.
    + intros ->. injection H as <-. rewrite Hrun. reflexivity.
  - repeat split; try discriminate.
    + destruct Ho as [-> | ->]; [rewrite Hrun' | rewrite Hrun]; reflexivity.
    + intros d' Hd. injection Hd as <-.
      destruct Ho as [-> | ->]; [rewrite Hrun' | rewrite Hrun]; reflexivity.
  - repeat split; try discriminate.
    + destruct Ho as [-> | ->]; [rewrite Hrun' | rewrite Hrun]; reflexivity.
    + intros _. destruct Ho as [-> | ->]; [rewrite Hrun' | rewrite Hrun]; reflexivity.
Qed.

(** Neptune modify Create, down to its polling loop. *)
Lemma neptune_modify_Create_steps aws data h0 :
  selectClient aws (NeptuneModify.Region data) [] = (Ok tt, h0) ->
  match modifyRequest (NeptuneModify.ClusterIdentifier data)
          (NeptuneModify.ClusterParameterGroupName data)
          (NeptuneModify.CloudWatchLogsExports data)
          (NeptuneModify.ApplyImmediately data) with
  | None => NeptuneModify.Create aws data [] = (Failed conversionDiagnostic, h0)
  | Some c =>
      match errorOf aws h0 c with
      | Some e => NeptuneModify.Create aws data [] = (Failed (neptuneModifyError e), h0 ++ [c])
      | None => modified aws data (h0 ++ [c])
      end
  end.
Proof.
  intros Hsel.
  pose proof (neptune_modifyCluster_run aws data h0) as Hmod.
  destruct (modifyRequest _ _ _ _) as [c | ].
  - destruct (errorOf aws h0 c) as [e | ].
    + unfold NeptuneModify.Create. erewrite bind_Ok by exact Hsel.
      erewrite bind_Failed by exact Hmod. reflexivity.
    + unfold modified. erewrite bind_Ok by exact Hsel. exact Hmod.
  - unfold NeptuneModify.Create. erewrite bind_Ok by exact Hsel.
    erewrite bind_Failed by exact Hmod. reflexivity.
Qed.

Lemma pair_eta {A B} (p : A * B) a b : fst p = a -> snd p = b -> p = (a, b).
Proof. destruct p. simpl. intros -> ->. reflexivity. Qed.

(** X11.  The modify request of Aurora modify and of Neptune modify, Create
    and Update.  The one modify call names the planned cluster and carries
    the parameter group and the apply-immediately flag exactly when they
    are not null, and the log types exactly when the list is not null.  A
    list that is not null and does not convert to strings (unknown, or with
    a null or unknown element) ends the method with a diagnostic before any
    call to the database service.  When the modify call errors, the method
    ends right after it with the modify diagnostic, nothing stored: it does
    not wait or poll.  No run makes a second mutating call. *)
Theorem modify_request (aws : AWS) :
  (forall (data : AuroraModify.Model) h0 o,
     selectClient aws (AuroraModify.Region data) [] = (Ok tt, h0) ->
     o = run (AuroraModify.Create aws data) \/ o = run (AuroraModify.Update aws data) ->
     match modifyRequest (AuroraModify.ClusterIdentifier data)
             (AuroraModify.ParameterGroupName data)
             (AuroraModify.CloudWatchLogsExports data)
             (AuroraModify.ApplyImmediately data) with
     | None => exists d, o = (Returned {| Diagnostics := [d]; StateSet := None |}, h0)
     | Some c =>
         (exists rest, snd o = h0 ++ c :: rest /\ mutations rest = []) /\
         (forall e, errorOf aws h0 c = Some e ->
            o = (Returned {| Diagnostics := [auroraModifyError e]; StateSet := None |},
                 h0 ++ [c]))
     end)
  /\
  (forall (data : NeptuneModify.Model) h0 o,
     selectClient aws (NeptuneModify.Region data) [] = (Ok tt, h0) ->
     o = run (NeptuneModify.Create aws data) \/ o = run (NeptuneModify.Update aws data) ->
     match modifyRequest (NeptuneModify.ClusterIdentifier data)
             (NeptuneModify.ClusterParameterGroupName data)
             (NeptuneModify.CloudWatchLogsExports data)
             (NeptuneModify.ApplyImmediately data) with
     | None => exists d, o = (Returned {| Diagnostics := [d]; StateSet := None |}, h0)
     | Some c =>
         (exists rest, snd o = h0 ++ c :: rest /\ mutations rest = []) /\
         (forall e, errorOf aws h0 c = Some e ->
            o = (Returned {| Diagnostics := [neptuneModifyError e]; StateSet := None |},
                 h0 ++ [c]))
     end).
Proof.
  split.
  - intros data h0 o Hsel Ho.
    destruct (either_run _ _ _ o (aurora_modify_Update_as_Create aws data) Ho)
      as (Htr & Hfail & _ & _).
    rewrite (aurora_modify_Create_run aws data h0 Hsel) in Htr, Hfail.
    destruct (modifyRequest _ _ _ _) as [c | ].
    + cbv zeta in Htr, Hfail.
      destruct (errorOf aws h0 c) as [e | ].
      * split.
        -- exists []. split; [exact Htr | reflexivity].
        -- intros e' He'. injection He' as <-.
           apply pair_eta; [apply Hfail; reflexivity | exact Htr].
      * split; [ | discriminate].
        destruct (errorOf aws (h0 ++ [c]) _).
        -- eexists. split; [exact Htr | reflexivity].
        -- eexists. split; [exact Htr | reflexivity].
    + exists conversionDiagnostic.
      apply pair_eta; [apply Hfail; reflexivity | exact Htr].
  - intros data h0 o Hsel Ho.
    destruct (either_run _ _ _ o (neptune_modify_Update_as_Create aws data) Ho)
      as (Htr & Hfail & _ & _).
    pose proof (neptune_modify_Create_steps aws data h0 Hsel) as Hsteps.
    destruct (modifyRequest _ _ _ _) as [c | ].
    + destruct (errorOf aws h0 c) as [e | ].
      * rewrite Hsteps in Htr, Hfail. split.
        -- exists []. split; [exact Htr | reflexivity].
        -- intros e' He'. injection He' as <-.
           apply pair_eta; [apply Hfail; reflexivity | exact Htr].
      * split; [ | discriminate].
        rewrite (neptune_modify_Create_run aws data _ Hsteps) in Htr.
        assert (emits (fun c => negb (isMutation c))
                  (NeptuneModify.pollLoop aws data (Z.to_nat NeptuneModify.maxAttempts) 0))
          as Hem by (apply emits_pollLoop; reflexivity).
        destruct (NeptuneModify.pollLoop aws data _ 0 (h0 ++ [c])) as [[[] | d | ] t] eqn:Hloop;
          destruct (Hem _ _ _ Hloop) as (cs & -> & Hcs); cbn [snd] in Htr.
        -- exists (cs ++ [Now]). rewrite Htr, <- !app_assoc. split; [reflexivity | ].
           unfold mutations. rewrite filter_app. cbn [filter isMutation app].
           rewrite app_nil_r. apply filter_none_negb. exact Hcs.
        -- exists cs. rewrite Htr, <- !app_assoc. split; [reflexivity | ].
           apply filter_none_negb. exact Hcs.
        -- exists cs. rewrite Htr, <- !app_assoc. split; [reflexivity | ].
           apply filter_none_negb. exact Hcs.
    + rewrite Hsteps in Htr, Hfail. exists conversionDiagnostic.
      apply pair_eta; [apply Hfail; reflexivity | exact Htr].
Qed.

Lemma modify_request_witness :
  (exists d,
     run (AuroraModify.Create (calmAWS []) (auroraModifyPlanWithNullLog "db-1")) =
       (Returned {| Diagnostics := [d]; StateSet := None |}, []))
  /\
  run (AuroraModify.Update (withModifyError "InvalidParameterValue" (calmAWS []))
         (auroraModifyPlan "db-1")) =
    (Returned {| Diagnostics := [auroraModifyError "InvalidParameterValue"];
                 StateSet := None |},
     [ModifyDBCluster (Some "db-1") (Some "pg-1") (Some ["postgresql"]) None]).
Proof.
  split.
  - exact (proj1 (modify_request (calmAWS [])) (auroraModifyPlanWithNullLog "db-1") [] _
             eq_refl (or_introl eq_refl)).
  - refine (proj2 (proj1 (modify_request (withModifyError "InvalidParameterValue" (calmAWS [])))
                     (auroraModifyPlan "db-1") [] _ eq_refl (or_intror eq_refl))
              "InvalidParameterValue" _).
    reflexivity.
Defined.

(** X12.  Aurora modify, Create and Update, once the modify call [c] was
    acknowledged: the method waits once, on the planned cluster, for at
    most 30 minutes.  When the wait errors the method ends there with the
    wait diagnostic and nothing stored.  Otherwise it reads the time and
    stores, with no diagnostic, the planned attributes with the time stamp
    in RFC 3339; Create stores the cluster identifier as [id], Update keeps
    the planned [id]. *)
Theorem aurora_modify_wait_and_stamp
    (aws : AWS) (data : AuroraModify.Model) (h0 : Trace) (c : Call) :
  let w := WaitDBClusterAvailable (Some (ValueString (AuroraModify.ClusterIdentifier data)))
             (30 * Minute) in
  selectClient aws (AuroraModify.Region data) [] = (Ok tt, h0) ->
  modifyRequest (AuroraModify.ClusterIdentifier data) (AuroraModify.ParameterGroupName data)
    (AuroraModify.CloudWatchLogsExports data) (AuroraModify.ApplyImmediately data) = Some c ->
  errorOf aws h0 c = None ->
  (forall e o,
     errorOf aws (h0 ++ [c]) w = Some e ->
     o = run (AuroraModify.Create aws data) \/ o = run (AuroraModify.Update aws data) ->
     o = (Returned {| Diagnostics := [auroraWaitError e]; StateSet := None |},
          h0 ++ [c; w]))
  /\
  (errorOf aws (h0 ++ [c]) w = None ->
   let stored := auroraModified data (reply_Now aws (h0 ++ [c; w])) in
   run (AuroraModify.Create aws data) =
     (Returned {| Diagnostics := []; StateSet := Some stored |}, h0 ++ [c; w; Now]) /\
   run (AuroraModify.Update aws data) =
     (Returned {| Diagnostics := [];
                  StateSet := Some (auroraModifyKeepID data stored) |},
      h0 ++ [c; w; Now])).
Proof.
  intros w Hsel Hreq Hack.
  pose proof (aurora_modify_Create_run aws data h0 Hsel) as Hrun.
  rewrite Hreq in Hrun. cbv zeta in Hrun. rewrite Hack in Hrun. fold w in Hrun.
  split.
  - intros e o He Ho. rewrite He in Hrun.
    destruct (either_run _ _ _ o (aurora_modify_Update_as_Create aws data) Ho)
      as (Htr & Hfail & _ & _).
    rewrite Hrun in Htr, Hfail.
    apply pair_eta; [apply Hfail; reflexivity | exact Htr].
  - intros He stored. rewrite He in Hrun. fold stored in Hrun. split.
    + unfold run. rewrite Hrun. reflexivity.
    + unfold run. rewrite aurora_modify_Update_as_Create, Hrun. reflexivity.
Qed.

Lemma aurora_modify_wait_and_stamp_witness :
  run (AuroraModify.Create (withClusterWaitError "exceeded max wait time" (calmAWS []))
         (auroraModifyPlan "db-1")) =
    (Returned {| Diagnostics := [auroraWaitError "exceeded max wait time"];
                 StateSet := None |},
     [ModifyDBCluster (Some "db-1") (Some "pg-1") (Some ["postgresql"]) None;
      WaitDBClusterAvailable (Some "db-1") (30 * Minute)]).
Proof.
  refine (proj1 (aurora_modify_wait_and_stamp
                   (withClusterWaitError "exceeded max wait time" (calmAWS []))
                   (auroraModifyPlan "db-1") []
                   (ModifyDBCluster (Some "db-1") (Some "pg-1") (Some ["postgresql"]) None)
                   _ _ _)
            "exceeded max wait time" _ _ _).
  - reflexivity.
  - reflexivity.
  - reflexivity.
  - reflexivity.
  - left; reflexivity.
Defined.

(** ** RDS reboot *)

Lemma rds_rebootInstance_run aws data h :
  let c := RebootDBInstance (Some (ValueString (RDSReboot.DBInstanceIdentifier data)))
             (sentBool (RDSReboot.ForceFailover data)) in
  RDSReboot.rebootInstance aws data h =
    (match errorOf aws h c with
     | Some e => Failed (rdsRebootError e)
     | None => Ok tt
     end, h ++ [c]).
Proof.
  unfold RDSReboot.rebootInstance, bind, call_RebootDBInstance, aws_String, aws_Bool,
    sentBool, AddError, ret, rdsRebootError.
  destruct (RDSReboot.ForceFailover data); cbn [IsNull negb errorOf];
    match goal with |- context [reply_RebootDBInstance ?a ?b ?c ?d] =>
      destruct (reply_RebootDBInstance a b c d) end; reflexivity.
Qed.

Lemma rds_waitInstance_run aws data h :
  let w := WaitDBInstanceAvailable (Some (ValueString (RDSReboot.DBInstanceIdentifier data)))
             (30 * Minute) in
  RDSReboot.waitInstance aws data h =
    (match errorOf aws h w with
     | Some e => Failed (rdsWaitError e)
     | None => Ok tt
     end, h ++ [w]).
Proof.
  unfold RDSReboot.waitInstance, bind, call_WaitDBInstanceAvailable, aws_String,
    AddError, ret, rdsWaitError.
  cbn [errorOf].
  match goal with |- context [reply_WaitDBInstanceAvailable ?a ?b ?c ?d] =>
    destruct (reply_WaitDBInstanceAvailable a b c d) end; reflexivity.
Qed.

Lemma rds_Create_run aws data h0 :
  let inst := Some (ValueString (RDSReboot.DBInstanceIdentifier data)) in
  let c := RebootDBInstance inst (sentBool (RDSReboot.ForceFailover data)) in
  let w := WaitDBInstanceAvailable inst (30 * Minute) in
  selectClient aws (RDSReboot.Region data) [] = (Ok tt, h0) ->
  RDSReboot.Create aws data [] =
    match errorOf aws h0 c with
    | Some e => (Failed (rdsRebootError e), h0 ++ [c])
    | None =>
        match errorOf aws (h0 ++ [c]) w with
        | Some e => (Failed (rdsWaitError e), h0 ++ [c; w])
        | None =>
            (Ok (rdsRebooted data (reply_Now aws (h0 ++ [c; w]))), h0 ++ [c; w; Now])
        end
    end.
Proof.
  intros inst c w Hsel. unfold RDSReboot.Create.
  erewrite bind_Ok by exact Hsel.
  unfold bind at 1. rewrite rds_rebootInstance_run. cbv zeta. fold inst c.
  destruct (errorOf aws h0 c); [reflexivity | ].
  unfold bind at 1. rewrite rds_waitInstance_run. cbv zeta. fold inst w.
  rewrite <- !app_assoc. cbn [app].
  destruct (errorOf aws (h0 ++ [c]) w); [reflexivity | ].
  unfold bind, call_Now, ret, rdsRebooted, StringValue.
  rewrite <- !app_assoc. reflexivity.
Qed.

(** X13.  RDS reboot, Create and Update, once it has its client.  It
    reboots the one planned instance and forwards [force_failover] whenever
    that attribute is not null, [false] included; a reboot error ends the
    method right after the call with the reboot diagnostic and no wait.
    Otherwise it waits once, for that instance, for at most 30 minutes; a
    wait error ends the method with the wait diagnostic.  Otherwise it
    reads the time and stores the plan with the RFC 3339 time stamp, Create
    with the instance identifier as [id], Update with the planned [id]. *)
Theorem rds_reboot_run (aws : AWS) (data : RDSReboot.Model) (h0 : Trace) :
  let inst := Some (ValueString (RDSReboot.DBInstanceIdentifier data)) in
  let c := RebootDBInstance inst
             (match RDSReboot.ForceFailover data with
              | Null => None
              | Unknown => Some false
              | Known b => Some b
              end) in
  let w := WaitDBInstanceAvailable inst (30 * Minute) in
  selectClient aws (RDSReboot.Region data) [] = (Ok tt, h0) ->
  (forall e o,
     errorOf aws h0 c = Some e ->
     o = run (RDSReboot.Create aws data) \/ o = run (RDSReboot.Update aws data) ->
     o = (Returned {| Diagnostics := [rdsRebootError e]; StateSet := None |}, h0 ++ [c]))
  /\
  (forall e o,
     errorOf aws h0 c = None ->
     errorOf aws (h0 ++ [c]) w = Some e ->
     o = run (RDSReboot.Create aws data) \/ o = run (RDSReboot.Update aws data) ->
     o = (Returned {| Diagnostics := [rdsWaitError e]; StateSet := None |},
          h0 ++ [c; w]))
  /\
  (errorOf aws h0 c = None ->
   errorOf aws (h0 ++ [c]) w = None ->
   let stored := rdsRebooted data (reply_Now aws (h0 ++ [c; w])) in
   run (RDSReboot.Create aws data) =
     (Returned {| Diagnostics := []; StateSet := Some stored |}, h0 ++ [c; w; Now]) /\
   run (RDSReboot.Update aws data) =
     (Returned {| Diagnostics := []; StateSet := Some (rdsRebootKeepID data stored) |},
      h0 ++ [c; w; Now])).
Proof.
  intros inst c w Hsel.
  pose proof (rds_Create_run aws data h0 Hsel) as Hrun. cbv zeta in Hrun.
  replace (sentBool (RDSReboot.ForceFailover data))
    with (match RDSReboot.ForceFailover data with
          | Null => None
          | Unknown => Some false
          | Known b => Some b
          end) in Hrun
    by (destruct (RDSReboot.ForceFailover data); reflexivity).
  fold inst c w in Hrun.
  split; [ | split].
  - intros e o He Ho. rewrite He in Hrun.
    destruct (either_run _ _ _ o (rds_Update_as_Create aws data) Ho)
      as (Htr & Hfail & _ & _).
    rewrite Hrun in Htr, Hfail.
    apply pair_eta; [apply Hfail; reflexivity | exact Htr].
  - intros e o Hc He Ho. rewrite Hc, He in Hrun.
    destruct (either_run _ _ _ o (rds_Update_as_Create aws data) Ho)
      as (Htr & Hfail & _ & _).
    rewrite Hrun in Htr, Hfail.
    apply pair_eta; [apply Hfail; reflexivity | exact Htr].
  - intros Hc He stored. rewrite Hc, He in Hrun. fold stored in Hrun. split.
    + unfold run. rewrite Hrun. reflexivity.
    + unfold run. rewrite rds_Update_as_Create, Hrun. reflexivity.
Qed.

Lemma rds_reboot_run_witness :
  run (RDSReboot.Create (calmAWS []) (rdsPlan "pg-main" (Known false))) =
    (Returned {| Diagnostics := [];
                 StateSet := Some (rdsRebooted (rdsPlan "pg-main" (Known false)) someTime) |},
     [RebootDBInstance (Some "pg-main") (Some false);
      WaitDBInstanceAvailable (Some "pg-main") (30 * Minute); Now]).
Proof.
  refine (proj1 (proj2 (proj2 (rds_reboot_run (calmAWS []) (rdsPlan "pg-main" (Known false))
                                 [] _)) _ _)).
  - reflexivity.
  - reflexivity.
  - reflexivity.
Defined.

(** ** The polling loop, whatever it sees *)

Lemma either_succeeded {Model} (create update : M Model) (f : Model -> Model) o r t :
  (forall tr, update tr = mapResult f (create tr)) ->
  o = run create \/ o = run update ->
  create [] = (r, t) ->
  snd o = t /\
  succeeded (fst o) = match r with Ok _ => true | _ => false end.
Proof.
  intros Hup Ho Hc.
  assert (run update = respond (mapResult f (create []))) as Hrun
    by (unfold run; rewrite Hup; reflexivity).
  assert (run create = respond (create [])) as Hrun' by reflexivity.
  rewrite Hc in Hrun, Hrun'.
  destruct Ho as [-> | ->]; [rewrite Hrun' | rewrite Hrun];
    destruct r; split; reflexivity.
Qed.

(** A loop that is allowed [S remaining] more attempts, the last of them
    being attempt 59, ends at a describe call, after at most [remaining]
    attempts that were each followed by a sleep. *)
Lemma pollLoop_shape aws data remaining : forall i tr r tr',
  let id := Some (ValueString (NeptuneModify.ClusterIdentifier data)) in
  Z.of_nat (S remaining) + i = NeptuneModify.maxAttempts ->
  NeptuneModify.pollLoop aws data (S remaining) i tr = (r, tr') ->
  exists k, (k <= remaining)%nat /\
            tr' = tr ++ pollAttempts id k ++ [DescribeDBClusters id].
Proof.
  induction remaining as [ | remaining IH]; intros i tr r tr' id Hinv Hrun;
    rewrite pollLoop_step in Hrun; fold id in Hrun.
  - exists 0%nat. split; [lia | ].
    destruct (observe _); try (injection Hrun as _ <-; reflexivity).
    destruct (Z.eqb_spec i (NeptuneModify.maxAttempts - 1)) as [_ | Hneq];
      [injection Hrun as _ <-; reflexivity | lia].
  - destruct (observe _);
      try (exists 0%nat; split; [lia | injection Hrun as _ <-; reflexivity]).
    destruct (Z.eqb_spec i (NeptuneModify.maxAttempts - 1)) as [Heq | Hneq]; [lia | ].
    apply IH in Hrun as (k & Hk & ->); [ | lia].
    exists (S k). split; [lia | ].
    fold id. cbn [pollAttempts]. rewrite <- !app_assoc. reflexivity.
Qed.

Lemma describes_app tr1 tr2 : describes (tr1 ++ tr2) = describes tr1 ++ describes tr2.
Proof. apply filter_app. Qed.

Lemma sleeps_app tr1 tr2 : sleeps (tr1 ++ tr2) = sleeps tr1 ++ sleeps tr2.
Proof. apply filter_app. Qed.

(** X14.  The polling of Neptune modify is bounded whatever AWS answers.
    A run of Create or Update that did not get its modify call acknowledged
    makes no describe call and does not sleep.  Every other run polls from
    the trace [tr] the modify call left: [k <= 59] describe calls each
    followed by a sleep of 30 seconds, then one more describe call, which
    is the last call of a run that fails or panics and is followed only by
    the reading of the time in a run that succeeds.  So no run makes more
    than 60 describe calls or sleeps more than 59 times, and none sleeps
    after its last describe call. *)
Theorem neptune_modify_polling_bounded
    (aws : AWS) (data : NeptuneModify.Model) (o : Outcome NeptuneModify.Model * Trace) :
  let id := Some (ValueString (NeptuneModify.ClusterIdentifier data)) in
  o = run (NeptuneModify.Create aws data) \/ o = run (NeptuneModify.Update aws data) ->
  ((describes (snd o) = [] /\ sleeps (snd o) = [] /\ succeeded (fst o) = false)
   \/
   (exists tr k,
      modified aws data tr /\ (k <= 59)%nat /\
      snd o = tr ++ pollAttempts id k ++
              DescribeDBClusters id :: (if succeeded (fst o) then [Now] else [])))
  /\
  (length (describes (snd o)) <= 60)%nat /\
  (length (sleeps (snd o)) <= 59)%nat.
Proof.
  intros id Ho.
  assert ((describes (snd o) = [] /\ sleeps (snd o) = [] /\ succeeded (fst o) = false)
          \/
          (exists tr k,
             modified aws data tr /\ (k <= 59)%nat /\
             snd o = tr ++ pollAttempts id k ++
                     DescribeDBClusters id :: (if succeeded (fst o) then [Now] else [])))
    as Hshape.
  { pose proof (fun r t =>
                  either_succeeded _ _ _ o r t
                    (neptune_modify_Update_as_Create aws data) Ho) as Heither.
    destruct (selectClient aws (NeptuneModify.Region data) []) as [[[] | d | ] h0] eqn:Hsel.
    - destruct (selectClient_not_observed _ _ _ _ Hsel) as (_ & _ & Hd & Hs & _).
      pose proof (neptune_modify_Create_steps aws data h0 Hsel) as Hsteps.
      unfold modifyRequest in Hsteps.
      destruct (sentLogs _) as [l | ].
      + destruct (errorOf aws h0 _) as [e | ].
        * left. destruct (Heither _ _ Hsteps) as [-> ->].
          rewrite describes_app, sleeps_app, Hd, Hs. repeat split; reflexivity.
        * right. eexists. 
          pose proof (neptune_modify_Create_run aws data _ Hsteps) as Hrun.
          destruct (NeptuneModify.pollLoop aws data _ 0 _) as [[[] | d | ] t] eqn:Hloop;
            apply pollLoop_shape in Hloop as (k & Hk & ->); try reflexivity;
            destruct (Heither _ _ Hrun) as [-> ->];
            exists k; (split; [exact Hsteps | split; [exact Hk | ]]);
            fold id; rewrite <- ?app_assoc; reflexivity.
      + left. destruct (Heither _ _ Hsteps) as [-> ->].
        repeat split; assumption.
    - left.
      assert (NeptuneModify.Create aws data [] = (Failed d, h0)) as Hrun
        by (unfold NeptuneModify.Create; erewrite bind_Failed by exact Hsel; reflexivity).
      destruct (selectClient_not_observed _ _ _ _ Hsel) as (_ & _ & Hd & Hs & _).
      destruct (Heither _ _ Hrun) as [-> ->]. repeat split; assumption.
    - left.
      assert (NeptuneModify.Create aws data [] = (Panicked, h0)) as Hrun
        by (unfold NeptuneModify.Create; erewrite bind_Panicked by exact Hsel; reflexivity).
      destruct (selectClient_not_observed _ _ _ _ Hsel) as (_ & _ & Hd & Hs & _).
      destruct (Heither _ _ Hrun) as [-> ->]. repeat split; assumption. }
  split; [exact Hshape | ].
  destruct Hshape as [(Hd & Hs & _) | (tr & k & Hmod & Hk & Htr)].
  - rewrite Hd, Hs. simpl. lia.
  - destruct (modified_unobserved aws data tr Hmod) as [Hd Hs].
    destruct (describes_pollAttempts id k) as [Hpd Hps].
    rewrite Htr, !describes_app, !sleeps_app, Hd, Hs, !length_app, Hpd, Hps.
    destruct (succeeded (fst o)); simpl; lia.
Qed.

Lemma neptune_modify_polling_bounded_witness :
  let o := run (NeptuneModify.Update (settlingAWS 100) (neptuneModifyState "db-1")) in
  (length (describes (snd o)) <= 60)%nat /\ (length (sleeps (snd o)) <= 59)%nat.
Proof.
  intros o.
  exact (proj2 (neptune_modify_polling_bounded (settlingAWS 100) (neptuneModifyState "db-1")
                  o (or_intror eq_refl))).
Defined.

(** X15.  Neptune modify has no not-found check in its polling: a describe
    reply that lists no cluster counts as the cluster not yet being
    available.  When each of the 60 describe calls is answered without an
    error by an empty list, Create and Update sleep 59 times and fail after
    the 60th describe call with the diagnostic of the timeout. *)
Theorem neptune_modify_missing_cluster_times_out
    (aws : AWS) (data : NeptuneModify.Model) (tr : Trace)
    (o : Outcome NeptuneModify.Model * Trace) :
  let id := Some (ValueString (NeptuneModify.ClusterIdentifier data)) in
  modified aws data tr ->
  o = run (NeptuneModify.Create aws data) \/ o = run (NeptuneModify.Update aws data) ->
  (forall k, (k < 60)%nat ->
     exists result,
       reply_DescribeDBClusters aws (tr ++ pollAttempts id k) id = inr result /\
       DBClusters result = []) ->
  o = (Returned {| Diagnostics := [NeptuneModify.timeoutDiagnostic]; StateSet := None |},
       tr ++ pollAttempts id 59 ++ [DescribeDBClusters id]).
Proof.
  intros id Hmod Ho Hempty.
  assert (forall k, (k < 60)%nat -> observedAt aws id tr k = SawNotAvailable) as Hobs.
  { intros k Hk. destruct (Hempty k Hk) as (result & Hr & Hc).
    unfold observedAt, observe. rewrite Hr, Hc. reflexivity. }
  pose proof (neptune_modify_Create_run aws data tr Hmod) as Hrun.
  rewrite (pollLoop_reaches aws data tr 59) in Hrun
    by (try lia; intros k Hk; apply Hobs; lia).
  rewrite pollLoop_step in Hrun. fold id in Hrun.
  change (observe (reply_DescribeDBClusters aws (tr ++ pollAttempts id 59) id))
    with (observedAt aws id tr 59) in Hrun.
  rewrite Hobs in Hrun by lia.
  change (Z.of_nat 59 =? NeptuneModify.maxAttempts - 1) with true in Hrun.
  cbv iota in Hrun.
  rewrite <- app_assoc in Hrun.
  apply (neptune_modify_either aws data o _ _ Ho Hrun). reflexivity.
Qed.

Lemma neptune_modify_missing_cluster_times_out_witness :
  run (NeptuneModify.Create (calmAWS []) (neptuneModifyPlan "gone")) =
    (Returned {| Diagnostics := [NeptuneModify.timeoutDiagnostic]; StateSet := None |},
     [ModifyDBCluster (Some "gone") (Some "audit-on") None (Some true)]
       ++ pollAttempts (Some "gone") 59 ++ [DescribeDBClusters (Some "gone")]).
Proof.
  refine (neptune_modify_missing_cluster_times_out (calmAWS []) (neptuneModifyPlan "gone")
            [ModifyDBCluster (Some "gone") (Some "audit-on") None (Some true)] _ _ _ _).
  - reflexivity.
  - left; reflexivity.
  - intros k _. eexists. split; reflexivity.
Defined.

(** ** Reboots are not rolling *)

Lemma auroraMutationCalls_no_wait id ff members :
  forallb (fun c => negb (isWait c)) (auroraMutationCalls id ff members) = true.
Proof.
  unfold auroraMutationCalls.
  destruct (failoverChosen members ff).
  - destruct (find isReader members); reflexivity.
  - apply forallb_map_all. reflexivity.
Qed.

(** X16.  A reboot is not rolling.  Whatever AWS answers, a run of Neptune
    reboot Create or Update that waits at all has issued the reboot of every
    member of the described cluster first, each one acknowledged, and
    issues no mutation call after them.  On a described cluster whose
    members have both their pointers set, a run of Aurora reboot Create or
    Update that waits at all has issued all its mutation calls (the
    failover, or the reboot of every member) first, each one acknowledged,
    and issues none after them. *)
Theorem reboot_waits_follow_all_mutations (aws : AWS) :
  (forall (data : NeptuneReboot.Model) h0 cluster others o,
     let id := ValueString (NeptuneReboot.ClusterIdentifier data) in
     let h1 := h0 ++ [DescribeDBClusters (Some id)] in
     let reboots := map neptuneRebootCall (DBClusterMembers cluster) in
     describedAs aws (NeptuneReboot.Region data) id h0 (cluster :: others) ->
     o = run (NeptuneReboot.Create aws data) \/ o = run (NeptuneReboot.Update aws data) ->
     waits (snd o) <> [] ->
     ackedFrom aws h1 reboots = true /\
     exists tail, snd o = h1 ++ reboots ++ tail /\ mutations tail = [])
  /\
  (forall (data : AuroraReboot.Model) h0 cluster others o,
     let id := ValueString (AuroraReboot.ClusterIdentifier data) in
     let h1 := h0 ++ [DescribeDBClusters (Some id)] in
     let calls :=
       auroraMutationCalls id (AuroraReboot.ForceFailover data)
         (DBClusterMembers cluster) in
     describedAs aws (AuroraReboot.Region data) id h0 (cluster :: others) ->
     Forall populated (DBClusterMembers cluster) ->
     o = run (AuroraReboot.Create aws data) \/ o = run (AuroraReboot.Update aws data) ->
     waits (snd o) <> [] ->
     ackedFrom aws h1 calls = true /\
     exists tail, snd o = h1 ++ calls ++ tail /\ mutations tail = []).
Proof.
  split.
  - intros data h0 cluster others o id h1 reboots Hdesc Ho Hwaits.
    destruct (neptune_h1_unobserved aws _ id h0 _ Hdesc) as (_ & Hw1 & _).
    fold h1 in Hw1.
    assert (exists mk,
              snd o = h1 \/
              snd o = snd (neptuneRebootSteps aws mk (DBClusterMembers cluster) h1))
      as (mk & Htr).
    { destruct Ho as [-> | ->]; rewrite snd_run.
      - rewrite (neptune_Create_run aws data h0 cluster others Hdesc). fold id h1.
        destruct (DBClusterMembers cluster) as [ | m ms].
        + exists (neptuneRebooted data). left. reflexivity.
        + eexists. right. reflexivity.
      - rewrite (neptune_Update_run aws data h0 cluster others Hdesc). fold id h1.
        eexists. right. reflexivity. }
    destruct Htr as [Htr | Htr]; [rewrite Htr in Hwaits; contradiction | ].
    destruct (neptune_steps_trace aws mk (DBClusterMembers cluster) h1) as (r & Hrun & _).
    rewrite Hrun in Htr. cbn [snd] in Htr. fold reboots in Htr.
    destruct (ackedFrom aws h1 reboots) eqn:Hack.
    + split; [reflexivity | ].
      rewrite issuedOf_acked in Htr by exact Hack.
      eexists. split; [exact Htr | ].
      unfold mutations. rewrite filter_app.
      rewrite filter_issuedOf_none
        by (apply (forallb_map_all (fun c => negb (isMutation c))); reflexivity).
      match goal with |- context [if ?b then _ else _] => destruct b end; reflexivity.
    + exfalso. apply Hwaits. rewrite Htr, app_nil_r.
      unfold waits in *. rewrite filter_app, Hw1.
      apply filter_issuedOf_none.
      apply (forallb_map_all (fun c => negb (isWait c))). reflexivity.
  - intros data h0 cluster others o id h1 calls Hdesc Hpop Ho Hwaits.
    destruct (aurora_h1_unobserved aws data h0 cluster others Hdesc) as (_ & Hw1 & _).
    fold id h1 in Hw1.
    rewrite (aurora_either_trace aws data o Ho) in Hwaits |- *.
    destruct (ackedFrom aws h1 calls) eqn:Hack.
    + split; [reflexivity | ].
      rewrite (aurora_Create_acked aws data h0 cluster others Hdesc Hpop Hack).
      fold id h1 calls.
      destruct (errorOf aws (h1 ++ calls) (auroraWaitCall id));
        cbn [snd]; rewrite <- app_assoc; eexists; split; reflexivity.
    + exfalso. apply Hwaits.
      destruct (aurora_Create_not_acked aws data h0 cluster others Hdesc Hpop Hack)
        as [d ->].
      cbn [snd]. fold id h1 calls. unfold waits in *. rewrite filter_app, Hw1.
      apply filter_issuedOf_none. apply auroraMutationCalls_no_wait.
Qed.

Lemma reboot_waits_follow_all_mutations_witness :
  let o := run (NeptuneReboot.Create (withWaitError "db-1-a" "timeout" (calmAWS [db1]))
                  (neptunePlan "db-1")) in
  exists tail,
    snd o = [DescribeDBClusters (Some "db-1")]
            ++ [RebootDBInstance (Some "db-1-a") None; RebootDBInstance (Some "db-1-b") None]
            ++ tail /\
    mutations tail = [].
Proof.
  intros o.
  refine (proj2 (proj1 (reboot_waits_follow_all_mutations
                          (withWaitError "db-1-a" "timeout" (calmAWS [db1])))
                   (neptunePlan "db-1") [] db1 [] o _ _ _)).
  - split; reflexivity.
  - left; reflexivity.
  - vm_compute. discriminate.
Defined.
